(** * kedro_viz.api.rest.responses: REST response types, the default graph
      response and the human-readable JSON encoder.

    The development follows [package/kedro_viz/api/rest/responses.py]:

    - Python values and exceptions ([pyval], [result]);
    - what pydantic does when a model is built ([pydantic]), and the
      response classes, one module per class, each with the record of its
      fields, its validation ([validate]) and its dump ([model_dump]);
    - the data access manager as an interface, and [get_default_response]
      in a monad that raises and records the calls made to the manager;
    - [orjson.dumps] with its option word, and
      [EnhancedORJSONResponse.encode_to_human_readable];
    - a JSON reader ([reader.loads]) and a layout check
      ([layout.indented]), used to state what the written bytes are;
    - the properties, from validation to the encoder.

    The libraries are described as they are documented: pydantic 2 (the
    branch [PYDANTIC_V2] of the source) and orjson 3. A [float] is
    identified with the decimal text written for it; binary floating point
    arithmetic is outside the model. *)

From Stdlib Require Import ZArith List Strings.String Strings.Byte.
From Stdlib Require Import Numbers.DecimalZ Numbers.DecimalPos Numbers.DecimalFacts.
From Stdlib Require Import Numbers.DecimalN.
From Stdlib Require Numbers.DecimalString.
From stdpp Require Import base tactics option list strings.
Import ListNotations.

Set Warnings "-register-all".
Local Open Scope string_scope.
Local Open Scope list_scope.
Local Open Scope Z_scope.

(** ** Python values *)

(** A decimal digit. *)
Inductive digit : Type := d0 | d1 | d2 | d3 | d4 | d5 | d6 | d7 | d8 | d9.

(** A finite [float] is identified with the decimal text that denotes it:
    the shortest one that reads back as the same float, which is what
    [orjson] writes for it. The text has a sign, an integer part, and a
    fraction ([Fixed]: 0.2, -12.5, 2300.0) or an exponent, with or without
    a fraction ([Exponent]: 1e16, 1.5e-7). The digits a given float has are
    not computed here (binary floating point arithmetic is outside the
    model); every statement holds whatever they are. *)
Inductive finite_float : Type :=
| Fixed (negative : bool) (int : N) (frac_first : digit) (frac_rest : list digit)
| Exponent (negative : bool) (int : N) (frac : list digit) (exp : Z).

(** A [float]: finite, or one of [nan], [inf] and [-inf]. *)
Inductive pyfloat : Type :=
| NaN
| Inf (negative : bool)
| Finite (x : finite_float).

(** The element types of a numeric array ([numpy.dtype]): the integer
    types of 8 to 64 bits, [bool], the floating types, and the types
    [orjson] does not write ([object], [complex128], [str_], ...).
    Arrays of [datetime64] are outside the model. *)
Inductive dtype : Type :=
| dt_integer
| dt_bool
| dt_float64
| dt_float32
| dt_float16
| dt_unsupported (name : string).

(** An element of an array of a given type. An element of a floating type
    is identified, like a [float], with the text written for it. *)
Definition scalar (t : dtype) : Type :=
  match t with
  | dt_integer => Z
  | dt_bool => bool
  | dt_float64 | dt_float32 | dt_float16 => pyfloat
  | dt_unsupported _ => unit
  end.

(** The elements of an array of one or more dimensions, row by row. *)
Inductive nested (A : Type) : Type :=
| Row (xs : list A)
| Rows (rows : list (nested A)).
Arguments Row {A} xs.
Arguments Rows {A} rows.

(** A numeric array ([numpy.ndarray]): its element type, whether its
    memory is laid out in C order without gaps ([a.flags.c_contiguous]; a
    transposed array or a slice with a step is not), and its elements. *)
Record ndarray : Type := mk_ndarray {
  nd_dtype : dtype;
  c_contiguous : bool;
  items : nested (scalar nd_dtype)
}.

(** The values the response layer handles. A [str] is identified with its
    UTF-8 bytes (a lone surrogate, which has none, with the three bytes
    [ED A0..BF 80..BF] that would encode it); a [dict] keeps its insertion
    order; [PyObject] is an instance of an ordinary class (neither a
    dataclass nor a model), read through its attributes. Instances of
    [bytes], of [datetime], [uuid] and [enum] classes, dataclasses and
    numpy scalars are outside the model. *)
Inductive pyval : Type :=
| PyNone
| PyBool (b : bool)
| PyInt (z : Z)
| PyStr (s : string)
| PyList (xs : list pyval)
| PyDict (kvs : list (pyval * pyval))
| PyNdarray (a : ndarray)
| PyObject (cls : string) (attrs : list (string * pyval))
| PyFloat (f : pyfloat)
| PyTuple (xs : list pyval).

Abbreviation pydict := (list (pyval * pyval)).

(** An element of an array as a Python value ([a.item()]). *)
Definition scalar_value (t : dtype) : scalar t → pyval :=
  match t with
  | dt_integer => PyInt
  | dt_bool => PyBool
  | dt_float64 | dt_float32 | dt_float16 => PyFloat
  | dt_unsupported _ => fun _ => PyNone
  end.

(** What iterating over an array yields: its elements if it has one
    dimension, else its rows as arrays. *)
Definition ndarray_iter (a : ndarray) : list pyval :=
  match items a with
  | Row xs => map (scalar_value (nd_dtype a)) xs
  | Rows rows =>
      map (fun r => PyNdarray (mk_ndarray (nd_dtype a) (c_contiguous a) r)) rows
  end.

(** ** Exceptions *)

Inductive pyexc : Type :=
| ValidationError (loc msg : string)
| AttributeError (name : string)
| JSONEncodeError (msg : string)
| JSONDecodeError (msg : string)
| IndexError (msg : string)
| NotFound (message : string)
| MetadataUnavailable (message : string).

Inductive result (A : Type) : Type :=
| Ok (a : A)
| Raise (e : pyexc).
Arguments Ok {A} a.
Arguments Raise {A} e.

#[global] Instance result_ret : MRet result := fun A a => Ok a.
#[global] Instance result_bind : MBind result := fun A B f m =>
  match m with Ok a => f a | Raise e => Raise e end.
#[global] Instance result_fmap : FMap result := fun A B f m =>
  match m with Ok a => Ok (f a) | Raise e => Raise e end.

Definition is_ok {A} (m : result A) : bool :=
  match m with Ok _ => true | Raise _ => false end.

(** ** Association lists *)

Fixpoint assoc {A} (name : string) (l : list (string * A)) : option A :=
  match l with
  | [] => None
  | (k, v) :: l' => if String.eqb k name then Some v else assoc name l'
  end.

(** [d.get(name)] for a [str] key. *)
Fixpoint dict_get_str (name : string) (kvs : pydict) : option pyval :=
  match kvs with
  | [] => None
  | (PyStr k, v) :: kvs' =>
      if String.eqb k name then Some v else dict_get_str name kvs'
  | _ :: kvs' => dict_get_str name kvs'
  end.

(** ** pydantic validation *)

(** Building a model from keyword arguments or from an object: every
    declared field is looked up and validated against its type, in the
    order of declaration; undeclared arguments are ignored. A [str] field
    takes a [str] (a number is not converted), a [Dict] field a [dict], a
    [List] field a list or another iterable. The error of the first field
    that fails is the one reported. *)
Module pydantic.

(** Where a model reads the value of a field: the keyword arguments or a
    [dict], and with [from_attributes] (the [orm_mode] of pydantic 1)
    the attributes of an object. *)
Definition get_field (from_attributes : bool) (input : pyval) (name : string)
  : result (option pyval) :=
  match input with
  | PyDict kvs => Ok (dict_get_str name kvs)
  | PyObject _ attrs =>
      if from_attributes then Ok (assoc name attrs)
      else Raise (ValidationError name "value is not a valid dict")
  | _ => Raise (ValidationError name "value is not a valid dict or object")
  end.

(** A field declared without a default. *)
Definition required {A} (from_attributes : bool) (f : pyval → result A)
    (input : pyval) (name : string) : result A :=
  o ← get_field from_attributes input name;
  match o with
  | Some v => f v
  | None => Raise (ValidationError name "field required")
  end.

(** A field declared with a default: [name: T = dflt]. *)
Definition defaulted {A} (from_attributes : bool) (f : pyval → result A)
    (dflt : A) (input : pyval) (name : string) : result A :=
  o ← get_field from_attributes input name;
  match o with
  | Some v => f v
  | None => Ok dflt
  end.

Definition validate_str (v : pyval) : result string :=
  match v with
  | PyStr s => Ok s
  | _ => Raise (ValidationError "" "str type expected")
  end.

(** [List[T]]: a [list], or another iterable that is neither a [str] nor
    a mapping (here a [tuple] or a numeric array), element by element. *)
Definition validate_list {A} (f : pyval → result A) (v : pyval)
  : result (list A) :=
  match v with
  | PyList xs | PyTuple xs => mapM f xs
  | PyNdarray a => mapM f (ndarray_iter a)
  | _ => Raise (ValidationError "" "value is not a valid list")
  end.

(** [Dict] without parameters: any [dict]. *)
Definition validate_dict (v : pyval) : result pydict :=
  match v with
  | PyDict kvs => Ok kvs
  | _ => Raise (ValidationError "" "value is not a valid dict")
  end.

(** [Dict[str, T]]. *)
Definition validate_dict_str {A} (f : pyval → result A) (v : pyval)
  : result (list (string * A)) :=
  match v with
  | PyDict kvs =>
      mapM (fun kv : pyval * pyval =>
              k ← validate_str kv.1; x ← f kv.2; mret (k, x)) kvs
  | _ => Raise (ValidationError "" "value is not a valid dict")
  end.

(** [Optional[T]]. *)
Definition validate_optional {A} (f : pyval → result A) (v : pyval)
  : result (option A) :=
  match v with
  | PyNone => Ok None
  | _ => Some <$> f v
  end.

(** A [Union]: the members are tried from left to right and the first
    that validates is taken. (So do pydantic 1 and pydantic 2 before 2.8;
    from 2.8 on, of several members that validate the one with the most
    fields set is taken. The two agree when one member validates, and when
    the first member that validates has the most fields set; a statement
    that needs this says so.) *)
Definition union {A} (l r : pyval → result A) (v : pyval) : result A :=
  match l v with
  | Ok a => Ok a
  | Raise _ => r v
  end.

(** Dumping field values. *)
Definition dump_str (s : string) : pyval := PyStr s.
Definition dump_list {A} (f : A → pyval) (l : list A) : pyval :=
  PyList (map f l).
Definition dump_optional {A} (f : A → pyval) (o : option A) : pyval :=
  match o with Some a => f a | None => PyNone end.
Definition dump_dict (d : pydict) : pyval := PyDict d.
Definition dump_dict_str {A} (f : A → pyval) (d : list (string * A)) : pyval :=
  PyDict (map (fun kv : string * A => (PyStr kv.1, f kv.2)) d).
Definition field (name : string) (v : pyval) : pyval * pyval :=
  (PyStr name, v).

End pydantic.
Import pydantic.

(** ** The response classes *)

(** [BaseAPIResponse] sets [from_attributes] ([orm_mode]) for every class
    derived from it; [APIErrorMessage] derives from [BaseModel] alone. *)
Definition BaseAPIResponse_from_attributes : bool := true.

Module APIErrorMessage.
Record t := mk { message : string }.
Definition validate (input : pyval) : result t :=
  m ← required false validate_str input "message";
  mret (mk m).
Definition model_dump (r : t) : pyval :=
  PyDict [field "message" (dump_str (message r))].
End APIErrorMessage.

Module BaseGraphNodeAPIResponse.
Record t := mk {
  id : string;
  name : string;
  tags : list string;
  pipelines : list string;
  type : string;
  (* None for a ModularPipeline node *)
  modular_pipelines : option (list string)
}.
Definition field_names : list string :=
  ["id"; "name"; "tags"; "pipelines"; "type"; "modular_pipelines"].
Definition validate (input : pyval) : result t :=
  let fa := BaseAPIResponse_from_attributes in
  i ← required fa validate_str input "id";
  n ← required fa validate_str input "name";
  ts ← required fa (validate_list validate_str) input "tags";
  ps ← required fa (validate_list validate_str) input "pipelines";
  ty ← required fa validate_str input "type";
  mp ← defaulted fa (validate_optional (validate_list validate_str)) None
         input "modular_pipelines";
  mret (mk i n ts ps ty mp).
Definition dump_fields (r : t) : pydict :=
  [ field "id" (dump_str (id r));
    field "name" (dump_str (name r));
    field "tags" (dump_list dump_str (tags r));
    field "pipelines" (dump_list dump_str (pipelines r));
    field "type" (dump_str (type r));
    field "modular_pipelines"
      (dump_optional (dump_list dump_str) (modular_pipelines r)) ].
Definition model_dump (r : t) : pyval := PyDict (dump_fields r).
End BaseGraphNodeAPIResponse.

Module TaskNodeAPIResponse.
Record t := mk {
  base : BaseGraphNodeAPIResponse.t;
  parameters : pydict
}.
Definition field_names : list string :=
  BaseGraphNodeAPIResponse.field_names ++ ["parameters"].
Definition validate (input : pyval) : result t :=
  let fa := BaseAPIResponse_from_attributes in
  b ← BaseGraphNodeAPIResponse.validate input;
  p ← required fa validate_dict input "parameters";
  mret (mk b p).
Definition dump_fields (r : t) : pydict :=
  BaseGraphNodeAPIResponse.dump_fields (base r)
  ++ [field "parameters" (dump_dict (parameters r))].
Definition model_dump (r : t) : pyval := PyDict (dump_fields r).
End TaskNodeAPIResponse.

Module DataNodeAPIResponse.
Record t := mk {
  base : BaseGraphNodeAPIResponse.t;
  layer : option string;
  dataset_type : option string;
  stats : option pydict
}.
Definition field_names : list string :=
  BaseGraphNodeAPIResponse.field_names ++ ["layer"; "dataset_type"; "stats"].
Definition validate (input : pyval) : result t :=
  let fa := BaseAPIResponse_from_attributes in
  b ← BaseGraphNodeAPIResponse.validate input;
  l ← defaulted fa (validate_optional validate_str) None input "layer";
  d ← defaulted fa (validate_optional validate_str) None input "dataset_type";
  s ← defaulted fa (validate_optional validate_dict) None input "stats";
  mret (mk b l d s).
Definition dump_fields (r : t) : pydict :=
  BaseGraphNodeAPIResponse.dump_fields (base r)
  ++ [ field "layer" (dump_optional dump_str (layer r));
       field "dataset_type" (dump_optional dump_str (dataset_type r));
       field "stats" (dump_optional dump_dict (stats r)) ].
Definition model_dump (r : t) : pyval := PyDict (dump_fields r).
End DataNodeAPIResponse.

(** [NodeAPIResponse = Union[TaskNodeAPIResponse, DataNodeAPIResponse]] *)
Inductive NodeAPIResponse : Type :=
| TaskNode (r : TaskNodeAPIResponse.t)
| DataNode (r : DataNodeAPIResponse.t).

Definition validate_NodeAPIResponse : pyval → result NodeAPIResponse :=
  union (fun v => TaskNode <$> TaskNodeAPIResponse.validate v)
        (fun v => DataNode <$> DataNodeAPIResponse.validate v).

Definition dump_NodeAPIResponse (n : NodeAPIResponse) : pyval :=
  match n with
  | TaskNode r => TaskNodeAPIResponse.model_dump r
  | DataNode r => DataNodeAPIResponse.model_dump r
  end.

Module TaskNodeMetadataAPIResponse.
Record t := mk {
  code : option string;
  filepath : option string;
  parameters : option pydict;
  inputs : list string;
  outputs : list string;
  run_command : option string
}.
Definition validate (input : pyval) : result t :=
  let fa := BaseAPIResponse_from_attributes in
  c ← defaulted fa (validate_optional validate_str) None input "code";
  f ← defaulted fa (validate_optional validate_str) None input "filepath";
  p ← defaulted fa (validate_optional validate_dict) None input "parameters";
  i ← required fa (validate_list validate_str) input "inputs";
  o ← required fa (validate_list validate_str) input "outputs";
  r ← defaulted fa (validate_optional validate_str) None input "run_command";
  mret (mk c f p i o r).
Definition model_dump (r : t) : pyval :=
  PyDict [ field "code" (dump_optional dump_str (code r));
           field "filepath" (dump_optional dump_str (filepath r));
           field "parameters" (dump_optional dump_dict (parameters r));
           field "inputs" (dump_list dump_str (inputs r));
           field "outputs" (dump_list dump_str (outputs r));
           field "run_command" (dump_optional dump_str (run_command r)) ].
End TaskNodeMetadataAPIResponse.

Module DataNodeMetadataAPIResponse.
Record t := mk {
  filepath : option string;
  type : string;
  plot : option pydict;
  image : option string;
  tracking_data : option pydict;
  run_command : option string;
  preview : option pydict;
  stats : option pydict
}.
Definition validate (input : pyval) : result t :=
  let fa := BaseAPIResponse_from_attributes in
  f ← defaulted fa (validate_optional validate_str) None input "filepath";
  ty ← required fa validate_str input "type";
  pl ← defaulted fa (validate_optional validate_dict) None input "plot";
  im ← defaulted fa (validate_optional validate_str) None input "image";
  td ← defaulted fa (validate_optional validate_dict) None input "tracking_data";
  rc ← defaulted fa (validate_optional validate_str) None input "run_command";
  pv ← defaulted fa (validate_optional validate_dict) None input "preview";
  st ← defaulted fa (validate_optional validate_dict) None input "stats";
  mret (mk f ty pl im td rc pv st).
Definition model_dump (r : t) : pyval :=
  PyDict [ field "filepath" (dump_optional dump_str (filepath r));
           field "type" (dump_str (type r));
           field "plot" (dump_optional dump_dict (plot r));
           field "image" (dump_optional dump_str (image r));
           field "tracking_data" (dump_optional dump_dict (tracking_data r));
           field "run_command" (dump_optional dump_str (run_command r));
           field "preview" (dump_optional dump_dict (preview r));
           field "stats" (dump_optional dump_dict (stats r)) ].
End DataNodeMetadataAPIResponse.

Module TranscodedDataNodeMetadataAPIReponse.
Record t := mk {
  filepath : string;
  original_type : string;
  transcoded_types : list string;
  run_command : option string;
  stats : option pydict
}.
Definition validate (input : pyval) : result t :=
  let fa := BaseAPIResponse_from_attributes in
  f ← required fa validate_str input "filepath";
  o ← required fa validate_str input "original_type";
  ts ← required fa (validate_list validate_str) input "transcoded_types";
  rc ← defaulted fa (validate_optional validate_str) None input "run_command";
  st ← defaulted fa (validate_optional validate_dict) None input "stats";
  mret (mk f o ts rc st).
Definition model_dump (r : t) : pyval :=
  PyDict [ field "filepath" (dump_str (filepath r));
           field "original_type" (dump_str (original_type r));
           field "transcoded_types" (dump_list dump_str (transcoded_types r));
           field "run_command" (dump_optional dump_str (run_command r));
           field "stats" (dump_optional dump_dict (stats r)) ].
End TranscodedDataNodeMetadataAPIReponse.

Module ParametersNodeMetadataAPIResponse.
Record t := mk { parameters : pydict }.
Definition validate (input : pyval) : result t :=
  p ← required BaseAPIResponse_from_attributes validate_dict input "parameters";
  mret (mk p).
Definition model_dump (r : t) : pyval :=
  PyDict [field "parameters" (dump_dict (parameters r))].
End ParametersNodeMetadataAPIResponse.

(** [NodeMetadataAPIResponse = Union[TaskNodeMetadataAPIResponse,
    DataNodeMetadataAPIResponse, TranscodedDataNodeMetadataAPIReponse,
    ParametersNodeMetadataAPIResponse]] *)
Inductive NodeMetadataAPIResponse : Type :=
| TaskNodeMetadata (r : TaskNodeMetadataAPIResponse.t)
| DataNodeMetadata (r : DataNodeMetadataAPIResponse.t)
| TranscodedDataNodeMetadata (r : TranscodedDataNodeMetadataAPIReponse.t)
| ParametersNodeMetadata (r : ParametersNodeMetadataAPIResponse.t).

Definition validate_NodeMetadataAPIResponse
  : pyval → result NodeMetadataAPIResponse :=
  union (fun v => TaskNodeMetadata <$> TaskNodeMetadataAPIResponse.validate v)
    (union (fun v => DataNodeMetadata <$> DataNodeMetadataAPIResponse.validate v)
      (union (fun v => TranscodedDataNodeMetadata
                         <$> TranscodedDataNodeMetadataAPIReponse.validate v)
             (fun v => ParametersNodeMetadata
                         <$> ParametersNodeMetadataAPIResponse.validate v))).

Module GraphEdgeAPIResponse.
Record t := mk { source : string; target : string }.
Definition validate (input : pyval) : result t :=
  let fa := BaseAPIResponse_from_attributes in
  s ← required fa validate_str input "source";
  g ← required fa validate_str input "target";
  mret (mk s g).
Definition model_dump (r : t) : pyval :=
  PyDict [ field "source" (dump_str (source r));
           field "target" (dump_str (target r)) ].
End GraphEdgeAPIResponse.

Module NamedEntityAPIResponse.
Record t := mk { id : string; name : option string }.
Definition validate (input : pyval) : result t :=
  let fa := BaseAPIResponse_from_attributes in
  i ← required fa validate_str input "id";
  n ← defaulted fa (validate_optional validate_str) None input "name";
  mret (mk i n).
Definition model_dump (r : t) : pyval :=
  PyDict [ field "id" (dump_str (id r));
           field "name" (dump_optional dump_str (name r)) ].
End NamedEntityAPIResponse.

Module ModularPipelineChildAPIResponse.
Record t := mk { id : string; type : string }.
Definition validate (input : pyval) : result t :=
  let fa := BaseAPIResponse_from_attributes in
  i ← required fa validate_str input "id";
  ty ← required fa validate_str input "type";
  mret (mk i ty).
Definition model_dump (r : t) : pyval :=
  PyDict [ field "id" (dump_str (id r));
           field "type" (dump_str (type r)) ].
End ModularPipelineChildAPIResponse.

Module ModularPipelinesTreeNodeAPIResponse.
Record t := mk {
  id : string;
  name : string;
  inputs : list string;
  outputs : list string;
  children : list ModularPipelineChildAPIResponse.t
}.
Definition validate (input : pyval) : result t :=
  let fa := BaseAPIResponse_from_attributes in
  i ← required fa validate_str input "id";
  n ← required fa validate_str input "name";
  ins ← required fa (validate_list validate_str) input "inputs";
  outs ← required fa (validate_list validate_str) input "outputs";
  cs ← required fa (validate_list ModularPipelineChildAPIResponse.validate)
         input "children";
  mret (mk i n ins outs cs).
Definition model_dump (r : t) : pyval :=
  PyDict [ field "id" (dump_str (id r));
           field "name" (dump_str (name r));
           field "inputs" (dump_list dump_str (inputs r));
           field "outputs" (dump_list dump_str (outputs r));
           field "children"
             (dump_list ModularPipelineChildAPIResponse.model_dump (children r)) ].
End ModularPipelinesTreeNodeAPIResponse.

(** [ModularPipelinesTreeAPIResponse =
    Dict[str, ModularPipelinesTreeNodeAPIResponse]] *)
Abbreviation ModularPipelinesTreeAPIResponse :=
  (list (string * ModularPipelinesTreeNodeAPIResponse.t)).

Module GraphAPIResponse.
Record t := mk {
  nodes : list NodeAPIResponse;
  edges : list GraphEdgeAPIResponse.t;
  layers : list string;
  tags : list NamedEntityAPIResponse.t;
  pipelines : list NamedEntityAPIResponse.t;
  modular_pipelines : ModularPipelinesTreeAPIResponse;
  selected_pipeline : string
}.
Definition field_names : list string :=
  ["nodes"; "edges"; "layers"; "tags"; "pipelines"; "modular_pipelines";
   "selected_pipeline"].
Definition validate (input : pyval) : result t :=
  let fa := BaseAPIResponse_from_attributes in
  ns ← required fa (validate_list validate_NodeAPIResponse) input "nodes";
  es ← required fa (validate_list GraphEdgeAPIResponse.validate) input "edges";
  ls ← required fa (validate_list validate_str) input "layers";
  ts ← required fa (validate_list NamedEntityAPIResponse.validate) input "tags";
  ps ← required fa (validate_list NamedEntityAPIResponse.validate)
         input "pipelines";
  mp ← required fa (validate_dict_str ModularPipelinesTreeNodeAPIResponse.validate)
         input "modular_pipelines";
  sp ← required fa validate_str input "selected_pipeline";
  mret (mk ns es ls ts ps mp sp).
Definition dump_fields (r : t) : pydict :=
  [ field "nodes" (dump_list dump_NodeAPIResponse (nodes r));
    field "edges" (dump_list GraphEdgeAPIResponse.model_dump (edges r));
    field "layers" (dump_list dump_str (layers r));
    field "tags" (dump_list NamedEntityAPIResponse.model_dump (tags r));
    field "pipelines" (dump_list NamedEntityAPIResponse.model_dump (pipelines r));
    field "modular_pipelines"
      (dump_dict_str ModularPipelinesTreeNodeAPIResponse.model_dump
         (modular_pipelines r));
    field "selected_pipeline" (dump_str (selected_pipeline r)) ].
Definition model_dump (r : t) : pyval := PyDict (dump_fields r).
End GraphAPIResponse.

(** ** The data access manager *)

(** Modelled from the spec: a registered pipeline of the pipeline index
    (the class lives in [kedro_viz.models], outside this file); only its
    [id] is read here. *)
Module RegisteredPipeline.
Record t := mk { id : string; name : option string }.
End RegisteredPipeline.

(** The methods of [kedro_viz.data_access.data_access_manager] called in
    this file. The manager itself is not part of the file: it is taken as
    this interface. Each method returns a Python value or raises. *)
Module DataAccessManager.
Record t := mk {
  get_default_selected_pipeline : result RegisteredPipeline.t;
  create_modular_pipelines_tree_for_registered_pipeline : string → result pyval;
  get_nodes_for_registered_pipeline : string → result pyval;
  get_edges_for_registered_pipeline : string → result pyval;
  tags_as_list : result pyval;
  get_sorted_layers_for_registered_pipeline : string → result pyval;
  registered_pipelines_as_list : result pyval
}.
End DataAccessManager.

(** A call made to the manager, with the pipeline id it was given. *)
Inductive dam_call : Type :=
| Call_get_default_selected_pipeline
| Call_create_modular_pipelines_tree_for_registered_pipeline (registered_pipeline_id : string)
| Call_get_nodes_for_registered_pipeline (registered_pipeline_id : string)
| Call_get_edges_for_registered_pipeline (registered_pipeline_id : string)
| Call_tags_as_list
| Call_get_sorted_layers_for_registered_pipeline (registered_pipeline_id : string)
| Call_registered_pipelines_as_list.

Definition call_pipeline_id (c : dam_call) : option string :=
  match c with
  | Call_create_modular_pipelines_tree_for_registered_pipeline i
  | Call_get_nodes_for_registered_pipeline i
  | Call_get_edges_for_registered_pipeline i
  | Call_get_sorted_layers_for_registered_pipeline i => Some i
  | _ => None
  end.

(** Code that calls the manager: it may raise, and the calls made so far
    are recorded in order. *)
Definition DAM (A : Type) : Type := list dam_call → result A * list dam_call.

#[global] Instance DAM_ret : MRet DAM := fun A a tr => (Ok a, tr).
#[global] Instance DAM_bind : MBind DAM := fun A B f m tr =>
  match m tr with
  | (Ok a, tr') => f a tr'
  | (Raise e, tr') => (Raise e, tr')
  end.

Definition call {A} (c : dam_call) (r : result A) : DAM A :=
  fun tr => (r, tr ++ [c]).
Definition lift {A} (r : result A) : DAM A := fun tr => (r, tr).
Definition run {A} (m : DAM A) : result A * list dam_call := m [].

(** [get_default_response]: the default response for [/api/main]. The
    keyword arguments of [GraphAPIResponse(...)] are evaluated in the order
    they are written, then the model is validated. *)
Definition get_default_response (data_access_manager : DataAccessManager.t)
  : DAM GraphAPIResponse.t :=
  let m := data_access_manager in
  default_pipeline ← call Call_get_default_selected_pipeline
    (DataAccessManager.get_default_selected_pipeline m);
  let default_selected_pipeline_id := RegisteredPipeline.id default_pipeline in
  modular_pipelines_tree ←
    call (Call_create_modular_pipelines_tree_for_registered_pipeline
            default_selected_pipeline_id)
      (DataAccessManager.create_modular_pipelines_tree_for_registered_pipeline m
         default_selected_pipeline_id);
  nodes ← call (Call_get_nodes_for_registered_pipeline default_selected_pipeline_id)
    (DataAccessManager.get_nodes_for_registered_pipeline m
       default_selected_pipeline_id);
  edges ← call (Call_get_edges_for_registered_pipeline default_selected_pipeline_id)
    (DataAccessManager.get_edges_for_registered_pipeline m
       default_selected_pipeline_id);
  tags ← call Call_tags_as_list (DataAccessManager.tags_as_list m);
  layers ←
    call (Call_get_sorted_layers_for_registered_pipeline default_selected_pipeline_id)
      (DataAccessManager.get_sorted_layers_for_registered_pipeline m
         default_selected_pipeline_id);
  pipelines ← call Call_registered_pipelines_as_list
    (DataAccessManager.registered_pipelines_as_list m);
  lift (GraphAPIResponse.validate
          (PyDict [ field "nodes" nodes;
                    field "edges" edges;
                    field "tags" tags;
                    field "layers" layers;
                    field "pipelines" pipelines;
                    field "modular_pipelines" modular_pipelines_tree;
                    field "selected_pipeline" (PyStr default_selected_pipeline_id) ])).

(** The ids of the pipelines the index has registered, as
    [registered_pipelines.as_list()] reports them. *)
Definition registered_pipeline_ids (m : DataAccessManager.t) : list string :=
  match DataAccessManager.registered_pipelines_as_list m
        ≫= validate_list NamedEntityAPIResponse.validate with
  | Ok ps => map NamedEntityAPIResponse.id ps
  | Raise _ => []
  end.

(** ** The response for a selected pipeline *)

(** Modelled from the spec: the assembly of the response for a selected
    pipeline id ("Graph Response Assembler": given a selected-pipeline
    id, defaulting to the pipeline index's designated default pipeline
    when absent, pull nodes, edges, layers, tags and registered pipelines
    from the index, build the modular-pipeline tree and assemble one
    response; fail if the selected pipeline id does not exist in the
    index, a not-found error being surfaced as an explicit error). The
    entry point that takes the id (the router) is outside this file: of
    the assembly, the source has [get_default_response], the case of no
    id, and the assembly for an id is written after it. *)
Definition assemble_response (data_access_manager : DataAccessManager.t)
    (selected_pipeline_id : string) : DAM GraphAPIResponse.t :=
  let m := data_access_manager in
  modular_pipelines_tree ←
    call (Call_create_modular_pipelines_tree_for_registered_pipeline
            selected_pipeline_id)
      (DataAccessManager.create_modular_pipelines_tree_for_registered_pipeline m
         selected_pipeline_id);
  nodes ← call (Call_get_nodes_for_registered_pipeline selected_pipeline_id)
    (DataAccessManager.get_nodes_for_registered_pipeline m selected_pipeline_id);
  edges ← call (Call_get_edges_for_registered_pipeline selected_pipeline_id)
    (DataAccessManager.get_edges_for_registered_pipeline m selected_pipeline_id);
  tags ← call Call_tags_as_list (DataAccessManager.tags_as_list m);
  layers ←
    call (Call_get_sorted_layers_for_registered_pipeline selected_pipeline_id)
      (DataAccessManager.get_sorted_layers_for_registered_pipeline m
         selected_pipeline_id);
  pipelines ← call Call_registered_pipelines_as_list
    (DataAccessManager.registered_pipelines_as_list m);
  lift (GraphAPIResponse.validate
          (PyDict [ field "nodes" nodes;
                    field "edges" edges;
                    field "tags" tags;
                    field "layers" layers;
                    field "pipelines" pipelines;
                    field "modular_pipelines" modular_pipelines_tree;
                    field "selected_pipeline" (PyStr selected_pipeline_id) ])).

(** Modelled from the spec: the response for a selected pipeline id, or
    for the default pipeline when no id is given. An id that does not
    exist in the index is a not-found error, raised before anything is
    pulled from the index. *)
Definition get_selected_pipeline_response
    (data_access_manager : DataAccessManager.t)
    (selected_pipeline_id : option string) : DAM GraphAPIResponse.t :=
  match selected_pipeline_id with
  | None => get_default_response data_access_manager
  | Some i =>
      if bool_decide (i ∈ registered_pipeline_ids data_access_manager)
      then assemble_response data_access_manager i
      else lift (Raise (NotFound "pipeline not found"))
  end.

(** ** Example index contents *)

(** A pipeline of one task node [A] and one data node [B], with the edge
    from [A] to [B] and no modular pipeline. *)
Definition example_task_node : pyval :=
  PyObject "TaskNode"
    [ ("id", PyStr "A"); ("name", PyStr "split_data_node");
      ("tags", PyList []); ("pipelines", PyList [PyStr "__default__"]);
      ("type", PyStr "task"); ("modular_pipelines", PyList []);
      ("parameters", PyDict [(PyStr "random_state", PyInt 3)]) ].

Definition example_data_node : pyval :=
  PyObject "DataNode"
    [ ("id", PyStr "B"); ("name", PyStr "master_table");
      ("tags", PyList []); ("pipelines", PyList [PyStr "__default__"]);
      ("type", PyStr "data"); ("modular_pipelines", PyList []);
      ("layer", PyStr "primary");
      ("dataset_type", PyStr "pandas.csv_dataset.CSVDataSet");
      ("stats", PyNone) ].

Definition example_root (children : list pyval) : pyval :=
  PyDict
    [ (PyStr "__root__",
       PyObject "ModularPipelineNode"
         [ ("id", PyStr "__root__"); ("name", PyStr "__root__");
           ("inputs", PyList []); ("outputs", PyList []);
           ("children", PyList children) ]) ].

Definition example_manager : DataAccessManager.t :=
  {| DataAccessManager.get_default_selected_pipeline :=
       Ok (RegisteredPipeline.mk "__default__" (Some "__default__"));
     DataAccessManager.create_modular_pipelines_tree_for_registered_pipeline _ :=
       Ok (example_root
             [ PyObject "ModularPipelineChild"
                 [("id", PyStr "A"); ("type", PyStr "task")];
               PyObject "ModularPipelineChild"
                 [("id", PyStr "B"); ("type", PyStr "data")] ]);
     DataAccessManager.get_nodes_for_registered_pipeline _ :=
       Ok (PyList [example_task_node; example_data_node]);
     DataAccessManager.get_edges_for_registered_pipeline _ :=
       Ok (PyList [PyObject "GraphEdge"
                     [("source", PyStr "A"); ("target", PyStr "B")]]);
     DataAccessManager.tags_as_list := Ok (PyList []);
     DataAccessManager.get_sorted_layers_for_registered_pipeline _ :=
       Ok (PyList [PyStr "primary"]);
     DataAccessManager.registered_pipelines_as_list :=
       Ok (PyList [PyObject "RegisteredPipeline"
                     [("id", PyStr "__default__");
                      ("name", PyStr "__default__")]]) |}.

(** An index that has no pipeline registered under the id it designates
    as default (which the glossary excludes), and answers every query for
    it with an empty collection. *)
Definition unregistered_default_manager : DataAccessManager.t :=
  {| DataAccessManager.get_default_selected_pipeline :=
       Ok (RegisteredPipeline.mk "__default__" None);
     DataAccessManager.create_modular_pipelines_tree_for_registered_pipeline _ :=
       Ok (example_root []);
     DataAccessManager.get_nodes_for_registered_pipeline _ := Ok (PyList []);
     DataAccessManager.get_edges_for_registered_pipeline _ := Ok (PyList []);
     DataAccessManager.tags_as_list := Ok (PyList []);
     DataAccessManager.get_sorted_layers_for_registered_pipeline _ :=
       Ok (PyList []);
     DataAccessManager.registered_pipelines_as_list := Ok (PyList []) |}.

(** ** orjson *)

(** [orjson.dumps] in two steps: [document] decides whether the value can
    be written and as which JSON document (the types and keys it accepts,
    the integer range, the nesting limit, the order of members); [write]
    lays the document out as bytes. *)

Abbreviation bytes := (list byte).
Definition b (s : string) : bytes := list_byte_of_string s.

(** The JSON document a value is written as. *)
Inductive json : Type :=
| JNull
| JBool (v : bool)
| JInt (z : Z)
| JStr (s : string)
| JArr (items : list json)
| JObj (members : list (string * json))
| JFloat (x : finite_float).

Module orjson.

(** The option flags ([orjson.OPT_*]). *)
Definition OPT_INDENT_2 : Z := 1.
Definition OPT_NON_STR_KEYS : Z := 4.
Definition OPT_SERIALIZE_NUMPY : Z := 16.
Definition OPT_SORT_KEYS : Z := 32.
Definition OPT_STRICT_INTEGER : Z := 64.
Definition OPT_APPEND_NEWLINE : Z := 1024.

Definition enabled (option flag : Z) : bool :=
  negb (Z.land option flag =? 0).

(** Containers nested more than 254 levels deep are refused. *)
Definition RECURSION_LIMIT : nat := 254.

(** *** Numbers *)

Fixpoint uint_bytes (u : Decimal.uint) : bytes :=
  match u with
  | Decimal.Nil => []
  | Decimal.D0 u => x30 :: uint_bytes u
  | Decimal.D1 u => x31 :: uint_bytes u
  | Decimal.D2 u => x32 :: uint_bytes u
  | Decimal.D3 u => x33 :: uint_bytes u
  | Decimal.D4 u => x34 :: uint_bytes u
  | Decimal.D5 u => x35 :: uint_bytes u
  | Decimal.D6 u => x36 :: uint_bytes u
  | Decimal.D7 u => x37 :: uint_bytes u
  | Decimal.D8 u => x38 :: uint_bytes u
  | Decimal.D9 u => x39 :: uint_bytes u
  end.

(** The decimal digits of an integer, with [-] before a negative one. *)
Definition int_bytes (z : Z) : bytes :=
  match Z.to_int z with
  | Decimal.Pos u => uint_bytes u
  | Decimal.Neg u => x2d :: uint_bytes u
  end.

(** Integers of 64 bits (signed or unsigned); of 53 bits with
    [OPT_STRICT_INTEGER]. *)
Definition int_in_range (option : Z) (z : Z) : bool :=
  if enabled option OPT_STRICT_INTEGER
  then (- 2 ^ 53 <? z) && (z <? 2 ^ 53)
  else (- 2 ^ 63 <=? z) && (z <? 2 ^ 64).

Definition digit_byte (d : digit) : byte :=
  match d with
  | d0 => x30 | d1 => x31 | d2 => x32 | d3 => x33 | d4 => x34
  | d5 => x35 | d6 => x36 | d7 => x37 | d8 => x38 | d9 => x39
  end.

Definition sign_bytes (negative : bool) : bytes :=
  if negative then [x2d] else [].

(** The text of a finite float: its sign, its integer part, then a
    fraction, an exponent ([e] and an integer) or both. *)
Definition float_bytes (x : finite_float) : bytes :=
  match x with
  | Fixed negative int f fs =>
      sign_bytes negative ++ uint_bytes (N.to_uint int)
        ++ x2e :: map digit_byte (f :: fs)
  | Exponent negative int fs e =>
      sign_bytes negative ++ uint_bytes (N.to_uint int)
        ++ match fs with
           | [] => []
           | _ => x2e :: map digit_byte fs
           end
        ++ x65 :: int_bytes e
  end.

(** [nan], [inf] and [-inf] are written as [null]. *)
Definition float_document (f : pyfloat) : json :=
  match f with
  | Finite x => JFloat x
  | NaN | Inf _ => JNull
  end.

(** *** Strings *)

Definition continues_surrogate (c : byte) : bool :=
  (160 <=? Byte.to_N c)%N && (Byte.to_N c <=? 191)%N.

(** A [str] that holds a surrogate has no UTF-8 form. *)
Fixpoint has_surrogate (s : bytes) : bool :=
  match s with
  | [] => false
  | c :: r =>
      match r with
      | c' :: _ => Byte.eqb c xed && continues_surrogate c'
      | [] => false
      end
      || has_surrogate r
  end.

Definition check_str (s : string) : result string :=
  if has_surrogate (list_byte_of_string s)
  then Raise (JSONEncodeError "str is not valid UTF-8: surrogates not allowed")
  else Ok s.

Definition hex_digit (n : N) : byte :=
  match n with
  | 0 => x30 | 1 => x31 | 2 => x32 | 3 => x33 | 4 => x34 | 5 => x35
  | 6 => x36 | 7 => x37 | 8 => x38 | 9 => x39 | 10 => x61 | 11 => x62
  | 12 => x63 | 13 => x64 | 14 => x65 | _ => x66
  end%N.

(** The quotation mark, the backslash and the control characters are
    escaped; every other byte is copied. *)
Definition escape_byte (c : byte) : bytes :=
  match c with
  | x22 => [x5c; x22]
  | x5c => [x5c; x5c]
  | x08 => [x5c; x62]
  | x09 => [x5c; x74]
  | x0a => [x5c; x6e]
  | x0c => [x5c; x66]
  | x0d => [x5c; x72]
  | _ =>
      if (Byte.to_N c <? 32)%N
      then [x5c; x75; x30; x30;
            hex_digit (Byte.to_N c / 16); hex_digit (Byte.to_N c mod 16)]
      else [c]
  end.

Definition escape (s : bytes) : bytes := flat_map escape_byte s.

Definition quote (s : string) : bytes :=
  x22 :: escape (list_byte_of_string s) ++ [x22].

(** *** From a value to its document *)

Definition unsupported {A} (what : string) : result A :=
  Raise (JSONEncodeError ("Type is not JSON serializable: " +:+ what)).

(** The string a mapping key is written as. Keys other than [str] need
    [OPT_NON_STR_KEYS], which takes [None], [bool], [int] and [float]
    keys among the values of the model. *)
Definition key_str (option : Z) (k : pyval) : result string :=
  match k with
  | PyStr s => check_str s
  | _ =>
      if enabled option OPT_NON_STR_KEYS then
        match k with
        | PyNone => Ok "null"
        | PyBool v => Ok (if v then "true" else "false")
        | PyInt z =>
            if int_in_range option z
            then Ok (string_of_list_byte (int_bytes z))
            else Raise (JSONEncodeError
                          "Dict integer key must be within 64-bit range")
        | PyFloat (Finite x) => Ok (string_of_list_byte (float_bytes x))
        | PyFloat _ => Ok "null"
        | _ =>
            Raise (JSONEncodeError
                     "Dict key must a type serializable with OPT_NON_STR_KEYS")
        end
      else Raise (JSONEncodeError "Dict key must be str")
  end.

(** [OPT_SORT_KEYS]: members in the byte order of their keys. *)
Fixpoint insert_member (m : string * json) (ms : list (string * json))
  : list (string * json) :=
  match ms with
  | [] => [m]
  | m' :: ms' =>
      if String.leb m.1 m'.1 then m :: ms else m' :: insert_member m ms'
  end.
Definition sort_members (ms : list (string * json)) : list (string * json) :=
  foldr insert_member [] ms.

(** *** Numeric arrays *)

Definition supported (t : dtype) : bool :=
  match t with
  | dt_unsupported _ => false
  | _ => true
  end.

(** The shape of an array whose rows all have the same shape; rows of
    different shapes make no array of a supported type (numpy holds them
    as an array of [object]). *)
Fixpoint shape {A} (a : nested A) : option (list nat) :=
  match a with
  | Row xs => Some [length xs]
  | Rows rows =>
      match rows with
      | [] => Some [O]
      | r :: rs =>
          match shape r with
          | Some s =>
              if forallb (fun r' => bool_decide (shape r' = Some s)) rs
              then Some (length rows :: s)
              else None
          | None => None
          end
      end
  end.

Definition regular {A} (a : nested A) : bool :=
  match shape a with Some _ => true | None => false end.

Definition unsupported_dtype {A} : result A :=
  Raise (JSONEncodeError "unsupported datatype in numpy array").

(** An element: an integer of an integer type has at most 64 bits (a
    larger one makes the array an array of [object]). *)
Definition scalar_document (t : dtype) : scalar t → result json :=
  match t with
  | dt_integer => fun z =>
      if (- 2 ^ 63 <=? z) && (z <? 2 ^ 64) then Ok (JInt z)
      else unsupported_dtype
  | dt_bool => fun v => Ok (JBool v)
  | dt_float64 | dt_float32 | dt_float16 => fun f => Ok (float_document f)
  | dt_unsupported _ => fun _ => unsupported_dtype
  end.

Fixpoint nested_document {A} (f : A → result json) (a : nested A)
  : result json :=
  match a with
  | Row xs => JArr <$> mapM f xs
  | Rows rows => JArr <$> mapM (nested_document f) rows
  end.

(** A numeric array is written element by element, as nested arrays,
    straight from its memory: an array that is not C-contiguous is
    refused, and so is an element type that is not supported. *)
Definition document_of_ndarray (a : ndarray) : result json :=
  if negb (c_contiguous a)
  then Raise (JSONEncodeError
                "numpy array is not C contiguous; use ndarray.tolist() in default")
  else if negb (supported (nd_dtype a) && regular (items a))
  then unsupported_dtype
  else nested_document (scalar_document (nd_dtype a)) (items a).

Fixpoint document (option : Z) (depth : nat) (v : pyval) : result json :=
  match v with
  | PyNone => Ok JNull
  | PyBool v => Ok (JBool v)
  | PyInt z =>
      if int_in_range option z then Ok (JInt z)
      else Raise (JSONEncodeError "Integer exceeds 64-bit range")
  | PyFloat f => Ok (float_document f)
  | PyStr s => JStr <$> check_str s
  | PyList xs | PyTuple xs =>
      if (RECURSION_LIMIT <=? depth)%nat
      then Raise (JSONEncodeError "Recursion limit reached")
      else JArr <$> mapM (document option (S depth)) xs
  | PyDict kvs =>
      if (RECURSION_LIMIT <=? depth)%nat
      then Raise (JSONEncodeError "Recursion limit reached")
      else
        ms ← mapM (fun kv : pyval * pyval =>
                     k ← key_str option kv.1;
                     j ← document option (S depth) kv.2;
                     mret (k, j)) kvs;
        mret (JObj (if enabled option OPT_SORT_KEYS then sort_members ms else ms))
  | PyNdarray a =>
      if enabled option OPT_SERIALIZE_NUMPY then document_of_ndarray a
      else unsupported "numpy.ndarray"
  | PyObject cls _ => unsupported cls
  end.

(** *** Writing a document *)

Fixpoint join (sep : bytes) (parts : list bytes) : bytes :=
  match parts with
  | [] => []
  | [p] => p
  | p :: ps => p ++ sep ++ join sep ps
  end.

(** A line break followed by the indentation of a nesting depth: two
    spaces for each level. *)
Definition newline (depth : nat) : bytes := x0a :: repeat x20 (2 * depth)%nat.

(** [pretty] is [OPT_INDENT_2]: one item or member on each line; without
    it nothing is written between the tokens. *)
Fixpoint write (pretty : bool) (depth : nat) (j : json) : bytes :=
  match j with
  | JNull => b "null"
  | JBool true => b "true"
  | JBool false => b "false"
  | JInt z => int_bytes z
  | JFloat x => float_bytes x
  | JStr s => quote s
  | JArr [] => [x5b; x5d]
  | JArr items =>
      let parts := map (write pretty (S depth)) items in
      if pretty
      then x5b :: newline (S depth)
             ++ join (x2c :: newline (S depth)) parts
             ++ newline depth ++ [x5d]
      else x5b :: join [x2c] parts ++ [x5d]
  | JObj [] => [x7b; x7d]
  | JObj members =>
      let parts :=
        map (fun m : string * json =>
               quote m.1 ++ (if pretty then [x3a; x20] else [x3a])
                 ++ write pretty (S depth) m.2) members in
      if pretty
      then x7b :: newline (S depth)
             ++ join (x2c :: newline (S depth)) parts
             ++ newline depth ++ [x7d]
      else x7b :: join [x2c] parts ++ [x7d]
  end.

(** [orjson.dumps(content, option=option)] *)
Definition dumps (content : pyval) (option : Z) : result bytes :=
  j ← document option 0 content;
  mret (write (enabled option OPT_INDENT_2) 0 j
          ++ (if enabled option OPT_APPEND_NEWLINE then [x0a] else [])).

End orjson.

(** ** The encoder *)

Module EnhancedORJSONResponse.

(** [encode_to_human_readable]: the content as JSON, formatted to write a
    human-readable file. *)
Definition encode_to_human_readable (content : pyval) : result bytes :=
  orjson.dumps content
    (Z.lor (Z.lor orjson.OPT_INDENT_2 orjson.OPT_NON_STR_KEYS)
       orjson.OPT_SERIALIZE_NUMPY).

End EnhancedORJSONResponse.

(** ** Reading JSON back *)

(** A reader for the JSON the encoder writes (as [json.loads] reads it):
    [null], booleans, integers, floats, strings, arrays and objects. A
    number with a fraction or an exponent is a float, identified with its
    text. An object becomes a [dict] with [str] keys through [hook]:
    [loads] lets a later member replace the value of an earlier one with
    the same key; [loads_pairs] keeps the members as they are written
    ([object_pairs_hook]). Escapes of characters of several bytes are
    refused: the encoder writes none. *)
Module reader.

Definition is_ws (c : byte) : bool :=
  match c with
  | x20 | x0a | x0d | x09 => true
  | _ => false
  end.

Fixpoint skip_ws (s : bytes) : bytes :=
  match s with
  | c :: r => if is_ws c then skip_ws r else s
  | [] => []
  end.

Definition digit_of (c : byte) : option (Decimal.uint → Decimal.uint) :=
  match c with
  | x30 => Some Decimal.D0 | x31 => Some Decimal.D1 | x32 => Some Decimal.D2
  | x33 => Some Decimal.D3 | x34 => Some Decimal.D4 | x35 => Some Decimal.D5
  | x36 => Some Decimal.D6 | x37 => Some Decimal.D7 | x38 => Some Decimal.D8
  | x39 => Some Decimal.D9
  | _ => None
  end.

Fixpoint parse_digits (s : bytes) : Decimal.uint * bytes :=
  match s with
  | c :: r =>
      match digit_of c with
      | Some d => let '(u, r') := parse_digits r in (d u, r')
      | None => (Decimal.Nil, s)
      end
  | [] => (Decimal.Nil, [])
  end.

Definition fraction_digit (c : byte) : option digit :=
  match c with
  | x30 => Some d0 | x31 => Some d1 | x32 => Some d2 | x33 => Some d3
  | x34 => Some d4 | x35 => Some d5 | x36 => Some d6 | x37 => Some d7
  | x38 => Some d8 | x39 => Some d9
  | _ => None
  end.

(** The digits of a fraction. *)
Fixpoint parse_fraction (s : bytes) : list digit * bytes :=
  match s with
  | c :: r =>
      match fraction_digit c with
      | Some d => let '(ds, r') := parse_fraction r in (d :: ds, r')
      | None => ([], s)
      end
  | [] => ([], [])
  end.

(** An exponent: a sign or none, and digits. *)
Definition parse_exponent (s : bytes) : result (Z * bytes) :=
  let '(negative, s') :=
    match s with
    | x2d :: r => (true, r)
    | x2b :: r => (false, r)
    | _ => (false, s)
    end in
  let '(u, r) := parse_digits s' in
  match u with
  | Decimal.Nil => Raise (JSONDecodeError "invalid number")
  | _ => Ok (if negative then - Z.of_uint u else Z.of_uint u, r)
  end.

Definition leading_zero (u : Decimal.uint) : bool :=
  match u with
  | Decimal.D0 Decimal.Nil => false
  | Decimal.D0 _ => true
  | _ => false
  end.

(** What follows the integer part of a number: a fraction or an exponent
    make it a float. *)
Definition number_after (negative : bool) (int : N) (r : bytes)
  : result (pyval * bytes) :=
  match r with
  | x2e :: r1 =>
      match parse_fraction r1 with
      | (f :: fs, r2) =>
          match r2 with
          | x65 :: r3 | x45 :: r3 =>
              '(e, r4) ← parse_exponent r3;
              mret (PyFloat (Finite (Exponent negative int (f :: fs) e)), r4)
          | _ => Ok (PyFloat (Finite (Fixed negative int f fs)), r2)
          end
      | ([], _) => Raise (JSONDecodeError "invalid number")
      end
  | x65 :: r3 | x45 :: r3 =>
      '(e, r4) ← parse_exponent r3;
      mret (PyFloat (Finite (Exponent negative int [] e)), r4)
  | _ => Ok (PyInt (if negative then - Z.of_N int else Z.of_N int), r)
  end.

(** A number: an integer, or with a fraction or an exponent a float. *)
Definition parse_number (s : bytes) : result (pyval * bytes) :=
  let '(negative, s') :=
    match s with
    | x2d :: r => (true, r)
    | _ => (false, s)
    end in
  let '(u, r) := parse_digits s' in
  match u with
  | Decimal.Nil => Raise (JSONDecodeError "invalid number")
  | _ =>
      if leading_zero u then Raise (JSONDecodeError "leading zero")
      else number_after negative (N.of_uint u) r
  end.

Definition hex_value (c : byte) : option N :=
  match c with
  | x30 => Some 0 | x31 => Some 1 | x32 => Some 2 | x33 => Some 3
  | x34 => Some 4 | x35 => Some 5 | x36 => Some 6 | x37 => Some 7
  | x38 => Some 8 | x39 => Some 9
  | x61 | x41 => Some 10 | x62 | x42 => Some 11 | x63 | x43 => Some 12
  | x64 | x44 => Some 13 | x65 | x45 => Some 14 | x66 | x46 => Some 15
  | _ => None
  end%N.

(** [\uXXXX] for a character of one byte; the others are outside this
    reader. *)
Definition unicode_escape (h1 h2 h3 h4 : byte) : result byte :=
  match hex_value h1, hex_value h2, hex_value h3, hex_value h4 with
  | Some a, Some b, Some c, Some d =>
      let n := (((a * 16 + b) * 16 + c) * 16 + d)%N in
      if (n <? 128)%N
      then match Byte.of_N n with
           | Some c => Ok c
           | None => Raise (JSONDecodeError "invalid escape")
           end
      else Raise (JSONDecodeError "escape of a character of several bytes")
  | _, _, _, _ => Raise (JSONDecodeError "invalid escape")
  end.

Definition simple_escape (c : byte) : option byte :=
  match c with
  | x22 => Some x22
  | x5c => Some x5c
  | x2f => Some x2f
  | x62 => Some x08
  | x66 => Some x0c
  | x6e => Some x0a
  | x72 => Some x0d
  | x74 => Some x09
  | _ => None
  end.

(** The characters of a string up to its closing quotation mark. *)
Fixpoint parse_string (s : bytes) : result (bytes * bytes) :=
  match s with
  | [] => Raise (JSONDecodeError "unterminated string")
  | x22 :: r => Ok ([], r)
  | x5c :: r =>
      match r with
      | x75 :: h1 :: h2 :: h3 :: h4 :: r' =>
          c ← unicode_escape h1 h2 h3 h4;
          '(cs, r'') ← parse_string r';
          mret (c :: cs, r'')
      | e :: r' =>
          match simple_escape e with
          | Some c => '(cs, r'') ← parse_string r'; mret (c :: cs, r'')
          | None => Raise (JSONDecodeError "invalid escape")
          end
      | [] => Raise (JSONDecodeError "unterminated string")
      end
  | c :: r =>
      if (Byte.to_N c <? 32)%N
      then Raise (JSONDecodeError "control character in a string")
      else '(cs, r') ← parse_string r; mret (c :: cs, r')
  end.

Fixpoint strip_prefix (word s : bytes) : option bytes :=
  match word, s with
  | [], _ => Some s
  | w :: word', c :: s' => if Byte.eqb w c then strip_prefix word' s' else None
  | _, _ => None
  end.

Definition expect (word : bytes) (s : bytes) (v : pyval)
  : result (pyval * bytes) :=
  match strip_prefix word s with
  | Some r => Ok (v, r)
  | None => Raise (JSONDecodeError "invalid literal")
  end.

(** [d[k] = v] on a [dict] with [str] keys. *)
Fixpoint dict_set (k : string) (v : pyval) (d : pydict) : pydict :=
  match d with
  | [] => [(PyStr k, v)]
  | (PyStr k', v') :: d' =>
      if String.eqb k' k then (PyStr k', v) :: d'
      else (PyStr k', v') :: dict_set k v d'
  | kv :: d' => kv :: dict_set k v d'
  end.

(** The members of an object as a [dict]. *)
Definition dict_of_members (ms : list (string * pyval)) : pydict :=
  fold_left (fun d (m : string * pyval) => dict_set m.1 m.2 d) ms [].

(** The members of an object as they are written, one pair for each. *)
Definition pairs_of_members (ms : list (string * pyval)) : pydict :=
  map (fun m : string * pyval => (PyStr m.1, m.2)) ms.

Fixpoint parse_value (hook : list (string * pyval) → pydict) (fuel : nat)
    (s : bytes) : result (pyval * bytes) :=
  match fuel with
  | O => Raise (JSONDecodeError "input nested too deeply")
  | S fuel' =>
      match skip_ws s with
      | [] => Raise (JSONDecodeError "unexpected end of input")
      | x6e :: r => expect (b "ull") r PyNone
      | x74 :: r => expect (b "rue") r (PyBool true)
      | x66 :: r => expect (b "alse") r (PyBool false)
      | x22 :: r =>
          '(cs, r') ← parse_string r;
          mret (PyStr (string_of_list_byte cs), r')
      | x5b :: r =>
          match skip_ws r with
          | x5d :: r' => Ok (PyList [], r')
          | _ => '(xs, r') ← parse_elements hook fuel' r; mret (PyList xs, r')
          end
      | x7b :: r =>
          match skip_ws r with
          | x7d :: r' => Ok (PyDict [], r')
          | _ =>
              '(ms, r') ← parse_members hook fuel' r;
              mret (PyDict (hook ms), r')
          end
      | s' => parse_number s'
      end
  end
with parse_elements (hook : list (string * pyval) → pydict) (fuel : nat)
    (s : bytes) : result (list pyval * bytes) :=
  match fuel with
  | O => Raise (JSONDecodeError "input nested too deeply")
  | S fuel' =>
      '(v, r) ← parse_value hook fuel' s;
      match skip_ws r with
      | x2c :: r' =>
          '(vs, r'') ← parse_elements hook fuel' r'; mret (v :: vs, r'')
      | x5d :: r' => Ok ([v], r')
      | _ => Raise (JSONDecodeError "expected , or ]")
      end
  end
with parse_members (hook : list (string * pyval) → pydict) (fuel : nat)
    (s : bytes) : result (list (string * pyval) * bytes) :=
  match fuel with
  | O => Raise (JSONDecodeError "input nested too deeply")
  | S fuel' =>
      match skip_ws s with
      | x22 :: r =>
          '(cs, r1) ← parse_string r;
          match skip_ws r1 with
          | x3a :: r2 =>
              '(v, r3) ← parse_value hook fuel' r2;
              let m := (string_of_list_byte cs, v) in
              match skip_ws r3 with
              | x2c :: r4 =>
                  '(ms, r5) ← parse_members hook fuel' r4; mret (m :: ms, r5)
              | x7d :: r4 => Ok ([m], r4)
              | _ => Raise (JSONDecodeError "expected , or }")
              end
          | _ => Raise (JSONDecodeError "expected :")
          end
      | _ => Raise (JSONDecodeError "expected a string")
      end
  end.

(** One value, and nothing but white space after it. *)
Definition loads_with (hook : list (string * pyval) → pydict) (s : bytes)
  : result pyval :=
  '(v, r) ← parse_value hook (S (length s)) s;
  match skip_ws r with
  | [] => Ok v
  | _ => Raise (JSONDecodeError "trailing characters")
  end.

(** [json.loads(s)] *)
Definition loads (s : bytes) : result pyval := loads_with dict_of_members s.

(** [json.loads(s, object_pairs_hook=...)]: every object as the sequence
    of its members, in the order they are written, duplicates included. *)
Definition loads_pairs (s : bytes) : result pyval :=
  loads_with pairs_of_members s.

End reader.

(** ** What the encoder accepts, and what its output means *)

Definition int64_or_uint64 (z : Z) : bool := (- 2 ^ 63 <=? z) && (z <? 2 ^ 64).

(** A [str] without a surrogate. *)
Definition str_ok (s : string) : bool :=
  negb (orjson.has_surrogate (list_byte_of_string s)).

Definition scalar_serializable (t : dtype) : scalar t → bool :=
  match t with
  | dt_integer => int64_or_uint64
  | dt_unsupported _ => fun _ => false
  | _ => fun _ => true
  end.

Fixpoint nested_forallb {A} (p : A → bool) (a : nested A) : bool :=
  match a with
  | Row xs => forallb p xs
  | Rows rows => forallb (nested_forallb p) rows
  end.

(** The arrays the encoder writes: C-contiguous, of a supported element
    type. *)
Definition ndarray_serializable (a : ndarray) : bool :=
  c_contiguous a
  && (orjson.supported (nd_dtype a) && orjson.regular (items a))
  && nested_forallb (scalar_serializable (nd_dtype a)) (items a).

Definition key_serializable (k : pyval) : bool :=
  match k with
  | PyStr s => str_ok s
  | PyNone | PyBool _ | PyFloat _ => true
  | PyInt z => int64_or_uint64 z
  | _ => false
  end.

(** The values [encode_to_human_readable] writes: [None], booleans,
    integers of 64 bits, floats, strings without a surrogate, lists,
    tuples, mappings whose keys are such strings, [None], booleans, floats
    or integers of 64 bits, and C-contiguous numeric arrays of a supported
    element type, with containers nested at most [orjson.RECURSION_LIMIT]
    deep. *)
Fixpoint serializable (depth : nat) (v : pyval) : bool :=
  match v with
  | PyNone | PyBool _ | PyFloat _ => true
  | PyStr s => str_ok s
  | PyInt z => int64_or_uint64 z
  | PyList xs | PyTuple xs =>
      (depth <? orjson.RECURSION_LIMIT)%nat
      && forallb (serializable (S depth)) xs
  | PyDict kvs =>
      (depth <? orjson.RECURSION_LIMIT)%nat
      && forallb (fun kv : pyval * pyval =>
                    key_serializable kv.1 && serializable (S depth) kv.2) kvs
  | PyNdarray a => ndarray_serializable a
  | PyObject _ _ => false
  end.

(** What reading a written float gives: the float, or [None] for [nan]
    and the infinities, which are written as [null]. *)
Definition float_value (f : pyfloat) : pyval :=
  match f with
  | Finite _ => PyFloat f
  | NaN | Inf _ => PyNone
  end.

(** The elements of an array as nested lists. *)
Fixpoint nested_list {A} (f : A → pyval) (a : nested A) : pyval :=
  match a with
  | Row xs => PyList (map f xs)
  | Rows rows => PyList (map (nested_list f) rows)
  end.

(** An element as it is read back. An element of [float32] or [float16]
    is read as the [float] with the text written for the element, which
    need not be the float [tolist] widens it to. *)
Definition scalar_canonical (t : dtype) : scalar t → pyval :=
  match t with
  | dt_integer => PyInt
  | dt_bool => PyBool
  | dt_float64 | dt_float32 | dt_float16 => float_value
  | dt_unsupported _ => fun _ => PyNone
  end.

(** An array as it is read back: the nested lists of its elements
    ([a.tolist()] for the integers, [bool] and [float64] without [nan] and
    infinities). *)
Definition ndarray_canonical (a : ndarray) : pyval :=
  nested_list (scalar_canonical (nd_dtype a)) (items a).

(** The canonical string form of a mapping key. *)
Definition canonical_key (k : pyval) : string :=
  match k with
  | PyStr s => s
  | PyNone => "null"
  | PyBool true => "true"
  | PyBool false => "false"
  | PyInt z => DecimalString.NilZero.string_of_int (Z.to_int z)
  | PyFloat (Finite x) => string_of_list_byte (orjson.float_bytes x)
  | PyFloat _ => "null"
  | _ => ""
  end.

(** The JSON value of a value, as a reader with the hook [hook] returns
    it: every mapping key in its canonical string form, every tuple and
    numeric array as (nested) lists, [nan] and the infinities as [None]. *)
Fixpoint reading (hook : list (string * pyval) → pydict) (v : pyval) : pyval :=
  match v with
  | PyList xs | PyTuple xs => PyList (map (reading hook) xs)
  | PyDict kvs =>
      PyDict (hook (map (fun kv : pyval * pyval =>
                           (canonical_key kv.1, reading hook kv.2)) kvs))
  | PyNdarray a => ndarray_canonical a
  | PyFloat f => float_value f
  | _ => v
  end.

(** The canonical form of a value: its JSON value as a [dict]-building
    reader returns it, where of two members with the same key the later
    replaces the value of the earlier. *)
Definition canonical (v : pyval) : pyval := reading reader.dict_of_members v.

(** The JSON value of a value with the members of every mapping in the
    order of the input, one for each member of the input, also when two
    keys have the same string. *)
Definition in_order (v : pyval) : pyval := reading reader.pairs_of_members v.


Fixpoint distinct (l : list string) : bool :=
  match l with
  | [] => true
  | x :: l' => negb (existsb (String.eqb x) l') && distinct l'
  end.


(** *** Indentation *)

Module layout.

Fixpoint leading_spaces (s : bytes) : nat :=
  match s with
  | x20 :: r => S (leading_spaces r)
  | _ => O
  end.

Fixpoint after_spaces (s : bytes) : bytes :=
  match s with
  | x20 :: r => after_spaces r
  | _ => s
  end.

Definition closes (s : bytes) : bool :=
  match s with
  | x5d :: _ | x7d :: _ => true
  | _ => false
  end.

Definition breaks (s : bytes) : bool :=
  match s with
  | x0a :: _ => true
  | _ => false
  end.

(** [indented width depth in_string s]: the text [s], read from inside
    [depth] open brackets, is laid out one item on each line: outside a
    string, an opening bracket is followed by a line break (or at once by
    its closing bracket), a comma is followed by a line break, and every
    line break is followed by exactly [width] spaces for each bracket open
    around what the line starts with. *)
Fixpoint indented (width depth : nat) (in_string : bool) (s : bytes) : bool :=
  match s with
  | [] => true
  | c :: r =>
      if in_string then
        match c with
        | x5c =>
            match r with
            | _ :: r' => indented width depth true r'
            | [] => false
            end
        | x22 => indented width depth false r
        | _ => indented width depth true r
        end
      else
        match c with
        | x22 => indented width depth true r
        | x5b | x7b =>
            (breaks r || closes r) && indented width (S depth) false r
        | x5d | x7d => indented width (pred depth) false r
        | x2c => breaks r && indented width depth false r
        | x0a =>
            let level := if closes (after_spaces r) then pred depth else depth in
            (leading_spaces r =? width * level)%nat
            && indented width depth false r
        | _ => indented width depth false r
        end
  end.

End layout.

(** ** Node metadata lookup *)

(** Modelled from the spec: the node index and the metadata lookup of
    "Node Metadata Variants" (the router and the node classes of
    [kedro_viz.models] are outside this file). A dataset carries the
    concrete types it is registered under; the lookup builds the metadata
    object of the node's kind, which the response union then validates. *)
Module node_index.

Inductive node : Type :=
| Task (code filepath : option string) (parameters : option pydict)
       (inputs outputs : list string) (run_command : option string)
| Dataset (filepath : string) (nominal_type : string)
          (registered_types : list string)
          (run_command : option string) (stats : option pydict)
| Parameters (parameters : pydict)
| GroupMarker.

Definition attr_opt_str (o : option string) : pyval :=
  match o with Some s => PyStr s | None => PyNone end.
Definition attr_opt_dict (o : option pydict) : pyval :=
  match o with Some d => PyDict d | None => PyNone end.

Definition metadata_object (n : node) : result pyval :=
  match n with
  | Task code filepath parameters inputs outputs run_command =>
      Ok (PyObject "TaskNodeMetadata"
            [ ("code", attr_opt_str code);
              ("filepath", attr_opt_str filepath);
              ("parameters", attr_opt_dict parameters);
              ("inputs", PyList (map PyStr inputs));
              ("outputs", PyList (map PyStr outputs));
              ("run_command", attr_opt_str run_command) ])
  | Dataset filepath nominal_type registered_types run_command stats =>
      if (1 <? length registered_types)%nat
      then Ok (PyObject "TranscodedDataNodeMetadata"
                 [ ("filepath", PyStr filepath);
                   ("original_type", PyStr nominal_type);
                   ("transcoded_types", PyList (map PyStr registered_types));
                   ("run_command", attr_opt_str run_command);
                   ("stats", attr_opt_dict stats) ])
      else Ok (PyObject "DataNodeMetadata"
                 [ ("filepath", PyStr filepath);
                   ("type", PyStr nominal_type);
                   ("run_command", attr_opt_str run_command);
                   ("stats", attr_opt_dict stats) ])
  | Parameters parameters =>
      Ok (PyObject "ParametersNodeMetadata" [("parameters", PyDict parameters)])
  | GroupMarker => Raise (MetadataUnavailable "metadata unavailable")
  end.

Definition get_node_metadata (index : list (string * node)) (node_id : string)
  : result NodeMetadataAPIResponse :=
  match assoc node_id index with
  | None => Raise (NotFound "not found")
  | Some n => metadata_object n ≫= validate_NodeMetadataAPIResponse
  end.

End node_index.

(** ** Definitions used in the statements *)

(** The fields of a flat node, as dumped. *)
Definition node_dump_fields (n : NodeAPIResponse) : pydict :=
  match n with
  | TaskNode r => TaskNodeAPIResponse.dump_fields r
  | DataNode r => DataNodeAPIResponse.dump_fields r
  end.

(** A field the node object does not have: the attribute is missing, or
    it is [None]. *)
Definition absent (input : pyval) (name : string) : Prop :=
  get_field true input name = Ok None
  ∨ get_field true input name = Ok (Some PyNone).

(** The keyword arguments [get_default_response] passes to
    [GraphAPIResponse] for the pipeline id [i], when every query of the
    index returns. *)
Definition response_kwargs (m : DataAccessManager.t) (i : string) : result pyval :=
  modular_pipelines_tree ←
    DataAccessManager.create_modular_pipelines_tree_for_registered_pipeline m i;
  nodes ← DataAccessManager.get_nodes_for_registered_pipeline m i;
  edges ← DataAccessManager.get_edges_for_registered_pipeline m i;
  tags ← DataAccessManager.tags_as_list m;
  layers ← DataAccessManager.get_sorted_layers_for_registered_pipeline m i;
  pipelines ← DataAccessManager.registered_pipelines_as_list m;
  mret (PyDict [ field "nodes" nodes; field "edges" edges; field "tags" tags;
                 field "layers" layers; field "pipelines" pipelines;
                 field "modular_pipelines" modular_pipelines_tree;
                 field "selected_pipeline" (PyStr i) ]).

(** The calls of a complete run for the pipeline id [i]. *)
Definition calls_for (i : string) : list dam_call :=
  [ Call_get_default_selected_pipeline;
    Call_create_modular_pipelines_tree_for_registered_pipeline i;
    Call_get_nodes_for_registered_pipeline i;
    Call_get_edges_for_registered_pipeline i;
    Call_tags_as_list;
    Call_get_sorted_layers_for_registered_pipeline i;
    Call_registered_pipelines_as_list ].

(** The option word [encode_to_human_readable] passes to [orjson.dumps]. *)
Definition human_readable_option : Z :=
  Z.lor (Z.lor orjson.OPT_INDENT_2 orjson.OPT_NON_STR_KEYS)
    orjson.OPT_SERIALIZE_NUMPY.

(** The value a document reads back as, under a hook for its objects. *)
Fixpoint value_of_document (hook : list (string * pyval) → pydict) (j : json)
  : pyval :=
  match j with
  | JNull => PyNone
  | JBool v => PyBool v
  | JInt z => PyInt z
  | JFloat x => PyFloat (Finite x)
  | JStr s => PyStr s
  | JArr items => PyList (map (value_of_document hook) items)
  | JObj members =>
      PyDict (hook (map (fun m : string * json =>
                           (m.1, value_of_document hook m.2)) members))
  end.

(** The number of containers, items and members of a document. *)
Fixpoint document_size (j : json) : nat :=
  match j with
  | JArr items => S (list_sum (map (fun x => S (document_size x)) items))
  | JObj members =>
      S (list_sum (map (fun m : string * json => S (document_size m.2)) members))
  | _ => O
  end.

(** A member of an object, as written on its line. *)
Definition write_member (d : nat) (m : string * json) : bytes :=
  orjson.quote m.1 ++ [x3a; x20] ++ orjson.write true (S d) m.2.

(** What the encoder writes after a value: nothing, a comma or a line
    break. *)
Definition delimited (rest : bytes) : Prop :=
  match rest with
  | [] => True
  | c :: _ => c = x2c ∨ c = x0a
  end.

(** What would continue the digits of a number. *)
Definition starts_with_digit (s : bytes) : bool :=
  match s with
  | c :: _ => bool_decide (is_Some (reader.digit_of c))
  | [] => false
  end.

(** The bytes a written value can start with. *)
Definition value_start (c : byte) : bool :=
  match c with
  | x6e | x74 | x66 | x22 | x5b | x7b | x2d
  | x30 | x31 | x32 | x33 | x34 | x35 | x36 | x37 | x38 | x39 => true
  | _ => false
  end.

(** The bytes a written integer can start with. *)
Definition number_start (c : byte) : bool :=
  match c with
  | x2d | x30 | x31 | x32 | x33 | x34 | x35 | x36 | x37 | x38 | x39 => true
  | _ => false
  end.

(** ** Example values *)

(** A data node object that has no [modular_pipelines], [dataset_type] or
    [stats] attribute, and [None] as its [layer]. *)
Definition example_bare_data_node : pyval :=
  PyObject "DataNode"
    [ ("id", PyStr "d7b83b05"); ("name", PyStr "master_table");
      ("tags", PyList []); ("pipelines", PyList [PyStr "__default__"]);
      ("type", PyStr "data"); ("layer", PyNone) ].

(** The flat node it validates as. *)
Definition example_bare_data_node_response : NodeAPIResponse :=
  DataNode
    (DataNodeAPIResponse.mk
       (BaseGraphNodeAPIResponse.mk "d7b83b05" "master_table" []
          ["__default__"] "data" None)
       None None None).

(** A parameters node object and its metadata object. *)
Definition example_parameters_node : pyval :=
  PyObject "ParametersNode"
    [ ("id", PyStr "f1f1425b"); ("name", PyStr "params:model_options");
      ("tags", PyList []); ("pipelines", PyList [PyStr "__default__"]);
      ("type", PyStr "parameters"); ("modular_pipelines", PyList []);
      ("layer", PyNone) ].

Definition example_parameters_node_response : DataNodeAPIResponse.t :=
  DataNodeAPIResponse.mk
    (BaseGraphNodeAPIResponse.mk "f1f1425b" "params:model_options" []
       ["__default__"] "parameters" (Some []))
    None None None.

Definition example_parameters_metadata : pyval :=
  PyObject "ParametersNodeMetadata"
    [ ("parameters", PyDict [(PyStr "random_state", PyInt 3)]) ].

(** Two tenths, and two and a half. *)
Definition example_float : pyfloat := Finite (Fixed false 0 d2 []).
Definition example_float_key : pyfloat := Finite (Fixed false 2 d5 []).

(** A mapping with keys of several types, holding a list with a float and
    [nan], a matrix of integers, a tuple and a [float32] vector. *)
Definition example_content : pyval :=
  PyDict
    [ (PyStr "b", PyInt 1);
      (PyInt 7,
       PyList [ PyInt (-3); PyStr "x"; PyList []; PyDict [];
                PyFloat example_float; PyFloat NaN ]);
      (PyNone,
       PyNdarray (mk_ndarray dt_integer true
                    (Rows [Row [1; 2]; Row [3; 4]])));
      (PyBool true, PyStr "a");
      (PyFloat example_float_key, PyTuple [PyInt 1; PyInt 2]);
      (PyStr "f",
       PyNdarray (mk_ndarray dt_float32 true
                    (Row [example_float; Inf true]))) ].

(** What reading its encoding gives. *)
Definition example_content_read : pyval :=
  PyDict
    [ (PyStr "b", PyInt 1);
      (PyStr "7",
       PyList [ PyInt (-3); PyStr "x"; PyList []; PyDict [];
                PyFloat example_float; PyNone ]);
      (PyStr "null",
       PyList [PyList [PyInt 1; PyInt 2]; PyList [PyInt 3; PyInt 4]]);
      (PyStr "true", PyStr "a");
      (PyStr "2.5", PyList [PyInt 1; PyInt 2]);
      (PyStr "f", PyList [PyFloat example_float; PyNone]) ].

(** The transpose of a matrix: the same memory read column by column,
    which is not C-contiguous. *)
Definition example_transposed_matrix : pyval :=
  PyNdarray (mk_ndarray dt_integer false (Rows [Row [1; 3]; Row [2; 4]])).

(** A mapping whose keys are not in sorted order, at two levels, with two
    keys written as the same string. *)
Definition example_unsorted_mapping : pyval :=
  PyDict [ (PyStr "b", PyInt 1);
           (PyStr "a", PyDict [ (PyStr "z", PyInt 1); (PyStr "y", PyInt 2);
                                (PyInt 10, PyNone); (PyStr "10", PyInt 3) ]);
           (PyInt 10, PyNone); (PyInt 9, PyBool false) ].

(** Its members, as written. *)
Definition example_unsorted_mapping_read : pyval :=
  PyDict [ (PyStr "b", PyInt 1);
           (PyStr "a", PyDict [ (PyStr "z", PyInt 1); (PyStr "y", PyInt 2);
                                (PyStr "10", PyNone); (PyStr "10", PyInt 3) ]);
           (PyStr "10", PyNone); (PyStr "9", PyBool false) ].

(** A response whose only node is a task node with a parameter keyed by
    an integer. *)
Definition example_response_with_int_key : GraphAPIResponse.t :=
  GraphAPIResponse.mk
    [ TaskNode
        (TaskNodeAPIResponse.mk
           (BaseGraphNodeAPIResponse.mk "A" "split_data_node" []
              ["__default__"] "task" (Some []))
           [(PyInt 1, PyStr "a"); (PyStr "test_size", PyFloat example_float)]) ]
    [] [] []
    [ NamedEntityAPIResponse.mk "__default__" (Some "__default__") ]
    [ ("__root__",
       ModularPipelinesTreeNodeAPIResponse.mk "__root__" "__root__" [] []
         [ ModularPipelineChildAPIResponse.mk "A" "task" ]) ]
    "__default__".

(** The same response with the parameter keyed by a string. *)
Definition example_response_with_str_key : GraphAPIResponse.t :=
  GraphAPIResponse.mk
    [ TaskNode
        (TaskNodeAPIResponse.mk
           (BaseGraphNodeAPIResponse.mk "A" "split_data_node" []
              ["__default__"] "task" (Some []))
           [(PyStr "1", PyStr "a"); (PyStr "test_size", PyFloat example_float)]) ]
    [] [] []
    [ NamedEntityAPIResponse.mk "__default__" (Some "__default__") ]
    [ ("__root__",
       ModularPipelinesTreeNodeAPIResponse.mk "__root__" "__root__" [] []
         [ ModularPipelineChildAPIResponse.mk "A" "task" ]) ]
    "__default__".



(** ** Induction over nested values *)

Section json_induction.

Variable P : json → Prop.
Hypothesis Hnull : P JNull.
Hypothesis Hbool : ∀ v, P (JBool v).
Hypothesis Hint : ∀ z, P (JInt z).
Hypothesis Hstr : ∀ s, P (JStr s).
Hypothesis Harr : ∀ items, Forall P items → P (JArr items).
Hypothesis Hobj :
  ∀ members, Forall (fun m : string * json => P m.2) members → P (JObj members).
Hypothesis Hfloat : ∀ x, P (JFloat x).

Fixpoint json_nested_ind (j : json) : P j :=
  match j with
  | JNull => Hnull
  | JBool v => Hbool v
  | JInt z => Hint z
  | JFloat x => Hfloat x
  | JStr s => Hstr s
  | JArr items =>
      Harr items
        ((fix go (l : list json) : Forall P l :=
            match l with
            | [] => List.Forall_nil P
            | x :: l' => List.Forall_cons P x l' (json_nested_ind x) (go l')
            end) items)
  | JObj members =>
      Hobj members
        ((fix go (l : list (string * json))
            : Forall (fun m : string * json => P m.2) l :=
            match l with
            | [] => List.Forall_nil _
            | m :: l' =>
                List.Forall_cons (fun m : string * json => P m.2) m l'
                  (json_nested_ind m.2) (go l')
            end) members)
  end.

End json_induction.

Section pyval_induction.

Variable P : pyval → Prop.
Hypothesis Hnone : P PyNone.
Hypothesis Hbool : ∀ v, P (PyBool v).
Hypothesis Hint : ∀ z, P (PyInt z).
Hypothesis Hstr : ∀ s, P (PyStr s).
Hypothesis Hlist : ∀ xs, Forall P xs → P (PyList xs).
Hypothesis Hdict :
  ∀ kvs, Forall (fun kv : pyval * pyval => P kv.2) kvs → P (PyDict kvs).
Hypothesis Hnd : ∀ a, P (PyNdarray a).
Hypothesis Hobj : ∀ cls attrs, P (PyObject cls attrs).
Hypothesis Hfloat : ∀ f, P (PyFloat f).
Hypothesis Htuple : ∀ xs, Forall P xs → P (PyTuple xs).

Fixpoint pyval_nested_ind (v : pyval) : P v :=
  match v with
  | PyNone => Hnone
  | PyBool v => Hbool v
  | PyInt z => Hint z
  | PyStr s => Hstr s
  | PyList xs =>
      Hlist xs
        ((fix go (l : list pyval) : Forall P l :=
            match l with
            | [] => List.Forall_nil P
            | x :: l' => List.Forall_cons P x l' (pyval_nested_ind x) (go l')
            end) xs)
  | PyDict kvs =>
      Hdict kvs
        ((fix go (l : pydict) : Forall (fun kv : pyval * pyval => P kv.2) l :=
            match l with
            | [] => List.Forall_nil _
            | kv :: l' =>
                List.Forall_cons (fun kv : pyval * pyval => P kv.2) kv l'
                  (pyval_nested_ind kv.2) (go l')
            end) kvs)
  | PyNdarray a => Hnd a
  | PyObject cls attrs => Hobj cls attrs
  | PyFloat f => Hfloat f
  | PyTuple xs =>
      Htuple xs
        ((fix go (l : list pyval) : Forall P l :=
            match l with
            | [] => List.Forall_nil P
            | x :: l' => List.Forall_cons P x l' (pyval_nested_ind x) (go l')
            end) xs)
  end.

End pyval_induction.

Section nested_induction.

Context {A : Type}.
Variable P : nested A → Prop.
Hypothesis Hrow : ∀ xs, P (Row xs).
Hypothesis Hrows : ∀ rows, Forall P rows → P (Rows rows).

Fixpoint nested_ind' (a : nested A) : P a :=
  match a with
  | Row xs => Hrow xs
  | Rows rows =>
      Hrows rows
        ((fix go (l : list (nested A)) : Forall P l :=
            match l with
            | [] => List.Forall_nil P
            | x :: l' => List.Forall_cons P x l' (nested_ind' x) (go l')
            end) rows)
  end.

End nested_induction.

(** The dump of a node's metadata, whichever its variant. *)
Definition dump_NodeMetadataAPIResponse (m : NodeMetadataAPIResponse) : pyval :=
  match m with
  | TaskNodeMetadata r => TaskNodeMetadataAPIResponse.model_dump r
  | DataNodeMetadata r => DataNodeMetadataAPIResponse.model_dump r
  | TranscodedDataNodeMetadata r => TranscodedDataNodeMetadataAPIReponse.model_dump r
  | ParametersNodeMetadata r => ParametersNodeMetadataAPIResponse.model_dump r
  end.

(** A node object of type "data" that carries a [parameters] mapping, and
    one of type "task" that carries none. *)
Definition example_data_node_with_parameters : pyval :=
  PyObject "Node"
    [ ("id", PyStr "n1"); ("name", PyStr "n1"); ("tags", PyList []);
      ("pipelines", PyList []); ("type", PyStr "data");
      ("parameters", PyDict []) ].

Definition example_task_node_without_parameters : pyval :=
  PyObject "Node"
    [ ("id", PyStr "n2"); ("name", PyStr "n2"); ("tags", PyList []);
      ("pipelines", PyList []); ("type", PyStr "task") ].

(** What the manager answers to a call (the value aside). *)
Definition answer (m : DataAccessManager.t) (c : dam_call) : result unit :=
  match c with
  | Call_get_default_selected_pipeline =>
      DataAccessManager.get_default_selected_pipeline m ≫= fun _ => mret ()
  | Call_create_modular_pipelines_tree_for_registered_pipeline i =>
      DataAccessManager.create_modular_pipelines_tree_for_registered_pipeline m i
      ≫= fun _ => mret ()
  | Call_get_nodes_for_registered_pipeline i =>
      DataAccessManager.get_nodes_for_registered_pipeline m i ≫= fun _ => mret ()
  | Call_get_edges_for_registered_pipeline i =>
      DataAccessManager.get_edges_for_registered_pipeline m i ≫= fun _ => mret ()
  | Call_tags_as_list => DataAccessManager.tags_as_list m ≫= fun _ => mret ()
  | Call_get_sorted_layers_for_registered_pipeline i =>
      DataAccessManager.get_sorted_layers_for_registered_pipeline m i
      ≫= fun _ => mret ()
  | Call_registered_pipelines_as_list =>
      DataAccessManager.registered_pipelines_as_list m ≫= fun _ => mret ()
  end.

(** A [pydantic.ValidationError]. *)
Definition is_validation_error (e : pyexc) : Prop :=
  ∃ loc msg, e = ValidationError loc msg.

(** A validator that raises nothing but validation errors. *)
Definition raises_validation_errors {A} (f : pyval → result A) : Prop :=
  ∀ v e, f v = Raise e → is_validation_error e.

(** The example index, with a second node that is no node object. *)
Definition example_manager_with_invalid_node : DataAccessManager.t :=
  {| DataAccessManager.get_default_selected_pipeline :=
       DataAccessManager.get_default_selected_pipeline example_manager;
     DataAccessManager.create_modular_pipelines_tree_for_registered_pipeline :=
       DataAccessManager.create_modular_pipelines_tree_for_registered_pipeline
         example_manager;
     DataAccessManager.get_nodes_for_registered_pipeline _ :=
       Ok (PyList [example_task_node; PyStr "B"]);
     DataAccessManager.get_edges_for_registered_pipeline :=
       DataAccessManager.get_edges_for_registered_pipeline example_manager;
     DataAccessManager.tags_as_list :=
       DataAccessManager.tags_as_list example_manager;
     DataAccessManager.get_sorted_layers_for_registered_pipeline :=
       DataAccessManager.get_sorted_layers_for_registered_pipeline
         example_manager;
     DataAccessManager.registered_pipelines_as_list :=
       DataAccessManager.registered_pipelines_as_list example_manager |}.

(** The example index, when the query of the edges raises. *)
Definition example_manager_failing_edges : DataAccessManager.t :=
  {| DataAccessManager.get_default_selected_pipeline :=
       DataAccessManager.get_default_selected_pipeline example_manager;
     DataAccessManager.create_modular_pipelines_tree_for_registered_pipeline :=
       DataAccessManager.create_modular_pipelines_tree_for_registered_pipeline
         example_manager;
     DataAccessManager.get_nodes_for_registered_pipeline :=
       DataAccessManager.get_nodes_for_registered_pipeline example_manager;
     DataAccessManager.get_edges_for_registered_pipeline _ :=
       Raise (AttributeError "edges");
     DataAccessManager.tags_as_list :=
       DataAccessManager.tags_as_list example_manager;
     DataAccessManager.get_sorted_layers_for_registered_pipeline :=
       DataAccessManager.get_sorted_layers_for_registered_pipeline
         example_manager;
     DataAccessManager.registered_pipelines_as_list :=
       DataAccessManager.registered_pipelines_as_list example_manager |}.

(** No two keys of a mapping of the value are written as the same
    string. *)
Fixpoint no_key_clash (v : pyval) : bool :=
  match v with
  | PyList xs | PyTuple xs => forallb no_key_clash xs
  | PyDict kvs =>
      distinct (map (fun kv : pyval * pyval => canonical_key kv.1) kvs)
      && forallb (fun kv : pyval * pyval => no_key_clash kv.2) kvs
  | _ => true
  end.

(** A control character (below U+0020). *)
Definition control (c : byte) : bool := (Byte.to_N c <? 32)%N.

(** [clean in_string s]: the text [s] holds no control character inside
    a string (a character after a backslash included), and outside the
    strings none but line breaks; it ends outside a string. *)
Fixpoint clean (in_string : bool) (s : bytes) : bool :=
  match s with
  | [] => negb in_string
  | c :: r =>
      if in_string then
        match c with
        | x5c =>
            match r with
            | e :: r' => negb (control e) && clean true r'
            | [] => false
            end
        | x22 => clean false r
        | _ => negb (control c) && clean true r
        end
      else
        match c with
        | x22 => clean true r
        | _ => (negb (control c) || Byte.eqb c x0a) && clean false r
        end
  end.

(** The fields a flat node declares, in either variant. *)
Definition NodeAPIResponse_field_names : list string :=
  TaskNodeAPIResponse.field_names
  ++ ["layer"; "dataset_type"; "stats"].

(** A task node object as the index holds it, with attributes the response
    does not declare. *)
Definition example_task_node_object : pyval :=
  PyObject "TaskNode"
    [ ("id", PyStr "6ab908b8"); ("name", PyStr "split_data_node");
      ("tags", PyList []); ("pipelines", PyList [PyStr "__default__"]);
      ("type", PyStr "task"); ("modular_pipelines", PyList []);
      ("parameters", PyDict [(PyStr "test_size", PyInt 2)]);
      ("kedro_obj", PyObject "Node" []); ("namespace", PyNone) ].

(** The keyword arguments that hold its declared fields alone. *)
Definition example_task_node_kwargs : pyval :=
  PyDict
    [ (PyStr "id", PyStr "6ab908b8"); (PyStr "name", PyStr "split_data_node");
      (PyStr "tags", PyList []);
      (PyStr "pipelines", PyList [PyStr "__default__"]);
      (PyStr "type", PyStr "task"); (PyStr "modular_pipelines", PyList []);
      (PyStr "parameters", PyDict [(PyStr "test_size", PyInt 2)]) ].

(** [vars(obj)]: the attributes of an object as a mapping. *)
Definition vars (attrs : list (string * pyval)) : pydict :=
  map (fun kv : string * pyval => (PyStr kv.1, kv.2)) attrs.

(** Two inputs that hold the same value, or both none, for every field
    of a list. *)
Definition same_fields (names : list string) (a b : pyval) : Prop :=
  Forall (fun name => get_field true a name = get_field true b name) names.

(** A byte of a number: a digit, a sign, a point or the mark of an
    exponent. *)
Definition number_byte (c : byte) : bool :=
  match c with
  | x2d | x2e | x65
  | x30 | x31 | x32 | x33 | x34 | x35 | x36 | x37 | x38 | x39 => true
  | _ => false
  end.

(** * Properties *)

(** ** Validation helpers *)

Arguments get_field : simpl never.
Arguments required : simpl never.
Arguments defaulted : simpl never.

Lemma bind_Ok {A B} (m : result A) (f : A → result B) (y : B) :
  m ≫= f = Ok y ↔ ∃ x, m = Ok x ∧ f x = Ok y.
Proof.
  destruct m as [x|e]; simpl; split.
  - eauto.
  - intros (x' & [= ->] & H). done.
  - discriminate.
  - intros (x' & [=] & _).
Qed.

Lemma fmap_Ok {A B} (m : result A) (f : A → B) (y : B) :
  f <$> m = Ok y ↔ ∃ x, m = Ok x ∧ y = f x.
Proof.
  destruct m as [x|e]; simpl; split.
  - intros [= <-]. eauto.
  - intros (x' & [= ->] & ->). done.
  - discriminate.
  - intros (x' & [=] & _).
Qed.

Lemma mapM_Ok_Forall2 {A B} (f : A → result B) (l : list A) (k : list B) :
  mapM f l = Ok k ↔ Forall2 (fun x y => f x = Ok y) l k.
Proof.
  revert k. induction l as [|x l IH]; intros k; simpl.
  - split; [intros [= <-]; constructor | by inversion 1].
  - split.
    + intros (y & Hy & (k' & Hk' & [= <-])%bind_Ok)%bind_Ok.
      constructor; [done | by apply IH].
    + inversion 1 as [|? y ? k' Hy Hk']; subst.
      apply bind_Ok. exists y. split; [done|].
      apply bind_Ok. exists k'. split; [by apply IH | done].
Qed.

Lemma validate_list_str_dump (l : list string) :
  validate_list validate_str (PyList (map PyStr l)) = Ok l.
Proof.
  simpl. apply mapM_Ok_Forall2.
  induction l; constructor; done.
Qed.

Lemma required_Ok {A} fa (f : pyval → result A) input name (x : A) :
  required fa f input name = Ok x ↔
  ∃ v, get_field fa input name = Ok (Some v) ∧ f v = Ok x.
Proof.
  unfold required. rewrite bind_Ok. split.
  - intros ([v|] & Hg & Hf); [eauto | discriminate].
  - intros (v & Hg & Hf). eauto.
Qed.

Lemma required_missing {A} fa (f : pyval → result A) input name :
  get_field fa input name = Ok None →
  required fa f input name = Raise (ValidationError name "field required").
Proof. unfold required. by intros ->. Qed.

Lemma defaulted_missing {A} fa (f : pyval → result A) dflt input name :
  get_field fa input name = Ok None →
  defaulted fa f dflt input name = Ok dflt.
Proof. unfold defaulted. by intros ->. Qed.

Lemma defaulted_optional_absent {A} (f : pyval → result A) input name :
  absent input name →
  defaulted true (validate_optional f) None input name = Ok None.
Proof. unfold defaulted. by intros [-> | ->]. Qed.

(** ** Task-node metadata (C10) *)

Lemma task_node_metadata_needs_inputs_outputs (input : pyval) :
  get_field true input "inputs" = Ok None
  ∨ get_field true input "outputs" = Ok None →
  ∃ e, TaskNodeMetadataAPIResponse.validate input = Raise e.
Proof.
  intros Hmiss. unfold TaskNodeMetadataAPIResponse.validate. simpl.
  destruct (defaulted _ _ _ input "code") as [c|e]; simpl; [|eauto].
  destruct (defaulted _ _ _ input "filepath") as [f|e]; simpl; [|eauto].
  destruct (defaulted _ _ _ input "parameters") as [p|e]; simpl; [|eauto].
  destruct Hmiss as [Hi|Ho].
  - rewrite (required_missing _ _ _ _ Hi). simpl. eauto.
  - destruct (required _ _ input "inputs") as [i|e]; simpl; [|eauto].
    rewrite (required_missing _ _ _ _ Ho). simpl. eauto.
Qed.

(** C10. Constructing a [TaskNodeMetadataAPIResponse] fails when [inputs]
    or [outputs] is not provided; when both are provided as lists of
    strings and [code], [filepath], [parameters] and [run_command] are
    absent (not provided, or [None]), the record is built with these four
    fields null. *)
Theorem task_node_metadata_required_and_defaults (input : pyval) :
  (get_field true input "inputs" = Ok None
   ∨ get_field true input "outputs" = Ok None →
   ∃ e, TaskNodeMetadataAPIResponse.validate input = Raise e)
  ∧ (∀ ins outs,
       get_field true input "inputs" = Ok (Some (PyList (map PyStr ins))) →
       get_field true input "outputs" = Ok (Some (PyList (map PyStr outs))) →
       absent input "code" →
       absent input "filepath" →
       absent input "parameters" →
       absent input "run_command" →
       TaskNodeMetadataAPIResponse.validate input
       = Ok (TaskNodeMetadataAPIResponse.mk None None None ins outs None)).
Proof.
  split.
  - apply task_node_metadata_needs_inputs_outputs.
  - intros ins outs Hi Ho Hc Hf Hp Hr.
    unfold TaskNodeMetadataAPIResponse.validate,
      BaseAPIResponse_from_attributes. cbv zeta.
    rewrite !defaulted_optional_absent by done. cbn [mbind result_bind].
    unfold required.
    rewrite Hi, Ho. cbn [mbind result_bind].
    rewrite !validate_list_str_dump. reflexivity.
Qed.

Lemma task_node_metadata_required_and_defaults_witness :
  TaskNodeMetadataAPIResponse.validate
    (PyDict [ field "inputs" (PyList (map PyStr ["params:input1"; "input2"]));
              field "outputs" (PyList (map PyStr ["output1"])) ])
  = Ok (TaskNodeMetadataAPIResponse.mk None None None
          ["params:input1"; "input2"] ["output1"] None)
  ∧ ∃ e, TaskNodeMetadataAPIResponse.validate
           (PyDict [ field "code" (PyStr "def split_data(data): ...");
                     field "inputs" (PyList [PyStr "input2"]) ]) = Raise e.
Proof.
  split.
  - apply (proj2 (task_node_metadata_required_and_defaults _));
      first [reflexivity | left; reflexivity].
  - apply (proj1 (task_node_metadata_required_and_defaults _)).
    right. reflexivity.
Defined.

(** ** Flat nodes and node metadata (C6, C7, C8) *)

Lemma dump_NodeAPIResponse_fields (n : NodeAPIResponse) :
  dump_NodeAPIResponse n = PyDict (node_dump_fields n).
Proof. by destruct n. Qed.

Lemma union_Ok_l {A} (l r : pyval → result A) v a :
  l v = Ok a → union l r v = Ok a.
Proof. unfold union. by intros ->. Qed.

Lemma union_Raise_l {A} (l r : pyval → result A) v e :
  l v = Raise e → union l r v = r v.
Proof. unfold union. by intros ->. Qed.

Lemma union_fails_l {A B} (f : pyval → result A) (c : A → B)
    (r : pyval → result B) v :
  (∃ e, f v = Raise e) → union (fun v => c <$> f v) r v = r v.
Proof. intros [e He]. unfold union. by rewrite He. Qed.

Lemma task_node_needs_parameters (input : pyval) :
  absent input "parameters" →
  ∃ e, TaskNodeAPIResponse.validate input = Raise e.
Proof.
  intros Hp. unfold TaskNodeAPIResponse.validate.
  destruct (BaseGraphNodeAPIResponse.validate input) as [x|e]; simpl; [|eauto].
  unfold BaseAPIResponse_from_attributes, required.
  destruct Hp as [-> | ->]; simpl; eauto.
Qed.

Lemma base_validate_type (input : pyval) r ty :
  BaseGraphNodeAPIResponse.validate input = Ok r →
  get_field true input "type" = Ok (Some (PyStr ty)) →
  BaseGraphNodeAPIResponse.type r = ty.
Proof.
  unfold BaseGraphNodeAPIResponse.validate, BaseAPIResponse_from_attributes.
  intros H Hty. cbv zeta in H.
  repeat (apply bind_Ok in H as (? & ? & H)).
  injection H as <-. simpl.
  match goal with
  | Hr : required _ _ input "type" = Ok _ |- _ =>
      apply required_Ok in Hr as (v & Hv & Hs)
  end.
  rewrite Hty in Hv. injection Hv as <-. simpl in Hs. by injection Hs.
Qed.

(** C6. A flat node is one of exactly two variants, task or data; a node
    object without a [parameters] mapping (a parameters node) comes out as
    the data variant and keeps its [type], so [type = "parameters"] is a
    data-like entry. The metadata union has four variants, and an object
    that only carries a [parameters] mapping comes out as the parameters
    variant, which is none of the other three. *)
Theorem flat_node_two_variants_metadata_four :
  (∀ n : NodeAPIResponse,
     ((∃ r, n = TaskNode r) ∨ (∃ r, n = DataNode r))
     ∧ ¬ ((∃ r, n = TaskNode r) ∧ (∃ r, n = DataNode r)))
  ∧ (∀ input d,
       DataNodeAPIResponse.validate input = Ok d →
       absent input "parameters" →
       get_field true input "type" = Ok (Some (PyStr "parameters")) →
       validate_NodeAPIResponse input = Ok (DataNode d)
       ∧ BaseGraphNodeAPIResponse.type (DataNodeAPIResponse.base d)
         = "parameters")
  ∧ (∀ m : NodeMetadataAPIResponse,
       (∃ r, m = TaskNodeMetadata r) ∨ (∃ r, m = DataNodeMetadata r)
       ∨ (∃ r, m = TranscodedDataNodeMetadata r)
       ∨ (∃ r, m = ParametersNodeMetadata r))
  ∧ (∀ input p,
       get_field true input "parameters" = Ok (Some (PyDict p)) →
       get_field true input "inputs" = Ok None →
       get_field true input "type" = Ok None →
       get_field true input "filepath" = Ok None →
       validate_NodeMetadataAPIResponse input
       = Ok (ParametersNodeMetadata (ParametersNodeMetadataAPIResponse.mk p))
       ∧ (∀ r, ParametersNodeMetadata (ParametersNodeMetadataAPIResponse.mk p)
               ≠ TaskNodeMetadata r)
       ∧ (∀ r, ParametersNodeMetadata (ParametersNodeMetadataAPIResponse.mk p)
               ≠ DataNodeMetadata r)
       ∧ (∀ r, ParametersNodeMetadata (ParametersNodeMetadataAPIResponse.mk p)
               ≠ TranscodedDataNodeMetadata r)).
Proof.
  split; [|split; [|split]].
  - intros [r|r]; split; eauto.
    + intros [_ [r' [=]]].
    + intros [[r' [=]] _].
  - intros input d Hd Hp Hty. split.
    + unfold validate_NodeAPIResponse.
      destruct (task_node_needs_parameters input Hp) as [e He].
      erewrite union_Raise_l by (rewrite He; reflexivity).
      by rewrite Hd.
    + unfold DataNodeAPIResponse.validate in Hd.
      apply bind_Ok in Hd as (base & Hb & Hd).
      repeat (apply bind_Ok in Hd as (? & ? & Hd)).
      injection Hd as <-. simpl. by eapply base_validate_type.
  - intros [r|r|r|r]; eauto 6.
  - intros input p Hp Hi Hty Hf. split; [|done].
    unfold validate_NodeMetadataAPIResponse.
    assert (∃ e, TaskNodeMetadataAPIResponse.validate input = Raise e)
      as [e1 H1].
    { apply task_node_metadata_needs_inputs_outputs. by left. }
    erewrite union_Raise_l by (rewrite H1; reflexivity).
    assert (∃ e, DataNodeMetadataAPIResponse.validate input = Raise e)
      as [e2 H2].
    { unfold DataNodeMetadataAPIResponse.validate,
        BaseAPIResponse_from_attributes. cbv zeta.
      rewrite (defaulted_missing _ _ _ _ _ Hf). simpl.
      rewrite (required_missing _ _ _ _ Hty). simpl. eauto. }
    erewrite union_Raise_l by (rewrite H2; reflexivity).
    assert (∃ e, TranscodedDataNodeMetadataAPIReponse.validate input = Raise e)
      as [e3 H3].
    { unfold TranscodedDataNodeMetadataAPIReponse.validate,
        BaseAPIResponse_from_attributes. cbv zeta.
      rewrite (required_missing _ _ _ _ Hf). simpl. eauto. }
    erewrite union_Raise_l by (rewrite H3; reflexivity).
    unfold ParametersNodeMetadataAPIResponse.validate,
      BaseAPIResponse_from_attributes, required.
    rewrite Hp. reflexivity.
Qed.

Lemma flat_node_two_variants_metadata_four_witness :
  (validate_NodeAPIResponse example_parameters_node
   = Ok (DataNode example_parameters_node_response)
   ∧ BaseGraphNodeAPIResponse.type
       (DataNodeAPIResponse.base example_parameters_node_response)
     = "parameters")
  ∧ validate_NodeMetadataAPIResponse example_parameters_metadata
    = Ok (ParametersNodeMetadata
            (ParametersNodeMetadataAPIResponse.mk
               [(PyStr "random_state", PyInt 3)])).
Proof.
  destruct flat_node_two_variants_metadata_four as (_ & Hnode & _ & Hmeta).
  split.
  - apply Hnode; [reflexivity | left; reflexivity | reflexivity].
  - apply Hmeta; reflexivity.
Defined.

Lemma base_validate_modular_pipelines_absent (input : pyval) r :
  BaseGraphNodeAPIResponse.validate input = Ok r →
  absent input "modular_pipelines" →
  BaseGraphNodeAPIResponse.modular_pipelines r = None.
Proof.
  unfold BaseGraphNodeAPIResponse.validate, BaseAPIResponse_from_attributes.
  intros H Hmp. cbv zeta in H.
  repeat (apply bind_Ok in H as (? & ? & H)).
  injection H as <-. simpl.
  match goal with
  | Hr : defaulted _ _ _ input "modular_pipelines" = Ok _ |- _ =>
      rewrite (defaulted_optional_absent _ _ _ Hmp) in Hr; by injection Hr
  end.
Qed.

(** C7. Every flat node record has the six common fields, whichever its
    variant, and its dump lists them before the fields of its kind; a field
    with a default that the node object does not have ([modular_pipelines]
    for either variant; [layer], [dataset_type] and [stats] for a data
    node) is present in the record and dumped as null. *)
Theorem flat_node_records_are_total (n : NodeAPIResponse) :
  (∃ own, map fst (node_dump_fields n)
          = map PyStr BaseGraphNodeAPIResponse.field_names ++ own)
  ∧ (∀ name, name ∈ BaseGraphNodeAPIResponse.field_names →
             is_Some (dict_get_str name (node_dump_fields n)))
  ∧ (∀ input,
       validate_NodeAPIResponse input = Ok n →
       (absent input "modular_pipelines" →
        dict_get_str "modular_pipelines" (node_dump_fields n) = Some PyNone)
       ∧ (∀ d, n = DataNode d →
            map fst (node_dump_fields n)
            = map PyStr DataNodeAPIResponse.field_names
            ∧ (absent input "layer" →
               dict_get_str "layer" (node_dump_fields n) = Some PyNone)
            ∧ (absent input "dataset_type" →
               dict_get_str "dataset_type" (node_dump_fields n) = Some PyNone)
            ∧ (absent input "stats" →
               dict_get_str "stats" (node_dump_fields n) = Some PyNone))).
Proof.
  split; [|split].
  - destruct n as [r|r]; simpl; eexists; reflexivity.
  - intros name Hin.
    unfold BaseGraphNodeAPIResponse.field_names in Hin.
    repeat (apply elem_of_cons in Hin as [->|Hin]);
      [destruct n; simpl; eauto ..|].
    by apply elem_of_nil in Hin.
  - intros input Hv. unfold validate_NodeAPIResponse, union in Hv. split.
    + intros Hmp.
      destruct (TaskNodeAPIResponse.validate input) as [t|e] eqn:Ht; simpl in Hv.
      * injection Hv as <-. simpl.
        unfold TaskNodeAPIResponse.validate in Ht.
        apply bind_Ok in Ht as (base & Hb & Ht).
        apply bind_Ok in Ht as (p & _ & [= <-]). simpl.
        by rewrite (base_validate_modular_pipelines_absent _ _ Hb Hmp).
      * apply fmap_Ok in Hv as (d & Hd & ->). simpl.
        unfold DataNodeAPIResponse.validate in Hd.
        apply bind_Ok in Hd as (base & Hb & Hd).
        repeat (apply bind_Ok in Hd as (? & ? & Hd)).
        injection Hd as <-. simpl.
        by rewrite (base_validate_modular_pipelines_absent _ _ Hb Hmp).
    + intros d ->.
      destruct (TaskNodeAPIResponse.validate input) as [t|e]; simpl in Hv;
        [discriminate|].
      apply fmap_Ok in Hv as (d' & Hd & [= <-]).
      split; [reflexivity|].
      unfold DataNodeAPIResponse.validate, BaseAPIResponse_from_attributes in Hd.
      cbv zeta in Hd.
      apply bind_Ok in Hd as (base & Hb & Hd).
      apply bind_Ok in Hd as (l & Hl & Hd).
      apply bind_Ok in Hd as (dt & Hdt & Hd).
      apply bind_Ok in Hd as (st & Hst & Hd).
      injection Hd as <-. simpl.
      repeat split; intros Habs.
      * rewrite (defaulted_optional_absent _ _ _ Habs) in Hl. by injection Hl as <-.
      * rewrite (defaulted_optional_absent _ _ _ Habs) in Hdt.
        by injection Hdt as <-.
      * rewrite (defaulted_optional_absent _ _ _ Habs) in Hst.
        by injection Hst as <-.
Qed.

Lemma flat_node_records_are_total_witness :
  validate_NodeAPIResponse example_bare_data_node
  = Ok example_bare_data_node_response
  ∧ dict_get_str "modular_pipelines"
      (node_dump_fields example_bare_data_node_response) = Some PyNone
  ∧ dict_get_str "layer"
      (node_dump_fields example_bare_data_node_response) = Some PyNone
  ∧ dict_get_str "dataset_type"
      (node_dump_fields example_bare_data_node_response) = Some PyNone
  ∧ dict_get_str "stats"
      (node_dump_fields example_bare_data_node_response) = Some PyNone.
Proof.
  assert (Hv : validate_NodeAPIResponse example_bare_data_node
               = Ok example_bare_data_node_response) by reflexivity.
  destruct (flat_node_records_are_total example_bare_data_node_response)
    as (_ & _ & H).
  destruct (H example_bare_data_node Hv) as (Hmp & Hd).
  destruct (Hd _ eq_refl) as (_ & Hl & Hdt & Hst).
  split; [exact Hv|].
  split; [apply Hmp; left; reflexivity|].
  split; [apply Hl; right; reflexivity|].
  split; [apply Hdt; left; reflexivity | apply Hst; left; reflexivity].
Defined.

(** C8. A dataset registered under more than one concrete type has the
    transcoded-data metadata variant, whose [transcoded_types] lists all
    the registered types (two of them for two types); it never has the
    plain data variant. *)
Theorem transcoded_dataset_metadata_variant
    (index : list (string * node_index.node)) (node_id : string)
    (filepath nominal_type : string) (registered_types : list string)
    (run_command : option string) (stats : option pydict) :
  assoc node_id index
  = Some (node_index.Dataset filepath nominal_type registered_types
            run_command stats) →
  (1 < length registered_types)%nat →
  ∃ r, node_index.get_node_metadata index node_id
       = Ok (TranscodedDataNodeMetadata r)
       ∧ TranscodedDataNodeMetadataAPIReponse.transcoded_types r
         = registered_types
       ∧ length (TranscodedDataNodeMetadataAPIReponse.transcoded_types r)
         = length registered_types
       ∧ ∀ d, node_index.get_node_metadata index node_id
              ≠ Ok (DataNodeMetadata d).
Proof.
  intros Hix Hlen.
  exists (TranscodedDataNodeMetadataAPIReponse.mk filepath nominal_type
            registered_types run_command stats).
  assert (node_index.get_node_metadata index node_id
          = Ok (TranscodedDataNodeMetadata
                  (TranscodedDataNodeMetadataAPIReponse.mk filepath
                     nominal_type registered_types run_command stats)))
    as Hget.
  { unfold node_index.get_node_metadata. rewrite Hix.
    unfold node_index.metadata_object.
    apply Nat.ltb_lt in Hlen. rewrite Hlen.
    cbn [mbind result_bind].
    unfold validate_NodeMetadataAPIResponse.
    rewrite union_fails_l
      by (apply task_node_metadata_needs_inputs_outputs; by left).
    rewrite union_fails_l by (eexists; reflexivity).
    apply union_Ok_l.
    unfold TranscodedDataNodeMetadataAPIReponse.validate, required, defaulted,
      BaseAPIResponse_from_attributes, get_field.
    cbn -[validate_list].
    rewrite validate_list_str_dump.
    destruct run_command, stats; reflexivity. }
  split; [exact Hget|]. split; [done|]. split; [done|].
  intros d. rewrite Hget. discriminate.
Qed.

Lemma transcoded_dataset_metadata_variant_witness :
  ∃ r, node_index.get_node_metadata
         [ ("0ecea0de",
            node_index.Dataset "/data/model_input.csv"
              "pandas.csv_dataset.CSVDataSet"
              ["pandas.csv_dataset.CSVDataSet"; "spark.spark_dataset.SparkDataSet"]
              None None) ] "0ecea0de"
       = Ok (TranscodedDataNodeMetadata r)
       ∧ length (TranscodedDataNodeMetadataAPIReponse.transcoded_types r) = 2%nat.
Proof.
  destruct (transcoded_dataset_metadata_variant
              [ ("0ecea0de",
                 node_index.Dataset "/data/model_input.csv"
                   "pandas.csv_dataset.CSVDataSet"
                   ["pandas.csv_dataset.CSVDataSet";
                    "spark.spark_dataset.SparkDataSet"]
                   None None) ] "0ecea0de" _ _ _ _ _ eq_refl)
    as (r & Hget & _ & Hlen & _).
  - simpl. lia.
  - exists r. split; [exact Hget | exact Hlen].
Defined.

(** ** Reading a dump back *)

Lemma validate_list_dump {A} (f : pyval → result A) (d : A → pyval) (l : list A) :
  (∀ x, f (d x) = Ok x) →
  validate_list f (dump_list d l) = Ok l.
Proof.
  intros Hf. simpl. apply mapM_Ok_Forall2.
  induction l; constructor; auto.
Qed.

Lemma validate_optional_dump {A} (f : pyval → result A) (d : A → pyval)
    (o : option A) :
  (∀ x, f (d x) = Ok x) → (∀ x, d x ≠ PyNone) →
  validate_optional f (dump_optional d o) = Ok o.
Proof.
  intros Hf Hd. destruct o as [x|]; simpl; [|done].
  specialize (Hd x). specialize (Hf x).
  destruct (d x); try done; simpl; by rewrite Hf.
Qed.

Lemma validate_dict_str_dump {A} (f : pyval → result A) (d : A → pyval)
    (l : list (string * A)) :
  (∀ x, f (d x) = Ok x) →
  validate_dict_str f (dump_dict_str d l) = Ok l.
Proof.
  intros Hf. simpl. apply mapM_Ok_Forall2.
  induction l as [|[k x] l IH]; constructor; [|done].
  simpl. by rewrite Hf.
Qed.

Lemma validate_opt_str_dump (o : option string) :
  validate_optional validate_str (dump_optional dump_str o) = Ok o.
Proof. by apply validate_optional_dump. Qed.

Lemma validate_opt_dict_dump (o : option pydict) :
  validate_optional validate_dict (dump_optional dump_dict o) = Ok o.
Proof. by apply validate_optional_dump. Qed.

Lemma validate_opt_list_str_dump (o : option (list string)) :
  validate_optional (validate_list validate_str)
    (dump_optional (dump_list dump_str) o) = Ok o.
Proof.
  apply validate_optional_dump; [|done].
  intros l. by apply validate_list_dump.
Qed.

Lemma validate_dump_list_str (l : list string) :
  validate_list validate_str (dump_list dump_str l) = Ok l.
Proof. by apply validate_list_dump. Qed.

Ltac read_back :=
  unfold required, defaulted, get_field, BaseAPIResponse_from_attributes, field;
  cbn [dict_get_str String.eqb Ascii.eqb Bool.eqb mbind result_bind mret
         result_ret];
  rewrite ?validate_dump_list_str, ?validate_opt_str_dump,
    ?validate_opt_dict_dump, ?validate_opt_list_str_dump;
  cbn [mbind result_bind mret result_ret validate_str dump_str validate_dict
         dump_dict].

Lemma task_node_validate_dump (r : TaskNodeAPIResponse.t) :
  TaskNodeAPIResponse.validate (TaskNodeAPIResponse.model_dump r) = Ok r.
Proof.
  destruct r as [[] ?].
  unfold TaskNodeAPIResponse.validate, TaskNodeAPIResponse.model_dump,
    TaskNodeAPIResponse.dump_fields, BaseGraphNodeAPIResponse.validate,
    BaseGraphNodeAPIResponse.dump_fields.
  cbv zeta. cbn [TaskNodeAPIResponse.base TaskNodeAPIResponse.parameters
    BaseGraphNodeAPIResponse.id BaseGraphNodeAPIResponse.name
    BaseGraphNodeAPIResponse.tags BaseGraphNodeAPIResponse.pipelines
    BaseGraphNodeAPIResponse.type BaseGraphNodeAPIResponse.modular_pipelines app].
  read_back. reflexivity.
Qed.

Lemma data_node_validate_dump (r : DataNodeAPIResponse.t) :
  DataNodeAPIResponse.validate (DataNodeAPIResponse.model_dump r) = Ok r.
Proof.
  destruct r as [[] ? ? ?].
  unfold DataNodeAPIResponse.validate, DataNodeAPIResponse.model_dump,
    DataNodeAPIResponse.dump_fields, BaseGraphNodeAPIResponse.validate,
    BaseGraphNodeAPIResponse.dump_fields.
  cbv zeta. cbn [DataNodeAPIResponse.base DataNodeAPIResponse.layer
    DataNodeAPIResponse.dataset_type DataNodeAPIResponse.stats
    BaseGraphNodeAPIResponse.id BaseGraphNodeAPIResponse.name
    BaseGraphNodeAPIResponse.tags BaseGraphNodeAPIResponse.pipelines
    BaseGraphNodeAPIResponse.type BaseGraphNodeAPIResponse.modular_pipelines app].
  read_back. reflexivity.
Qed.

Lemma node_validate_dump (n : NodeAPIResponse) :
  validate_NodeAPIResponse (dump_NodeAPIResponse n) = Ok n.
Proof.
  unfold validate_NodeAPIResponse. destruct n as [r|r]; simpl.
  - apply union_Ok_l. by rewrite task_node_validate_dump.
  - rewrite union_fails_l.
    + by rewrite data_node_validate_dump.
    + apply task_node_needs_parameters. left. by destruct r as [[] ? ? ?].
Qed.

Lemma edge_validate_dump (r : GraphEdgeAPIResponse.t) :
  GraphEdgeAPIResponse.validate (GraphEdgeAPIResponse.model_dump r) = Ok r.
Proof.
  destruct r.
  unfold GraphEdgeAPIResponse.validate, GraphEdgeAPIResponse.model_dump.
  cbv zeta. cbn [GraphEdgeAPIResponse.source GraphEdgeAPIResponse.target].
  read_back. reflexivity.
Qed.

Lemma named_entity_validate_dump (r : NamedEntityAPIResponse.t) :
  NamedEntityAPIResponse.validate (NamedEntityAPIResponse.model_dump r) = Ok r.
Proof.
  destruct r.
  unfold NamedEntityAPIResponse.validate, NamedEntityAPIResponse.model_dump.
  cbv zeta. cbn [NamedEntityAPIResponse.id NamedEntityAPIResponse.name].
  read_back. reflexivity.
Qed.

Lemma child_validate_dump (r : ModularPipelineChildAPIResponse.t) :
  ModularPipelineChildAPIResponse.validate
    (ModularPipelineChildAPIResponse.model_dump r) = Ok r.
Proof.
  destruct r.
  unfold ModularPipelineChildAPIResponse.validate,
    ModularPipelineChildAPIResponse.model_dump.
  cbv zeta. cbn [ModularPipelineChildAPIResponse.id
                   ModularPipelineChildAPIResponse.type].
  read_back. reflexivity.
Qed.

Lemma tree_node_validate_dump (r : ModularPipelinesTreeNodeAPIResponse.t) :
  ModularPipelinesTreeNodeAPIResponse.validate
    (ModularPipelinesTreeNodeAPIResponse.model_dump r) = Ok r.
Proof.
  destruct r.
  unfold ModularPipelinesTreeNodeAPIResponse.validate,
    ModularPipelinesTreeNodeAPIResponse.model_dump.
  cbv zeta. cbn [ModularPipelinesTreeNodeAPIResponse.id
    ModularPipelinesTreeNodeAPIResponse.name
    ModularPipelinesTreeNodeAPIResponse.inputs
    ModularPipelinesTreeNodeAPIResponse.outputs
    ModularPipelinesTreeNodeAPIResponse.children].
  read_back.
  rewrite (validate_list_dump _ _ _ child_validate_dump). reflexivity.
Qed.

Lemma graph_validate_dump (r : GraphAPIResponse.t) :
  GraphAPIResponse.validate (GraphAPIResponse.model_dump r) = Ok r.
Proof.
  destruct r.
  unfold GraphAPIResponse.validate, GraphAPIResponse.model_dump,
    GraphAPIResponse.dump_fields.
  cbv zeta. cbn [GraphAPIResponse.nodes GraphAPIResponse.edges
    GraphAPIResponse.layers GraphAPIResponse.tags GraphAPIResponse.pipelines
    GraphAPIResponse.modular_pipelines GraphAPIResponse.selected_pipeline].
  read_back.
  rewrite (validate_list_dump _ _ _ node_validate_dump).
  rewrite (validate_list_dump _ _ _ edge_validate_dump).
  rewrite !(validate_list_dump _ _ _ named_entity_validate_dump).
  rewrite (validate_dict_str_dump _ _ _ tree_node_validate_dump).
  reflexivity.
Qed.

(** ** The aggregate (C9) *)

Lemma graph_validate_needs (input : pyval) (name : string) :
  name ∈ GraphAPIResponse.field_names →
  get_field true input name = Ok None →
  ∃ e, GraphAPIResponse.validate input = Raise e.
Proof.
  intros Hin Hmiss.
  unfold GraphAPIResponse.validate, BaseAPIResponse_from_attributes. cbv zeta.
  unfold GraphAPIResponse.field_names in Hin.
  repeat (apply elem_of_cons in Hin as [->|Hin]);
    [..|by apply elem_of_nil in Hin];
    repeat first
      [ rewrite (required_missing _ _ _ _ Hmiss); simpl; by eauto
      | match goal with
        | |- ∃ e, required ?fa ?f ?i ?n ≫= _ = Raise e =>
            destruct (required fa f i n); simpl; [|by eauto]
        end ].
Qed.

(** C9. A [GraphAPIResponse] consists of exactly seven fields: its dump
    has the keys [nodes], [edges], [layers], [tags], [pipelines],
    [modular_pipelines] and [selected_pipeline], in this order, holding
    the list of node dumps (each a task or a data node), the list of edge
    dumps, the list of layer names, the two lists of named entities, a
    mapping from strings to tree nodes and a string; validating the dump
    gives the record back, and validation fails when any of the seven is
    not provided. *)
Theorem graph_response_fields (r : GraphAPIResponse.t) :
  map fst (GraphAPIResponse.dump_fields r)
  = map PyStr [ "nodes"; "edges"; "layers"; "tags"; "pipelines";
                "modular_pipelines"; "selected_pipeline" ]
  ∧ map snd (GraphAPIResponse.dump_fields r)
    = [ PyList (map dump_NodeAPIResponse (GraphAPIResponse.nodes r));
        PyList (map GraphEdgeAPIResponse.model_dump (GraphAPIResponse.edges r));
        PyList (map PyStr (GraphAPIResponse.layers r));
        PyList (map NamedEntityAPIResponse.model_dump (GraphAPIResponse.tags r));
        PyList (map NamedEntityAPIResponse.model_dump
                  (GraphAPIResponse.pipelines r));
        PyDict (map (fun kv : string * ModularPipelinesTreeNodeAPIResponse.t =>
                       (PyStr kv.1,
                        ModularPipelinesTreeNodeAPIResponse.model_dump kv.2))
                  (GraphAPIResponse.modular_pipelines r));
        PyStr (GraphAPIResponse.selected_pipeline r) ]
  ∧ GraphAPIResponse.validate (GraphAPIResponse.model_dump r) = Ok r
  ∧ (∀ input name,
       name ∈ GraphAPIResponse.field_names →
       get_field true input name = Ok None →
       ∃ e, GraphAPIResponse.validate input = Raise e).
Proof.
  split; [reflexivity|]. split; [reflexivity|].
  split; [apply graph_validate_dump|]. apply graph_validate_needs.
Qed.

Lemma graph_response_fields_witness :
  GraphAPIResponse.validate
    (GraphAPIResponse.model_dump example_response_with_str_key)
  = Ok example_response_with_str_key
  ∧ ∃ e, GraphAPIResponse.validate
           (PyDict [ field "nodes" (PyList []); field "edges" (PyList []);
                     field "layers" (PyList []); field "tags" (PyList []);
                     field "pipelines" (PyList []);
                     field "selected_pipeline" (PyStr "__default__") ])
         = Raise e.
Proof.
  destruct (graph_response_fields example_response_with_str_key)
    as (_ & _ & Hback & Hneeds).
  split; [exact Hback|].
  apply (Hneeds _ "modular_pipelines").
  - apply list_elem_of_In. simpl. tauto.
  - reflexivity.
Defined.

(** ** The default response (C1) *)

Lemma DAM_bind_call {A B} (c : dam_call) (q : result A) (k : A → DAM B)
    (tr : list dam_call) :
  (call c q ≫= k) tr
  = match q with
    | Ok a => k a (tr ++ [c])
    | Raise e => (Raise e, tr ++ [c])
    end.
Proof. unfold mbind, DAM_bind, call. by destruct q. Qed.

Ltac dam_steps :=
  repeat (rewrite DAM_bind_call;
          match goal with
          | |- context [match ?q with Ok _ => _ | Raise _ => _ end] =>
              destruct q; cbn [mbind result_bind fst snd is_ok]
          end).

Lemma get_default_response_result (m : DataAccessManager.t) :
  (run (get_default_response m)).1
  = (p ← DataAccessManager.get_default_selected_pipeline m;
     kw ← response_kwargs m (RegisteredPipeline.id p);
     GraphAPIResponse.validate kw).
Proof.
  unfold run, get_default_response, response_kwargs. cbv zeta.
  dam_steps; reflexivity.
Qed.

Lemma get_default_response_calls (m : DataAccessManager.t) p :
  DataAccessManager.get_default_selected_pipeline m = Ok p →
  (run (get_default_response m)).2 `prefix_of` calls_for (RegisteredPipeline.id p)
  ∧ (is_ok (response_kwargs m (RegisteredPipeline.id p)) = true →
     (run (get_default_response m)).2 = calls_for (RegisteredPipeline.id p)).
Proof.
  intros Hp.
  unfold run, get_default_response, response_kwargs, calls_for. cbv zeta.
  rewrite DAM_bind_call, Hp.
  dam_steps;
    (split; [|first [done | discriminate]]);
    repeat (apply prefix_cons); apply prefix_nil.
Qed.

Lemma graph_validate_kwargs (n e tg l ps mp : pyval) (sp : string)
    (r : GraphAPIResponse.t) :
  GraphAPIResponse.validate
    (PyDict [ field "nodes" n; field "edges" e; field "tags" tg;
              field "layers" l; field "pipelines" ps;
              field "modular_pipelines" mp;
              field "selected_pipeline" (PyStr sp) ]) = Ok r
  ↔ validate_list validate_NodeAPIResponse n = Ok (GraphAPIResponse.nodes r)
    ∧ validate_list GraphEdgeAPIResponse.validate e = Ok (GraphAPIResponse.edges r)
    ∧ validate_list validate_str l = Ok (GraphAPIResponse.layers r)
    ∧ validate_list NamedEntityAPIResponse.validate tg = Ok (GraphAPIResponse.tags r)
    ∧ validate_list NamedEntityAPIResponse.validate ps
      = Ok (GraphAPIResponse.pipelines r)
    ∧ validate_dict_str ModularPipelinesTreeNodeAPIResponse.validate mp
      = Ok (GraphAPIResponse.modular_pipelines r)
    ∧ GraphAPIResponse.selected_pipeline r = sp.
Proof.
  unfold GraphAPIResponse.validate, required, get_field,
    BaseAPIResponse_from_attributes, field.
  cbv zeta.
  cbn [dict_get_str String.eqb Ascii.eqb Bool.eqb mbind result_bind].
  split.
  - intros H. repeat (apply bind_Ok in H as (? & ? & H)).
    simpl in *. simplify_eq. injection H as <-. simpl. done.
  - destruct r; simpl. intros (-> & -> & -> & -> & -> & -> & ->). reflexivity.
Qed.

Ltac no_response :=
  split; [discriminate | intros Hall; decompose [and] Hall; discriminate].

(** C1. [get_default_response] uses the default pipeline id of the index
    throughout: every call to the index that takes a pipeline id is given
    that id, and a response is returned exactly when the nodes, edges,
    layers and modular-pipeline tree of that id, and the tag and
    registered-pipeline lists, are returned and validate; the response then
    holds these six and has [selected_pipeline] set to the id, after the
    seven calls of a complete run. *)
Theorem get_default_response_uses_default_pipeline
    (m : DataAccessManager.t) (p : RegisteredPipeline.t) :
  DataAccessManager.get_default_selected_pipeline m = Ok p →
  (∀ c j, c ∈ (run (get_default_response m)).2 →
          call_pipeline_id c = Some j → j = RegisteredPipeline.id p)
  ∧ (∀ r, (run (get_default_response m)).1 = Ok r ↔
       GraphAPIResponse.selected_pipeline r = RegisteredPipeline.id p
       ∧ DataAccessManager.get_nodes_for_registered_pipeline m
           (RegisteredPipeline.id p)
         ≫= validate_list validate_NodeAPIResponse
         = Ok (GraphAPIResponse.nodes r)
       ∧ DataAccessManager.get_edges_for_registered_pipeline m
           (RegisteredPipeline.id p)
         ≫= validate_list GraphEdgeAPIResponse.validate
         = Ok (GraphAPIResponse.edges r)
       ∧ DataAccessManager.get_sorted_layers_for_registered_pipeline m
           (RegisteredPipeline.id p)
         ≫= validate_list validate_str
         = Ok (GraphAPIResponse.layers r)
       ∧ DataAccessManager.create_modular_pipelines_tree_for_registered_pipeline
           m (RegisteredPipeline.id p)
         ≫= validate_dict_str ModularPipelinesTreeNodeAPIResponse.validate
         = Ok (GraphAPIResponse.modular_pipelines r)
       ∧ DataAccessManager.tags_as_list m
         ≫= validate_list NamedEntityAPIResponse.validate
         = Ok (GraphAPIResponse.tags r)
       ∧ DataAccessManager.registered_pipelines_as_list m
         ≫= validate_list NamedEntityAPIResponse.validate
         = Ok (GraphAPIResponse.pipelines r))
  ∧ (∀ r, (run (get_default_response m)).1 = Ok r →
          (run (get_default_response m)).2 = calls_for (RegisteredPipeline.id p)).
Proof.
  intros Hp.
  destruct (get_default_response_calls m p Hp) as [Hprefix Hfull].
  split; [|split].
  - intros c j Hc Hj.
    destruct Hprefix as [rest Hrest].
    assert (c ∈ calls_for (RegisteredPipeline.id p)) as Hin.
    { rewrite Hrest. apply elem_of_app. by left. }
    unfold calls_for in Hin.
    repeat (apply elem_of_cons in Hin as [->|Hin]); simpl in Hj;
      try discriminate; try (by injection Hj).
    by apply elem_of_nil in Hin.
  - intros r. rewrite get_default_response_result, Hp.
    cbn [mbind result_bind]. unfold response_kwargs.
    destruct (DataAccessManager.create_modular_pipelines_tree_for_registered_pipeline
                m _) as [mp|]; cbn [mbind result_bind]; [|no_response].
    destruct (DataAccessManager.get_nodes_for_registered_pipeline m _) as [n|];
      cbn [mbind result_bind]; [|no_response].
    destruct (DataAccessManager.get_edges_for_registered_pipeline m _) as [e|];
      cbn [mbind result_bind]; [|no_response].
    destruct (DataAccessManager.tags_as_list m) as [tg|];
      cbn [mbind result_bind]; [|no_response].
    destruct (DataAccessManager.get_sorted_layers_for_registered_pipeline m _)
      as [l|]; cbn [mbind result_bind]; [|no_response].
    destruct (DataAccessManager.registered_pipelines_as_list m) as [ps|];
      cbn [mbind result_bind]; [|no_response].
    unfold mret, result_ret. cbn [mbind result_bind].
    rewrite graph_validate_kwargs. tauto.
  - intros r Hr. apply Hfull.
    rewrite get_default_response_result, Hp in Hr. cbn [mbind result_bind] in Hr.
    by destruct (response_kwargs m (RegisteredPipeline.id p)).
Qed.

Lemma get_default_response_uses_default_pipeline_witness :
  ∃ r, (run (get_default_response example_manager)).1 = Ok r
       ∧ GraphAPIResponse.selected_pipeline r = "__default__"
       ∧ length (GraphAPIResponse.nodes r) = 2%nat
       ∧ length (GraphAPIResponse.edges r) = 1%nat
       ∧ (run (get_default_response example_manager)).2 = calls_for "__default__".
Proof.
  destruct (get_default_response_uses_default_pipeline example_manager
              (RegisteredPipeline.mk "__default__" (Some "__default__")) eq_refl)
    as (_ & Hr & Htr).
  eexists. split; [|split; [|split; [|split]]].
  - reflexivity.
  - reflexivity.
  - reflexivity.
  - reflexivity.
  - eapply Htr. reflexivity.
Defined.

Lemma response_kwargs_Raise (m : DataAccessManager.t) (i : string) (e : pyexc) :
  response_kwargs m i = Raise e →
  DataAccessManager.create_modular_pipelines_tree_for_registered_pipeline m i
  = Raise e
  ∨ DataAccessManager.get_nodes_for_registered_pipeline m i = Raise e
  ∨ DataAccessManager.get_edges_for_registered_pipeline m i = Raise e
  ∨ DataAccessManager.tags_as_list m = Raise e
  ∨ DataAccessManager.get_sorted_layers_for_registered_pipeline m i = Raise e
  ∨ DataAccessManager.registered_pipelines_as_list m = Raise e.
Proof.
  unfold response_kwargs.
  destruct (DataAccessManager.create_modular_pipelines_tree_for_registered_pipeline
              m i); cbn [mbind result_bind]; [|tauto].
  destruct (DataAccessManager.get_nodes_for_registered_pipeline m i);
    cbn [mbind result_bind]; [|tauto].
  destruct (DataAccessManager.get_edges_for_registered_pipeline m i);
    cbn [mbind result_bind]; [|tauto].
  destruct (DataAccessManager.tags_as_list m); cbn [mbind result_bind]; [|tauto].
  destruct (DataAccessManager.get_sorted_layers_for_registered_pipeline m i);
    cbn [mbind result_bind]; [|tauto].
  destruct (DataAccessManager.registered_pipelines_as_list m);
    cbn [mbind result_bind]; [|tauto].
  discriminate.
Qed.

(** What [get_default_response] raises and what it returns. It has no
    error of its own: it raises only what a call to the index raises or
    what the validation of [GraphAPIResponse] raises, and then returns no
    response. Whenever the index answers every query for the default id
    and the answers validate, it returns the complete response for that
    id. *)
Lemma get_default_response_raises_only_what_the_index_raises
    (m : DataAccessManager.t) :
  (∀ e, (run (get_default_response m)).1 = Raise e →
     DataAccessManager.get_default_selected_pipeline m = Raise e
     ∨ ∃ p, DataAccessManager.get_default_selected_pipeline m = Ok p
            ∧ (DataAccessManager.create_modular_pipelines_tree_for_registered_pipeline
                 m (RegisteredPipeline.id p) = Raise e
               ∨ DataAccessManager.get_nodes_for_registered_pipeline m
                   (RegisteredPipeline.id p) = Raise e
               ∨ DataAccessManager.get_edges_for_registered_pipeline m
                   (RegisteredPipeline.id p) = Raise e
               ∨ DataAccessManager.tags_as_list m = Raise e
               ∨ DataAccessManager.get_sorted_layers_for_registered_pipeline m
                   (RegisteredPipeline.id p) = Raise e
               ∨ DataAccessManager.registered_pipelines_as_list m = Raise e
               ∨ ∃ kw, response_kwargs m (RegisteredPipeline.id p) = Ok kw
                       ∧ GraphAPIResponse.validate kw = Raise e))
  ∧ (∀ p kw r,
       DataAccessManager.get_default_selected_pipeline m = Ok p →
       response_kwargs m (RegisteredPipeline.id p) = Ok kw →
       GraphAPIResponse.validate kw = Ok r →
       (run (get_default_response m)).1 = Ok r
       ∧ GraphAPIResponse.selected_pipeline r = RegisteredPipeline.id p).
Proof.
  split.
  - intros e. rewrite get_default_response_result.
    destruct (DataAccessManager.get_default_selected_pipeline m) as [p|e'];
      cbn [mbind result_bind]; [|intros [= ->]; by left].
    intros He. right. exists p. split; [done|].
    destruct (response_kwargs m (RegisteredPipeline.id p)) as [kw|e'] eqn:Hkw;
      cbn [mbind result_bind] in He.
    + do 6 right. eauto.
    + injection He as ->. apply response_kwargs_Raise in Hkw. tauto.
  - intros p kw r Hp Hkw Hr. rewrite get_default_response_result, Hp.
    cbn [mbind result_bind]. rewrite Hkw. cbn [mbind result_bind].
    split; [done|].
    unfold response_kwargs in Hkw.
    repeat (apply bind_Ok in Hkw as (? & ? & Hkw)).
    injection Hkw as <-. apply graph_validate_kwargs in Hr. tauto.
Qed.

Lemma get_default_response_raises_only_what_the_index_raises_witness :
  ∃ r, (run (get_default_response example_manager)).1 = Ok r
       ∧ GraphAPIResponse.selected_pipeline r = "__default__".
Proof.
  eexists.
  eapply (proj2 (get_default_response_raises_only_what_the_index_raises
                   example_manager)
            (RegisteredPipeline.mk "__default__" (Some "__default__")));
    reflexivity.
Defined.

(** That a pipeline id exists in the index is checked where an id is
    given, not in [get_default_response]: for an index that, against the
    glossary, designates a default it has not registered and returns no
    node for it, the response is returned, with no node. *)
Lemma get_default_response_of_unregistered_pipeline :
  DataAccessManager.get_default_selected_pipeline unregistered_default_manager
  = Ok (RegisteredPipeline.mk "__default__" None)
  ∧ ("__default__" ∉ registered_pipeline_ids unregistered_default_manager)
  ∧ ∃ r, (run (get_default_response unregistered_default_manager)).1 = Ok r
         ∧ GraphAPIResponse.nodes r = []
         ∧ GraphAPIResponse.selected_pipeline r = "__default__".
Proof.
  split; [reflexivity|]. split.
  - vm_compute. apply not_elem_of_nil.
  - eexists. split; [reflexivity|]. split; reflexivity.
Qed.

(** ** The response for a selected pipeline (C5) *)

Lemma assemble_response_result (m : DataAccessManager.t) (i : string) :
  (run (assemble_response m i)).1
  = (kw ← response_kwargs m i; GraphAPIResponse.validate kw).
Proof.
  unfold run, assemble_response, response_kwargs. cbv zeta.
  dam_steps; reflexivity.
Qed.

(** The assembly for an id is the assembly of the source for the default
    id. *)
Lemma get_default_response_assembles (m : DataAccessManager.t) :
  (run (get_default_response m)).1
  = (p ← DataAccessManager.get_default_selected_pipeline m;
     (run (assemble_response m (RegisteredPipeline.id p))).1).
Proof.
  rewrite get_default_response_result.
  destruct (DataAccessManager.get_default_selected_pipeline m) as [p|e];
    [|done].
  cbn [mbind result_bind]. by rewrite assemble_response_result.
Qed.

(** C5. If the selected pipeline id does not exist in the index, the
    assembly of the response fails with a not-found error, before anything
    is pulled from the index, and produces no response. A response that is
    returned, for an id or by default, is never partially populated: the
    selected id exists in the index (by default it is the one the index
    designates), the index has answered every query for that id and the
    answers have validated. When the default pipeline is registered, as
    the glossary has it, [get_default_response] is the assembly for its
    id. *)
Theorem response_for_absent_pipeline_is_not_found (m : DataAccessManager.t) :
  (∀ i, i ∉ registered_pipeline_ids m →
        run (get_selected_pipeline_response m (Some i))
        = (Raise (NotFound "pipeline not found"), []))
  ∧ (∀ selected r,
       (run (get_selected_pipeline_response m selected)).1 = Ok r →
       (∃ kw, response_kwargs m (GraphAPIResponse.selected_pipeline r) = Ok kw
              ∧ GraphAPIResponse.validate kw = Ok r)
       ∧ match selected with
         | Some i =>
             i = GraphAPIResponse.selected_pipeline r
             ∧ i ∈ registered_pipeline_ids m
         | None =>
             ∃ p, DataAccessManager.get_default_selected_pipeline m = Ok p
                  ∧ RegisteredPipeline.id p = GraphAPIResponse.selected_pipeline r
         end)
  ∧ (∀ p, DataAccessManager.get_default_selected_pipeline m = Ok p →
          RegisteredPipeline.id p ∈ registered_pipeline_ids m →
          (run (get_default_response m)).1
          = (run (get_selected_pipeline_response m
                    (Some (RegisteredPipeline.id p)))).1).
Proof.
  assert (∀ i kw r,
            response_kwargs m i = Ok kw → GraphAPIResponse.validate kw = Ok r →
            GraphAPIResponse.selected_pipeline r = i) as Hselected.
  { intros i kw r Hkw Hr. unfold response_kwargs in Hkw.
    repeat (apply bind_Ok in Hkw as (? & ? & Hkw)).
    injection Hkw as <-. apply graph_validate_kwargs in Hr. tauto. }
  split; [|split].
  - intros i Hi. unfold get_selected_pipeline_response.
    by rewrite bool_decide_eq_false_2.
  - intros [i|] r; unfold get_selected_pipeline_response.
    + destruct (bool_decide_reflect (i ∈ registered_pipeline_ids m)) as [Hi|Hi];
        [|discriminate].
      rewrite assemble_response_result.
      intros (kw & Hkw & Hr)%bind_Ok.
      rewrite (Hselected _ _ _ Hkw Hr). split; [eauto | by split].
    + rewrite get_default_response_result.
      intros (p & Hp & (kw & Hkw & Hr)%bind_Ok)%bind_Ok.
      rewrite (Hselected _ _ _ Hkw Hr). split; [eauto|]. exists p. by split.
  - intros p Hp Hin. rewrite get_default_response_assembles, Hp.
    cbn [mbind result_bind]. unfold get_selected_pipeline_response.
    by rewrite bool_decide_eq_true_2.
Qed.

Lemma response_for_absent_pipeline_is_not_found_witness :
  run (get_selected_pipeline_response example_manager (Some "data_science"))
  = (Raise (NotFound "pipeline not found"), [])
  ∧ (run (get_default_response example_manager)).1
    = (run (get_selected_pipeline_response example_manager
              (Some "__default__"))).1.
Proof.
  destruct (response_for_absent_pipeline_is_not_found example_manager)
    as (Habsent & _ & Hdefault).
  split.
  - apply Habsent. cbn. intros [H|H]%elem_of_cons; [discriminate|].
    by apply elem_of_nil in H.
  - apply (Hdefault (RegisteredPipeline.mk "__default__" (Some "__default__")));
      [reflexivity|].
    cbn. apply elem_of_cons. by left.
Defined.

(** ** Reading back what the encoder writes *)

(** *** Strings *)

Lemma parse_string_escape_byte (c : byte) (r : bytes) :
  reader.parse_string (orjson.escape_byte c ++ r)
  = '(cs, r') ← reader.parse_string r; mret (c :: cs, r').
Proof. destruct c; reflexivity. Qed.

Lemma parse_string_escape (s rest : bytes) :
  reader.parse_string (orjson.escape s ++ x22 :: rest) = Ok (s, rest).
Proof.
  induction s as [|c s IH]; [reflexivity|].
  unfold orjson.escape in *. simpl. rewrite <- app_assoc.
  rewrite parse_string_escape_byte, IH. reflexivity.
Qed.

(** *** Numbers *)

Lemma delimited_cases (rest : bytes) :
  delimited rest → rest = [] ∨ ∃ c r, rest = c :: r ∧ (c = x2c ∨ c = x0a).
Proof. destruct rest as [|c r]; [by left|]. intros H. right. eauto. Qed.

Lemma delimited_no_digit (rest : bytes) :
  delimited rest → starts_with_digit rest = false.
Proof. destruct rest as [|c r]; [done|]. by intros [-> | ->]. Qed.

Lemma parse_digits_uint_bytes (u : Decimal.uint) (rest : bytes) :
  starts_with_digit rest = false →
  reader.parse_digits (orjson.uint_bytes u ++ rest) = (u, rest).
Proof.
  intros Hrest.
  induction u; simpl; try (rewrite IHu; reflexivity).
  destruct rest as [|c r]; [done|]. simpl in *.
  destruct (reader.digit_of c); [|done].
  apply bool_decide_eq_false in Hrest. destruct Hrest. eauto.
Qed.

Lemma fraction_digit_byte (d : digit) :
  reader.fraction_digit (orjson.digit_byte d) = Some d.
Proof. by destruct d. Qed.

Lemma fraction_digit_none (c : byte) :
  reader.digit_of c = None → reader.fraction_digit c = None.
Proof. by destruct c. Qed.

Lemma parse_fraction_digits (ds : list digit) (rest : bytes) :
  starts_with_digit rest = false →
  reader.parse_fraction (map orjson.digit_byte ds ++ rest) = (ds, rest).
Proof.
  intros Hrest. induction ds as [|d ds IH].
  - destruct rest as [|c r]; [done|]. cbn [map app reader.parse_fraction].
    rewrite fraction_digit_none; [done|].
    cbn [starts_with_digit] in Hrest. apply bool_decide_eq_false in Hrest.
    destruct (reader.digit_of c); [|done]. destruct Hrest. eauto.
  - cbn [map app reader.parse_fraction].
    by rewrite fraction_digit_byte, IH.
Qed.

Lemma pos_to_uint_no_leading_zero (p : positive) (u : Decimal.uint) :
  Pos.to_uint p ≠ Decimal.D0 u.
Proof.
  intros Hp.
  pose proof (DecimalPos.Unsigned.to_of (Pos.to_uint p)) as Hn.
  rewrite DecimalPos.Unsigned.of_to in Hn. simpl in Hn.
  rewrite Hp in Hn. rewrite DecimalFacts.unorm_D0 in Hn.
  unfold Decimal.unorm in Hn.
  destruct (Decimal.nzhead u) eqn:Hu; try discriminate.
  - injection Hn as ->. by apply (DecimalPos.Unsigned.to_uint_nonzero p).
  - by apply DecimalFacts.nzhead_nonzero in Hu.
Qed.

(** The digits of a natural number: at least one, no leading zero, and
    they start with no sign. *)
Lemma to_uint_digits (n : N) :
  N.to_uint n ≠ Decimal.Nil
  ∧ reader.leading_zero (N.to_uint n) = false
  ∧ ∃ c tl, orjson.uint_bytes (N.to_uint n) = c :: tl
            ∧ starts_with_digit (c :: tl) = true.
Proof.
  destruct n as [|p]; [by repeat split; eauto|]. cbn [N.to_uint].
  pose proof (DecimalPos.Unsigned.to_uint_nonnil p) as Hnil.
  pose proof (pos_to_uint_no_leading_zero p) as Hzero.
  destruct (Pos.to_uint p) as [|u|u|u|u|u|u|u|u|u|u]; try done;
    try (repeat split; [done|eauto]).
  by destruct (Hzero u).
Qed.

Lemma parse_number_digits (negative : bool) (n : N) (rest : bytes) :
  starts_with_digit rest = false →
  reader.parse_number
    (orjson.sign_bytes negative ++ orjson.uint_bytes (N.to_uint n) ++ rest)
  = reader.number_after negative n rest.
Proof.
  intros Hrest.
  destruct (to_uint_digits n) as (Hnil & Hzero & c & tl & Hb & Hc).
  assert (reader.parse_number
            (orjson.sign_bytes negative ++ orjson.uint_bytes (N.to_uint n) ++ rest)
          = let '(u, r) :=
              reader.parse_digits (orjson.uint_bytes (N.to_uint n) ++ rest) in
            match u with
            | Decimal.Nil => Raise (JSONDecodeError "invalid number")
            | _ =>
                if reader.leading_zero u
                then Raise (JSONDecodeError "leading zero")
                else reader.number_after negative (N.of_uint u) r
            end) as ->.
  { destruct negative; [reflexivity|]. unfold reader.parse_number.
    cbn [orjson.sign_bytes app]. rewrite Hb. cbn [app].
    cbn [starts_with_digit] in Hc. apply bool_decide_eq_true in Hc.
    destruct c; try reflexivity; by destruct Hc. }
  rewrite parse_digits_uint_bytes by done.
  rewrite Hzero, DecimalN.Unsigned.of_to.
  by destruct (N.to_uint n).
Qed.

Lemma int_bytes_sign_digits (z : Z) :
  orjson.int_bytes z
  = orjson.sign_bytes (z <? 0) ++ orjson.uint_bytes (N.to_uint (Z.abs_N z)).
Proof. by destruct z. Qed.

Lemma number_after_delimited (negative : bool) (n : N) (rest : bytes) :
  delimited rest →
  reader.number_after negative n rest
  = Ok (PyInt (if negative then - Z.of_N n else Z.of_N n), rest).
Proof. intros [->|(c & r & -> & [-> | ->])]%delimited_cases; reflexivity. Qed.

Lemma parse_number_int_bytes (z : Z) (rest : bytes) :
  delimited rest →
  reader.parse_number (orjson.int_bytes z ++ rest) = Ok (PyInt z, rest).
Proof.
  intros Hrest. rewrite int_bytes_sign_digits, <- app_assoc.
  rewrite parse_number_digits by (by apply delimited_no_digit).
  rewrite number_after_delimited by done. do 3 f_equal.
  destruct z; simpl; lia.
Qed.

Lemma parse_exponent_int_bytes (e : Z) (rest : bytes) :
  starts_with_digit rest = false →
  reader.parse_exponent (orjson.int_bytes e ++ rest) = Ok (e, rest).
Proof.
  intros Hrest. rewrite int_bytes_sign_digits, <- app_assoc.
  destruct (to_uint_digits (Z.abs_N e)) as (Hnil & _ & c & tl & Hb & Hc).
  assert (reader.parse_exponent
            (orjson.sign_bytes (e <? 0)
               ++ orjson.uint_bytes (N.to_uint (Z.abs_N e)) ++ rest)
          = let '(u, r) :=
              reader.parse_digits
                (orjson.uint_bytes (N.to_uint (Z.abs_N e)) ++ rest) in
            match u with
            | Decimal.Nil => Raise (JSONDecodeError "invalid number")
            | _ => Ok (if (e <? 0) then - Z.of_uint u else Z.of_uint u, r)
            end) as ->.
  { destruct (e <? 0); [reflexivity|]. unfold reader.parse_exponent.
    cbn [orjson.sign_bytes app]. rewrite Hb. cbn [app].
    cbn [starts_with_digit] in Hc. apply bool_decide_eq_true in Hc.
    destruct c; try reflexivity; by destruct Hc. }
  rewrite parse_digits_uint_bytes by done.
  assert (Z.of_uint (N.to_uint (Z.abs_N e)) = Z.abs e) as Hz.
  { unfold Z.of_uint. change (Z.of_N (Pos.of_uint ?u)) with (Z.of_N (N.of_uint u)).
    rewrite DecimalN.Unsigned.of_to. lia. }
  rewrite Hz.
  destruct (N.to_uint (Z.abs_N e)); [done|..]; do 2 f_equal;
    destruct (Z.ltb_spec e 0); lia.
Qed.

Lemma parse_number_float_bytes (x : finite_float) (rest : bytes) :
  delimited rest →
  reader.parse_number (orjson.float_bytes x ++ rest)
  = Ok (PyFloat (Finite x), rest).
Proof.
  intros Hrest. pose proof (delimited_no_digit _ Hrest) as Hd.
  destruct x as [negative int f fs|negative int fs e];
    cbn [orjson.float_bytes]; rewrite <- !app_assoc.
  - rewrite parse_number_digits by done.
    cbn [app reader.number_after].
    change (orjson.digit_byte f :: map orjson.digit_byte fs ++ rest)
      with (map orjson.digit_byte (f :: fs) ++ rest).
    rewrite parse_fraction_digits by done.
    apply delimited_cases in Hrest as [->|(c & r & -> & [-> | ->])];
      reflexivity.
  - rewrite parse_number_digits by (by destruct fs).
    destruct fs as [|f fs].
    + cbn [app reader.number_after].
      by rewrite parse_exponent_int_bytes.
    + cbn [app reader.number_after].
      change (orjson.digit_byte f :: map orjson.digit_byte fs
                ++ x65 :: orjson.int_bytes e ++ rest)
        with (map orjson.digit_byte (f :: fs)
                ++ x65 :: orjson.int_bytes e ++ rest).
      rewrite parse_fraction_digits by done.
      by rewrite parse_exponent_int_bytes.
Qed.

(** *** The first byte of a value *)

Lemma uint_bytes_head (u : Decimal.uint) :
  u ≠ Decimal.Nil →
  ∃ c tl, orjson.uint_bytes u = c :: tl ∧ number_start c = true.
Proof. destruct u; try done; simpl; eauto. Qed.

Lemma int_bytes_head (z : Z) :
  ∃ c tl, orjson.int_bytes z = c :: tl ∧ number_start c = true.
Proof.
  unfold orjson.int_bytes. destruct z as [|p|p]; simpl.
  - eauto.
  - apply uint_bytes_head, DecimalPos.Unsigned.to_uint_nonnil.
  - eauto.
Qed.

Lemma sign_digits_head (negative : bool) (n : N) (tail : bytes) :
  ∃ c tl, orjson.sign_bytes negative ++ orjson.uint_bytes (N.to_uint n) ++ tail
          = c :: tl ∧ number_start c = true.
Proof.
  destruct negative; [cbn; eauto|]. cbn [orjson.sign_bytes app].
  destruct (to_uint_digits n) as (Hnil & _).
  destruct (uint_bytes_head _ Hnil) as (c & tl & -> & Hc). cbn [app]. eauto.
Qed.

Lemma float_bytes_head (x : finite_float) :
  ∃ c tl, orjson.float_bytes x = c :: tl ∧ number_start c = true.
Proof. destruct x; apply sign_digits_head. Qed.

Lemma write_head (pretty : bool) (d : nat) (j : json) :
  ∃ c tl, orjson.write pretty d j = c :: tl ∧ value_start c = true.
Proof.
  destruct j as [|[]|z|s|[|x xs]|[|m ms]|x]; simpl; eauto.
  - destruct (int_bytes_head z) as (c & tl & -> & Hc).
    exists c, tl. split; [done|]. by destruct c.
  - destruct pretty; eauto.
  - destruct pretty; eauto.
  - destruct (float_bytes_head x) as (c & tl & -> & Hc).
    exists c, tl. split; [done|]. by destruct c.
Qed.

Lemma write_arr_cons (d : nat) (x : json) (xs : list json) :
  orjson.write true d (JArr (x :: xs))
  = x5b :: orjson.newline (S d)
      ++ orjson.join (x2c :: orjson.newline (S d))
           (map (orjson.write true (S d)) (x :: xs))
      ++ orjson.newline d ++ [x5d].
Proof. reflexivity. Qed.

Lemma write_obj_cons (d : nat) (m : string * json) (ms : list (string * json)) :
  orjson.write true d (JObj (m :: ms))
  = x7b :: orjson.newline (S d)
      ++ orjson.join (x2c :: orjson.newline (S d))
           (map (write_member d) (m :: ms))
      ++ orjson.newline d ++ [x7d].
Proof. reflexivity. Qed.

Lemma join_cons_cons (sep p q : bytes) (ps : list bytes) :
  orjson.join sep (p :: q :: ps) = p ++ sep ++ orjson.join sep (q :: ps).
Proof. reflexivity. Qed.

Lemma write_member_app (d : nat) (m : string * json) (tail : bytes) :
  write_member d m ++ tail
  = x22 :: orjson.escape (list_byte_of_string m.1)
      ++ x22 :: x3a :: x20 :: orjson.write true (S d) m.2 ++ tail.
Proof.
  unfold write_member, orjson.quote. simpl.
  rewrite <- !app_assoc. reflexivity.
Qed.

(** *** The size of a document and the length of its text *)

Lemma list_sum_le_join {A} (w : A → bytes) (sz : A → nat) (sep : bytes)
    (xs : list A) :
  Forall (fun x => (sz x ≤ length (w x))%nat) xs →
  (1 ≤ length sep)%nat →
  (list_sum (map (fun x => S (sz x)) xs)
   ≤ S (length (orjson.join sep (map w xs))))%nat.
Proof.
  intros Hxs Hsep. induction Hxs as [|x xs Hx Hxs IH]; [simpl; lia|].
  destruct xs as [|y ys].
  - simpl. lia.
  - cbn [map]. rewrite join_cons_cons. rewrite !length_app.
    unfold list_sum in *. cbn [map fold_right] in *. lia.
Qed.

Lemma newline_length (d : nat) : length (orjson.newline d) = S (2 * d).
Proof. unfold orjson.newline. simpl. rewrite repeat_length. lia. Qed.

Lemma document_size_le_length (j : json) :
  ∀ d, (document_size j ≤ length (orjson.write true d j))%nat.
Proof.
  induction j as [|v|z|s|items IH|members IH|x] using json_nested_ind;
    intros d; try (simpl; lia).
  - destruct items as [|x xs]; [simpl; lia|].
    rewrite write_arr_cons. cbn [document_size length].
    rewrite !length_app, !newline_length. cbn [length].
    assert (list_sum (map (fun x => S (document_size x)) (x :: xs))
            ≤ S (length (orjson.join (x2c :: orjson.newline (S d))
                           (map (orjson.write true (S d)) (x :: xs)))))%nat
      as Hsum.
    { apply list_sum_le_join; [|cbn [length]; lia].
      eapply Forall_impl; [exact IH|]. intros y Hy. apply Hy. }
    lia.
  - destruct members as [|m ms]; [simpl; lia|].
    rewrite write_obj_cons. cbn [document_size length].
    rewrite !length_app, !newline_length. cbn [length].
    assert (list_sum (map (fun m : string * json => S (document_size m.2))
                        (m :: ms))
            ≤ S (length (orjson.join (x2c :: orjson.newline (S d))
                           (map (write_member d) (m :: ms)))))%nat
      as Hsum.
    { apply (list_sum_le_join (write_member d)
               (fun m : string * json => document_size m.2));
        [|cbn [length]; lia].
      eapply Forall_impl; [exact IH|]. intros y Hy. cbn beta.
      unfold write_member. rewrite !length_app. specialize (Hy (S d)). lia. }
    lia.
Qed.

(** *** Values *)

Lemma skip_ws_spaces (n : nat) (s : bytes) :
  reader.skip_ws (repeat x20 n ++ s) = reader.skip_ws s.
Proof. induction n; simpl; auto. Qed.

Lemma skip_ws_newline (d : nat) (s : bytes) :
  reader.skip_ws (orjson.newline d ++ s) = reader.skip_ws s.
Proof. unfold orjson.newline. simpl. apply skip_ws_spaces. Qed.

Lemma skip_ws_value_start (c : byte) (s : bytes) :
  value_start c = true → reader.skip_ws (c :: s) = c :: s.
Proof. by destruct c. Qed.

Section reading_with_a_hook.

Variable hook : list (string * pyval) → pydict.
Hypothesis hook_nil : hook [] = [].

Lemma parse_value_skip_ws (fuel : nat) (s s' : bytes) :
  reader.skip_ws s = reader.skip_ws s' →
  reader.parse_value hook fuel s = reader.parse_value hook fuel s'.
Proof. intros H. destruct fuel; simpl; [done|]. by rewrite H. Qed.

Lemma parse_members_skip_ws (fuel : nat) (s s' : bytes) :
  reader.skip_ws s = reader.skip_ws s' →
  reader.parse_members hook fuel s = reader.parse_members hook fuel s'.
Proof. intros H. destruct fuel; simpl; [done|]. by rewrite H. Qed.

Lemma parse_value_number (fuel : nat) (c : byte) (s : bytes) :
  number_start c = true →
  reader.parse_value hook (S fuel) (c :: s) = reader.parse_number (c :: s).
Proof. destruct c; try done; reflexivity. Qed.

Lemma parse_value_array (fuel : nat) (c : byte) (r : bytes) :
  reader.skip_ws r = c :: tl (reader.skip_ws r) → value_start c = true →
  reader.parse_value hook (S fuel) (x5b :: r)
  = '(xs, r') ← reader.parse_elements hook fuel r; mret (PyList xs, r').
Proof.
  intros Hr Hc. simpl. rewrite Hr. by destruct c.
Qed.

Lemma parse_value_object (fuel : nat) (r : bytes) :
  reader.skip_ws r = x22 :: tl (reader.skip_ws r) →
  reader.parse_value hook (S fuel) (x7b :: r)
  = '(ms, r') ← reader.parse_members hook fuel r;
    mret (PyDict (hook ms), r').
Proof. intros Hr. simpl. by rewrite Hr. Qed.

Lemma parse_elements_join (d : nat) (rest : bytes) (xs : list json) :
  Forall (fun x => ∀ d fuel rest,
            (document_size x < fuel)%nat → delimited rest →
            reader.parse_value hook fuel (orjson.write true d x ++ rest)
            = Ok (value_of_document hook x, rest)) xs →
  ∀ fuel, xs ≠ [] →
    (list_sum (map (fun x => S (document_size x)) xs) < fuel)%nat →
    reader.parse_elements hook fuel
      (orjson.newline (S d)
         ++ orjson.join (x2c :: orjson.newline (S d))
              (map (orjson.write true (S d)) xs)
         ++ orjson.newline d ++ x5d :: rest)
    = Ok (map (value_of_document hook) xs, rest).
Proof.
  induction 1 as [|x xs Hx Hxs IH]; intros fuel Hne Hfuel; [done|].
  destruct fuel as [|fuel]; [lia|]. simpl in Hfuel.
  cbn [reader.parse_elements].
  destruct xs as [|y ys].
  - simpl map. cbn [orjson.join].
    erewrite parse_value_skip_ws by apply skip_ws_newline.
    rewrite Hx; [|lia|by right]. cbn [mbind result_bind].
    rewrite skip_ws_newline. reflexivity.
  - simpl map. rewrite join_cons_cons. rewrite <- !app_assoc.
    erewrite parse_value_skip_ws by apply skip_ws_newline.
    rewrite Hx; [|simpl in *; lia|by left]. cbn [mbind result_bind].
    cbn [app reader.skip_ws reader.is_ws].
    specialize (IH fuel). simpl map in IH.
    rewrite IH; [reflexivity|done|simpl in *; lia].
Qed.

Lemma parse_members_first (fuel d : nat) (m : string * json) (tail : bytes) :
  reader.parse_members hook (S fuel)
    (orjson.newline (S d) ++ write_member d m ++ tail)
  = '(v, r3) ← reader.parse_value hook fuel
                 (orjson.write true (S d) m.2 ++ tail);
    match reader.skip_ws r3 with
    | x2c :: r4 =>
        '(ms, r5) ← reader.parse_members hook fuel r4;
        mret ((m.1, v) :: ms, r5)
    | x7d :: r4 => Ok ([(m.1, v)], r4)
    | _ => Raise (JSONDecodeError "expected , or }")
    end.
Proof.
  erewrite parse_members_skip_ws by apply skip_ws_newline.
  rewrite write_member_app. cbn [reader.parse_members reader.skip_ws reader.is_ws].
  rewrite parse_string_escape. cbn [mbind result_bind reader.skip_ws reader.is_ws].
  rewrite string_of_list_byte_of_string.
  rewrite (parse_value_skip_ws fuel
             (x20 :: orjson.write true (S d) m.2 ++ tail)
             (orjson.write true (S d) m.2 ++ tail)) by reflexivity.
  reflexivity.
Qed.

Lemma parse_members_join (d : nat) (rest : bytes) (ms : list (string * json)) :
  Forall (fun m : string * json => ∀ d fuel rest,
            (document_size m.2 < fuel)%nat → delimited rest →
            reader.parse_value hook fuel (orjson.write true d m.2 ++ rest)
            = Ok (value_of_document hook m.2, rest)) ms →
  ∀ fuel, ms ≠ [] →
    (list_sum (map (fun m : string * json => S (document_size m.2)) ms)
     < fuel)%nat →
    reader.parse_members hook fuel
      (orjson.newline (S d)
         ++ orjson.join (x2c :: orjson.newline (S d)) (map (write_member d) ms)
         ++ orjson.newline d ++ x7d :: rest)
    = Ok (map (fun m : string * json => (m.1, value_of_document hook m.2)) ms,
          rest).
Proof.
  induction 1 as [|m ms Hm Hms IH]; intros fuel Hne Hfuel; [done|].
  destruct fuel as [|fuel]; [lia|]. simpl in Hfuel.
  destruct ms as [|m' ms'].
  - simpl map. cbn [orjson.join].
    rewrite parse_members_first.
    rewrite Hm; [|lia|by right]. cbn [mbind result_bind].
    rewrite skip_ws_newline. reflexivity.
  - simpl map. rewrite join_cons_cons. rewrite <- !app_assoc.
    rewrite parse_members_first.
    rewrite Hm; [|simpl in *; lia|by left]. cbn [mbind result_bind].
    cbn [app reader.skip_ws reader.is_ws].
    specialize (IH fuel). simpl map in IH.
    rewrite IH; [reflexivity|done|simpl in *; lia].
Qed.

Lemma parse_value_write (j : json) :
  ∀ d fuel rest,
    (document_size j < fuel)%nat → delimited rest →
    reader.parse_value hook fuel (orjson.write true d j ++ rest)
    = Ok (value_of_document hook j, rest).
Proof.
  induction j as [|v|z|s|items IH|members IH|x] using json_nested_ind;
    intros d fuel rest Hfuel Hrest;
    (destruct fuel as [|fuel]; [lia|]).
  - reflexivity.
  - destruct v; reflexivity.
  - destruct (int_bytes_head z) as (c & tl & Hz & Hc).
    cbn [orjson.write]. pose proof (parse_number_int_bytes z rest Hrest) as Hn.
    rewrite Hz in *. cbn [app] in *.
    rewrite parse_value_number by done. by rewrite Hn.
  - cbn [orjson.write]. unfold orjson.quote.
    cbn [app reader.parse_value reader.skip_ws reader.is_ws].
    rewrite <- app_assoc. cbn [app].
    rewrite parse_string_escape. cbn [mbind result_bind].
    by rewrite string_of_list_byte_of_string.
  - destruct items as [|x xs]; [reflexivity|].
    rewrite write_arr_cons. cbn [app]. rewrite <- !app_assoc. cbn [app].
    destruct (write_head true (S d) x) as (c & tl & Hw & Hc).
    erewrite parse_value_array; [| |exact Hc]; cycle 1.
    { rewrite skip_ws_newline. destruct xs; cbn [map orjson.join];
        rewrite Hw; cbn [app]; by rewrite skip_ws_value_start. }
    rewrite parse_elements_join; [reflexivity|done|done|].
    cbn [document_size] in Hfuel. lia.
  - destruct members as [|m ms].
    { cbn [value_of_document map]. by rewrite hook_nil. }
    rewrite write_obj_cons. cbn [app]. rewrite <- !app_assoc. cbn [app].
    erewrite parse_value_object; cycle 1.
    { rewrite skip_ws_newline.
      destruct ms; cbn [map orjson.join]; rewrite <- ?app_assoc;
        by rewrite write_member_app. }
    rewrite parse_members_join; [reflexivity|done|done|].
    cbn [document_size] in Hfuel. lia.
  - destruct (float_bytes_head x) as (c & tl & Hx & Hc).
    cbn [orjson.write]. pose proof (parse_number_float_bytes x rest Hrest) as Hn.
    rewrite Hx in *. cbn [app] in *.
    rewrite parse_value_number by done. by rewrite Hn.
Qed.

Lemma loads_write (j : json) :
  reader.loads_with hook (orjson.write true 0 j)
  = Ok (value_of_document hook j).
Proof.
  unfold reader.loads_with.
  pose proof (parse_value_write j 0 (S (length (orjson.write true 0 j))) []) as H.
  rewrite app_nil_r in H. rewrite H; [reflexivity| |done].
  pose proof (document_size_le_length j 0). lia.
Qed.

End reading_with_a_hook.

(** ** From values to documents *)

Lemma human_readable_flags :
  orjson.enabled human_readable_option orjson.OPT_INDENT_2 = true
  ∧ orjson.enabled human_readable_option orjson.OPT_NON_STR_KEYS = true
  ∧ orjson.enabled human_readable_option orjson.OPT_SERIALIZE_NUMPY = true
  ∧ orjson.enabled human_readable_option orjson.OPT_SORT_KEYS = false
  ∧ orjson.enabled human_readable_option orjson.OPT_STRICT_INTEGER = false
  ∧ orjson.enabled human_readable_option orjson.OPT_APPEND_NEWLINE = false.
Proof. repeat split. Qed.




Lemma int_in_range_human_readable (z : Z) :
  orjson.int_in_range human_readable_option z = int64_or_uint64 z.
Proof. reflexivity. Qed.

Lemma check_str_ok (s : string) : is_ok (orjson.check_str s) = str_ok s.
Proof.
  unfold orjson.check_str, str_ok. by destruct (orjson.has_surrogate _).
Qed.

Lemma check_str_Ok (s s' : string) : orjson.check_str s = Ok s' → s' = s.
Proof.
  unfold orjson.check_str. destruct (orjson.has_surrogate _); [done|].
  by intros [= <-].
Qed.




Lemma key_str_ok (k : pyval) :
  is_ok (orjson.key_str human_readable_option k) = key_serializable k.
Proof.
  destruct k as [|v|z|s|xs|kvs|a|cls attrs|f|xs]; try done.
  - simpl. change (orjson.enabled human_readable_option orjson.OPT_NON_STR_KEYS)
      with true. cbv iota. rewrite int_in_range_human_readable.
    by destruct (int64_or_uint64 z).
  - apply check_str_ok.
  - by destruct f.
Qed.


Lemma string_of_uint_bytes (u : Decimal.uint) :
  string_of_list_byte (orjson.uint_bytes u)
  = DecimalString.NilEmpty.string_of_uint u.
Proof.
  unfold string_of_list_byte.
  induction u; simpl; [done|..]; by rewrite IHu.
Qed.

Lemma string_of_int_bytes (z : Z) :
  string_of_list_byte (orjson.int_bytes z)
  = DecimalString.NilZero.string_of_int (Z.to_int z).
Proof.
  assert (∀ p, string_of_list_byte (orjson.uint_bytes (Pos.to_uint p))
               = DecimalString.NilZero.string_of_uint (Pos.to_uint p)) as Hpos.
  { intros p. rewrite string_of_uint_bytes.
    pose proof (DecimalPos.Unsigned.to_uint_nonnil p).
    unfold DecimalString.NilZero.string_of_uint. by destruct (Pos.to_uint p). }
  unfold orjson.int_bytes. destruct z as [|p|p]; cbn [Z.to_int]; cbv iota beta.
  - reflexivity.
  - apply Hpos.
  - unfold DecimalString.NilZero.string_of_int. rewrite <- Hpos. reflexivity.
Qed.

Lemma key_str_canonical (k : pyval) (s : string) :
  orjson.key_str human_readable_option k = Ok s → s = canonical_key k.
Proof.
  destruct k as [|v|z|?|xs|kvs|a|cls attrs|f|xs]; simpl; try discriminate.
  - by intros [= <-].
  - destruct v; by intros [= <-].
  - change (orjson.enabled human_readable_option orjson.OPT_NON_STR_KEYS)
      with true. cbv iota.
    destruct (orjson.int_in_range _ z); [|discriminate].
    intros [= <-]. apply string_of_int_bytes.
  - apply check_str_Ok.
  - destruct f; by intros [= <-].
Qed.

Section documents_and_readings.

Variable hook : list (string * pyval) → pydict.

Lemma float_document_value (f : pyfloat) :
  value_of_document hook (orjson.float_document f) = float_value f.
Proof. by destruct f. Qed.

Lemma scalar_document_value (t : dtype) (x : scalar t) (j : json) :
  orjson.scalar_document t x = Ok j →
  value_of_document hook j = scalar_canonical t x.
Proof.
  destruct t; cbn; try discriminate.
  - destruct (_ && _); [|discriminate]. by intros [= <-].
  - by intros [= <-].
  - intros [= <-]. apply float_document_value.
  - intros [= <-]. apply float_document_value.
  - intros [= <-]. apply float_document_value.
Qed.

Lemma mapM_value {A} (f : A → result json) (g : A → pyval) (xs : list A)
    (js : list json) :
  Forall (fun x => ∀ j, f x = Ok j → value_of_document hook j = g x) xs →
  mapM f xs = Ok js →
  map (value_of_document hook) js = map g xs.
Proof.
  intros Hxs Hjs%mapM_Ok_Forall2.
  induction Hjs as [|x j xs' js' Hxj _ IH]; [done|].
  inversion Hxs as [|? ? Hx Hxs']; subst. simpl.
  by rewrite (Hx _ Hxj), IH.
Qed.

Lemma nested_document_value {A} (f : A → result json) (g : A → pyval)
    (a : nested A) :
  (∀ x j, f x = Ok j → value_of_document hook j = g x) →
  ∀ j, orjson.nested_document f a = Ok j →
       value_of_document hook j = nested_list g a.
Proof.
  intros Hf. induction a as [xs|rows IH] using nested_ind'; intros j; simpl;
    intros (js & Hjs & ->)%fmap_Ok; simpl; f_equal.
  - eapply mapM_value; [|exact Hjs]. apply Forall_forall. auto.
  - eapply mapM_value; [|exact Hjs]. exact IH.
Qed.

Lemma document_of_ndarray_value (a : ndarray) (j : json) :
  orjson.document_of_ndarray a = Ok j →
  value_of_document hook j = ndarray_canonical a.
Proof.
  unfold orjson.document_of_ndarray, ndarray_canonical.
  destruct (negb (c_contiguous a)); [discriminate|].
  destruct (negb _); [discriminate|].
  apply nested_document_value, scalar_document_value.
Qed.

Lemma document_value (v : pyval) :
  ∀ d j, orjson.document human_readable_option d v = Ok j →
         value_of_document hook j = reading hook v.
Proof.
  assert (∀ xs d j,
            Forall (fun v => ∀ d j,
                      orjson.document human_readable_option d v = Ok j →
                      value_of_document hook j = reading hook v) xs →
            (if (orjson.RECURSION_LIMIT <=? d)%nat
             then Raise (JSONEncodeError "Recursion limit reached")
             else JArr <$> mapM (orjson.document human_readable_option (S d)) xs)
            = Ok j →
            value_of_document hook j = PyList (map (reading hook) xs)) as Hitems.
  { intros xs d j IH.
    destruct (orjson.RECURSION_LIMIT <=? d)%nat; [discriminate|].
    intros (js & Hjs & ->)%fmap_Ok. simpl. f_equal.
    eapply mapM_value; [|exact Hjs].
    eapply Forall_impl; [exact IH|]. eauto. }
  induction v as [|v|z|s|xs IH|kvs IH|a|cls attrs|f|xs IH]
    using pyval_nested_ind; intros d j; cbn [orjson.document reading].
  - by intros [= <-].
  - by intros [= <-].
  - destruct (orjson.int_in_range _ z); [|discriminate]. by intros [= <-].
  - intros (s' & Hs & ->)%fmap_Ok. simpl. by rewrite (check_str_Ok _ _ Hs).
  - by apply Hitems.
  - destruct (orjson.RECURSION_LIMIT <=? d)%nat; [discriminate|].
    intros (ms & Hms & H)%bind_Ok.
    change (orjson.enabled human_readable_option orjson.OPT_SORT_KEYS)
      with false in H. cbv iota in H. injection H as <-.
    simpl. do 2 f_equal.
    apply mapM_Ok_Forall2 in Hms.
    revert IH. induction Hms as [|[k x] [s y] kvs' ms' Hxy _ IH']; intros IH;
      [done|].
    simpl. inversion IH as [|? ? Hx Hxs]; subst. cbn [fst snd] in *.
    apply bind_Ok in Hxy as (s' & Hs & Hxy).
    apply bind_Ok in Hxy as (y' & Hy & [= -> ->]).
    rewrite (Hx _ _ Hy), (key_str_canonical _ _ Hs). f_equal. by apply IH'.
  - change (orjson.enabled human_readable_option orjson.OPT_SERIALIZE_NUMPY)
      with true. cbv iota. apply document_of_ndarray_value.
  - discriminate.
  - intros [= <-]. apply float_document_value.
  - by apply Hitems.
Qed.

End documents_and_readings.

(** ** Values that are their own reading *)

Lemma dict_set_fresh (k : string) (v : pyval) (d : pydict) :
  dict_get_str k d = None → reader.dict_set k v d = d ++ [(PyStr k, v)].
Proof.
  induction d as [|[k' v'] d IH]; [done|]. simpl.
  destruct k'; try (intros H; by rewrite IH).
  destruct (String.eqb s k); [discriminate|].
  intros H. by rewrite IH.
Qed.

Lemma dict_get_str_snoc (k k' : string) (v : pyval) (d : pydict) :
  dict_get_str k d = None → String.eqb k' k = false →
  dict_get_str k (d ++ [(PyStr k', v)]) = None.
Proof.
  intros Hd Hk. induction d as [|[k0 v0] d IH]; simpl in *; [by rewrite Hk|].
  destruct k0; auto. destruct (String.eqb s k); [discriminate|auto].
Qed.

Lemma dict_of_members_distinct_aux (ms : list (string * pyval)) :
  ∀ acc,
    distinct (map fst ms) = true →
    Forall (fun m : string * pyval => dict_get_str m.1 acc = None) ms →
    fold_left (fun d (m : string * pyval) => reader.dict_set m.1 m.2 d) ms acc
    = acc ++ map (fun m : string * pyval => (PyStr m.1, m.2)) ms.
Proof.
  induction ms as [|[k v] ms IH]; intros acc Hd Hacc; simpl.
  - by rewrite app_nil_r.
  - simpl in Hd. apply andb_true_iff in Hd as [Hk Hd].
    inversion Hacc as [|? ? Hkacc Hrest]; subst. simpl in Hkacc.
    rewrite dict_set_fresh by done.
    rewrite IH; [by rewrite <- app_assoc|done|].
    apply negb_true_iff in Hk.
    clear IH Hacc Hd. induction Hrest as [|[k' v'] ms Hk' _ IH']; [done|].
    simpl in Hk. apply orb_false_iff in Hk as [Hkk' Hk].
    constructor; [|by apply IH'].
    simpl in *. by apply dict_get_str_snoc.
Qed.

(** Members with pairwise distinct keys make the [dict] that holds them
    in their order. *)
Lemma dict_of_members_distinct (ms : list (string * pyval)) :
  distinct (map fst ms) = true →
  reader.dict_of_members ms = reader.pairs_of_members ms.
Proof.
  intros Hd. unfold reader.dict_of_members, reader.pairs_of_members.
  rewrite dict_of_members_distinct_aux; [done|done|].
  apply Forall_forall. done.
Qed.



(** ** Indentation of what the encoder writes *)

Lemma indented_spaces (w d n : nat) (s : bytes) :
  layout.indented w d false (repeat x20 n ++ s) = layout.indented w d false s.
Proof. induction n; simpl; auto. Qed.

Lemma leading_spaces_repeat (n : nat) (c : byte) (s : bytes) :
  c ≠ x20 → layout.leading_spaces (repeat x20 n ++ c :: s) = n.
Proof. intros Hc. induction n; simpl; [by destruct c | by rewrite IHn]. Qed.

Lemma after_spaces_repeat (n : nat) (c : byte) (s : bytes) :
  c ≠ x20 → layout.after_spaces (repeat x20 n ++ c :: s) = c :: s.
Proof. intros Hc. induction n; simpl; [by destruct c | done]. Qed.

Lemma indented_newline_item (k : nat) (c : byte) (s : bytes) :
  value_start c = true →
  layout.indented 2 k false (orjson.newline k ++ c :: s)
  = layout.indented 2 k false (c :: s).
Proof.
  intros Hc. unfold orjson.newline. cbn [app layout.indented].
  assert (c ≠ x20) as Hsp by (by destruct c).
  rewrite leading_spaces_repeat, after_spaces_repeat by done.
  assert (layout.closes (c :: s) = false) as -> by (by destruct c).
  rewrite Nat.eqb_refl. cbn [andb]. apply indented_spaces.
Qed.

Lemma indented_newline_close (d : nat) (c : byte) (s : bytes) :
  c = x5d ∨ c = x7d →
  layout.indented 2 (S d) false (orjson.newline d ++ c :: s)
  = layout.indented 2 d false s.
Proof.
  intros Hc. unfold orjson.newline. cbn [app layout.indented].
  assert (c ≠ x20) as Hsp by (by destruct Hc as [-> | ->]).
  rewrite leading_spaces_repeat, after_spaces_repeat by done.
  assert (layout.closes (c :: s) = true) as -> by (by destruct Hc as [-> | ->]).
  cbn [Nat.pred]. rewrite Nat.eqb_refl. cbn [andb].
  rewrite indented_spaces. by destruct Hc as [-> | ->].
Qed.

Lemma indented_escape_byte (w d : nat) (c : byte) (r : bytes) :
  layout.indented w d true (orjson.escape_byte c ++ r)
  = layout.indented w d true r.
Proof. destruct c; reflexivity. Qed.

Lemma indented_escape (w d : nat) (cs : bytes) (s : bytes) :
  layout.indented w d true (orjson.escape cs ++ x22 :: s)
  = layout.indented w d false s.
Proof.
  induction cs as [|c cs IH]; [reflexivity|].
  unfold orjson.escape in *. cbn [flat_map]. rewrite <- app_assoc.
  by rewrite indented_escape_byte.
Qed.

Lemma indented_quote (w d : nat) (k : string) (s : bytes) :
  layout.indented w d false (orjson.quote k ++ s) = layout.indented w d false s.
Proof.
  unfold orjson.quote. cbn [app layout.indented].
  rewrite <- app_assoc. apply indented_escape.
Qed.

(** The bytes of a number change nothing to the layout. *)
Lemma indented_number_bytes (w d : nat) (t s : bytes) :
  forallb number_byte t = true →
  layout.indented w d false (t ++ s) = layout.indented w d false s.
Proof.
  induction t as [|c t IH]; [done|]. cbn [forallb].
  intros [Hc Ht]%andb_true_iff. cbn [app]. rewrite <- (IH Ht).
  by destruct c.
Qed.

Lemma number_bytes_uint (u : Decimal.uint) :
  forallb number_byte (orjson.uint_bytes u) = true.
Proof. induction u; simpl; by rewrite ?IHu. Qed.

Lemma number_bytes_int (z : Z) :
  forallb number_byte (orjson.int_bytes z) = true.
Proof.
  unfold orjson.int_bytes. destruct (Z.to_int z); simpl;
    by rewrite number_bytes_uint.
Qed.

Lemma number_bytes_digits (ds : list digit) :
  forallb number_byte (map orjson.digit_byte ds) = true.
Proof.
  induction ds as [|d ds IH]; [done|]. cbn [map forallb]. rewrite IH.
  by destruct d.
Qed.

Lemma number_bytes_float (x : finite_float) :
  forallb number_byte (orjson.float_bytes x) = true.
Proof.
  assert (∀ negative, forallb number_byte (orjson.sign_bytes negative) = true)
    as Hsign by (by intros []).
  destruct x as [negative int f fs|negative int fs e];
    cbn [orjson.float_bytes]; rewrite !forallb_app; cbn [forallb];
    rewrite Hsign, number_bytes_uint, ?number_bytes_int.
  - change (orjson.digit_byte f :: map orjson.digit_byte fs)
      with (map orjson.digit_byte (f :: fs)).
    by rewrite number_bytes_digits.
  - destruct fs; cbn [forallb]; by rewrite ?number_bytes_digits.
Qed.

Lemma indented_join (d : nat) (close : byte) (rest : bytes) {A}
    (w : A → bytes) (xs : list A) :
  close = x5d ∨ close = x7d →
  Forall (fun x => (∃ c tl, w x = c :: tl ∧ value_start c = true)
                   ∧ ∀ r, layout.indented 2 (S d) false (w x ++ r)
                          = layout.indented 2 (S d) false r) xs →
  xs ≠ [] →
  layout.indented 2 (S d) false
    (orjson.newline (S d)
       ++ orjson.join (x2c :: orjson.newline (S d)) (map w xs)
       ++ orjson.newline d ++ close :: rest)
  = layout.indented 2 d false rest.
Proof.
  intros Hclose. induction 1 as [|x xs [(c & tl & Hw & Hc) Hx] Hxs IH];
    intros Hne; [done|].
  destruct xs as [|y ys].
  - cbn [map orjson.join]. rewrite Hw. cbn [app].
    rewrite indented_newline_item by done.
    change (c :: tl ++ ?r) with ((c :: tl) ++ r). rewrite <- Hw, Hx.
    by apply indented_newline_close.
  - cbn [map]. rewrite join_cons_cons, <- !app_assoc. rewrite Hw. cbn [app].
    rewrite indented_newline_item by done.
    change (c :: tl ++ ?r) with ((c :: tl) ++ r). rewrite <- Hw, Hx.
    cbn [app layout.indented]. unfold orjson.newline at 1.
    cbn [app layout.breaks andb]. by apply IH.
Qed.

Lemma indented_write (j : json) :
  ∀ d rest,
    layout.indented 2 d false (orjson.write true d j ++ rest)
    = layout.indented 2 d false rest.
Proof.
  induction j as [|v|z|s|items IH|members IH|x] using json_nested_ind;
    intros d rest.
  - reflexivity.
  - destruct v; reflexivity.
  - apply indented_number_bytes, number_bytes_int.
  - apply indented_quote.
  - destruct items as [|x xs]; [reflexivity|].
    rewrite write_arr_cons. cbn [app layout.indented].
    unfold orjson.newline at 1. cbn [app layout.breaks orb andb].
    rewrite <- !app_assoc. cbn [app].
    apply (indented_join d x5d rest (orjson.write true (S d))); [by left| |done].
    eapply Forall_impl; [exact IH|]. intros y Hy. split; [apply write_head|].
    intros r. apply Hy.
  - destruct members as [|m ms]; [reflexivity|].
    rewrite write_obj_cons. cbn [app layout.indented].
    unfold orjson.newline at 1. cbn [app layout.breaks orb andb].
    rewrite <- !app_assoc. cbn [app].
    apply (indented_join d x7d rest (write_member d)); [by right| |done].
    eapply Forall_impl; [exact IH|]. intros y Hy. split.
    + unfold write_member, orjson.quote. cbn [app]. eauto.
    + intros r. unfold write_member. rewrite <- !app_assoc.
      rewrite indented_quote. cbn [app layout.indented]. apply Hy.
  - apply indented_number_bytes, number_bytes_float.
Qed.

(** ** The encoder *)

Import EnhancedORJSONResponse.

Lemma encode_to_human_readable_document (content : pyval) :
  encode_to_human_readable content
  = orjson.write true 0 <$> orjson.document human_readable_option 0 content.
Proof.
  unfold encode_to_human_readable, orjson.dumps.
  fold human_readable_option.
  destruct (orjson.document human_readable_option 0 content) as [j|e];
    [|reflexivity].
  cbn [mbind result_bind fmap result_fmap mret result_ret].
  change (orjson.enabled human_readable_option orjson.OPT_INDENT_2) with true.
  change (orjson.enabled human_readable_option orjson.OPT_APPEND_NEWLINE)
    with false.
  cbv iota. by rewrite app_nil_r.
Qed.


Lemma encode_to_human_readable_Ok (content : pyval) (out : bytes) :
  encode_to_human_readable content = Ok out →
  layout.indented 2 0 false out = true
  ∧ reader.loads out = Ok (canonical content)
  ∧ reader.loads_pairs out = Ok (in_order content).
Proof.
  rewrite encode_to_human_readable_document.
  intros (j & Hj & ->)%fmap_Ok. split; [|split].
  - pose proof (indented_write j 0 []) as H. by rewrite app_nil_r in H.
  - unfold reader.loads. rewrite loads_write by done. f_equal.
    by eapply document_value.
  - unfold reader.loads_pairs. rewrite loads_write by done. f_equal.
    by eapply document_value.
Qed.

Lemma is_ok_true {A} (m : result A) : is_ok m = true → ∃ a, m = Ok a.
Proof. destruct m; [eauto|done]. Qed.

(** ** The encoder (C2, C3, C4) *)




(** Nor is an array that is not C-contiguous, such as a transpose. *)
Lemma encode_to_human_readable_rejects_transposed_matrix :
  encode_to_human_readable example_transposed_matrix
  = Raise (JSONEncodeError
             "numpy array is not C contiguous; use ndarray.tolist() in default").
Proof. reflexivity. Qed.

Lemma document_dict_members (kvs : pydict) (j : json) :
  orjson.document human_readable_option 0 (PyDict kvs) = Ok j →
  ∃ ms, j = JObj ms
        ∧ Forall2 (fun (kv : pyval * pyval) (m : string * json) =>
                     m.1 = canonical_key kv.1
                     ∧ orjson.document human_readable_option 1 kv.2 = Ok m.2)
            kvs ms.
Proof.
  cbn [orjson.document]. cbn [Nat.leb orjson.RECURSION_LIMIT].
  intros (ms & Hms & H)%bind_Ok.
  change (orjson.enabled human_readable_option orjson.OPT_SORT_KEYS)
    with false in H. cbv iota in H. injection H as <-.
  exists ms. split; [done|].
  apply mapM_Ok_Forall2 in Hms.
  eapply Forall2_impl; [exact Hms|]. intros [k x] [s y] Hxy. cbn [fst snd] in *.
  apply bind_Ok in Hxy as (s' & Hs & Hxy).
  apply bind_Ok in Hxy as (y' & Hy & [= -> ->]).
  split; [by apply key_str_canonical | done].
Qed.

Lemma map_injective_on {A B} (f : A → B) (l l' : list A) :
  Forall (fun a => ∀ a', f a = f a' → a = a') l →
  map f l = map f l' → l = l'.
Proof.
  intros Hl. revert l'. induction Hl as [|a l Ha _ IH]; intros [|a' l'];
    simpl; try done.
  intros [= Haa' Hll']. f_equal; auto.
Qed.

(** A document is determined by its value with the members in order. *)
Lemma value_of_document_pairs_inj (j : json) :
  ∀ j', value_of_document reader.pairs_of_members j
        = value_of_document reader.pairs_of_members j' → j = j'.
Proof.
  induction j as [|v|z|s|items IH|members IH|x] using json_nested_ind;
    intros [|v'|z'|s'|items'|members'|x'];
    cbn [value_of_document]; try discriminate; try (by intros [= ->]);
    try done.
  - intros [= H]. f_equal. by eapply map_injective_on.
  - unfold reader.pairs_of_members. rewrite !map_map. cbn [fst snd].
    intros [= H]. f_equal. eapply map_injective_on; [|exact H].
    eapply Forall_impl; [exact IH|]. intros [k y] Hy [k' y']. cbn [fst snd].
    intros [= -> Hyy']. f_equal. by apply Hy.
Qed.

(** C3. Encoding is determined by the logical value: equal inputs give
    equal results, and two values the encoder accepts are written as the
    same bytes exactly when they have the same JSON value with the same
    order of members (the same value, or the same up to the conversion of
    keys, tuples and arrays). The members of every mapping, at every
    depth, are written in the order of the input mapping and are not
    sorted ([OPT_SORT_KEYS] is not set): the bytes read back, member for
    member, as the value with each mapping in its input order. *)
Theorem encode_to_human_readable_deterministic_in_input_order :
  (∀ x y : pyval, x = y → encode_to_human_readable x = encode_to_human_readable y)
  ∧ (∀ (x y : pyval) (out out' : bytes),
       encode_to_human_readable x = Ok out →
       encode_to_human_readable y = Ok out' →
       (in_order x = in_order y ↔ out = out'))
  ∧ orjson.enabled human_readable_option orjson.OPT_SORT_KEYS = false
  ∧ (∀ (x : pyval) (out : bytes),
       encode_to_human_readable x = Ok out →
       reader.loads_pairs out = Ok (in_order x)).
Proof.
  split; [by intros x y ->|]. split; [|split; [reflexivity|]].
  - intros x y out out' Hx Hy. split.
    + rewrite encode_to_human_readable_document in Hx, Hy.
      apply fmap_Ok in Hx as (jx & Hjx & ->).
      apply fmap_Ok in Hy as (jy & Hjy & ->).
      intros Hxy. f_equal. apply value_of_document_pairs_inj.
      rewrite (document_value reader.pairs_of_members _ _ _ Hjx).
      rewrite (document_value reader.pairs_of_members _ _ _ Hjy).
      exact Hxy.
    + intros <-.
      apply encode_to_human_readable_Ok in Hx as (_ & _ & Hx).
      apply encode_to_human_readable_Ok in Hy as (_ & _ & Hy).
      rewrite Hx in Hy. by injection Hy.
  - intros x out Hx. by apply encode_to_human_readable_Ok in Hx as (_ & _ & Hx).
Qed.

Lemma encode_to_human_readable_deterministic_in_input_order_witness :
  ∃ out,
    encode_to_human_readable example_unsorted_mapping = Ok out
    ∧ reader.loads_pairs out = Ok example_unsorted_mapping_read.
Proof.
  destruct encode_to_human_readable_deterministic_in_input_order
    as (_ & _ & _ & Horder).
  destruct (is_ok_true (encode_to_human_readable example_unsorted_mapping)
              eq_refl) as [out Hout].
  exists out. split; [exact Hout|]. exact (Horder _ out Hout).
Defined.

(** ** Round trip (C4) *)




(** So is a key that is no string written as a string: a parameter keyed
    by the integer 1 reads back under the key "1". *)
Lemma graph_response_with_int_key_reads_back_with_str_key :
  ∃ out,
    encode_to_human_readable
      (GraphAPIResponse.model_dump example_response_with_int_key) = Ok out
    ∧ reader.loads out
      = Ok (GraphAPIResponse.model_dump example_response_with_str_key)
    ∧ reader.loads out ≫= GraphAPIResponse.validate
      = Ok example_response_with_str_key
    ∧ example_response_with_str_key ≠ example_response_with_int_key.
Proof.
  eexists. split; [reflexivity|]. split; [vm_compute; reflexivity|].
  split; [vm_compute; reflexivity | discriminate].
Qed.
(** * Further properties *)

(** ** Dumps and validation of the other classes *)

Lemma task_metadata_validate_dump (r : TaskNodeMetadataAPIResponse.t) :
  TaskNodeMetadataAPIResponse.validate (TaskNodeMetadataAPIResponse.model_dump r)
  = Ok r.
Proof.
  destruct r.
  unfold TaskNodeMetadataAPIResponse.validate,
    TaskNodeMetadataAPIResponse.model_dump.
  cbv zeta. cbn [TaskNodeMetadataAPIResponse.code
    TaskNodeMetadataAPIResponse.filepath TaskNodeMetadataAPIResponse.parameters
    TaskNodeMetadataAPIResponse.inputs TaskNodeMetadataAPIResponse.outputs
    TaskNodeMetadataAPIResponse.run_command].
  read_back. reflexivity.
Qed.

Lemma data_metadata_validate_dump (r : DataNodeMetadataAPIResponse.t) :
  DataNodeMetadataAPIResponse.validate (DataNodeMetadataAPIResponse.model_dump r)
  = Ok r.
Proof.
  destruct r.
  unfold DataNodeMetadataAPIResponse.validate,
    DataNodeMetadataAPIResponse.model_dump.
  cbv zeta. cbn [DataNodeMetadataAPIResponse.filepath
    DataNodeMetadataAPIResponse.type DataNodeMetadataAPIResponse.plot
    DataNodeMetadataAPIResponse.image DataNodeMetadataAPIResponse.tracking_data
    DataNodeMetadataAPIResponse.run_command DataNodeMetadataAPIResponse.preview
    DataNodeMetadataAPIResponse.stats].
  read_back. reflexivity.
Qed.

Lemma transcoded_metadata_validate_dump
    (r : TranscodedDataNodeMetadataAPIReponse.t) :
  TranscodedDataNodeMetadataAPIReponse.validate
    (TranscodedDataNodeMetadataAPIReponse.model_dump r) = Ok r.
Proof.
  destruct r.
  unfold TranscodedDataNodeMetadataAPIReponse.validate,
    TranscodedDataNodeMetadataAPIReponse.model_dump.
  cbv zeta. cbn [TranscodedDataNodeMetadataAPIReponse.filepath
    TranscodedDataNodeMetadataAPIReponse.original_type
    TranscodedDataNodeMetadataAPIReponse.transcoded_types
    TranscodedDataNodeMetadataAPIReponse.run_command
    TranscodedDataNodeMetadataAPIReponse.stats].
  read_back. reflexivity.
Qed.

Lemma parameters_metadata_validate_dump
    (r : ParametersNodeMetadataAPIResponse.t) :
  ParametersNodeMetadataAPIResponse.validate
    (ParametersNodeMetadataAPIResponse.model_dump r) = Ok r.
Proof.
  destruct r.
  unfold ParametersNodeMetadataAPIResponse.validate,
    ParametersNodeMetadataAPIResponse.model_dump.
  cbn [ParametersNodeMetadataAPIResponse.parameters].
  read_back. reflexivity.
Qed.

Lemma data_metadata_needs_type (input : pyval) :
  get_field true input "type" = Ok None →
  ∃ e, DataNodeMetadataAPIResponse.validate input = Raise e.
Proof.
  intros Hty. unfold DataNodeMetadataAPIResponse.validate,
    BaseAPIResponse_from_attributes. cbv zeta.
  destruct (defaulted _ _ _ input "filepath") as [f|e]; simpl; [|eauto].
  rewrite (required_missing _ _ _ _ Hty). simpl. eauto.
Qed.

Lemma transcoded_metadata_needs_filepath (input : pyval) :
  absent input "filepath" →
  ∃ e, TranscodedDataNodeMetadataAPIReponse.validate input = Raise e.
Proof.
  intros Hf. unfold TranscodedDataNodeMetadataAPIReponse.validate,
    BaseAPIResponse_from_attributes, required. cbv zeta.
  destruct Hf as [-> | ->]; simpl; eauto.
Qed.

Lemma transcoded_metadata_needs_original_type (input : pyval) :
  get_field true input "original_type" = Ok None →
  ∃ e, TranscodedDataNodeMetadataAPIReponse.validate input = Raise e.
Proof.
  intros Ho. unfold TranscodedDataNodeMetadataAPIReponse.validate,
    BaseAPIResponse_from_attributes. cbv zeta.
  destruct (required _ _ input "filepath") as [f|e]; simpl; [|eauto].
  rewrite (required_missing _ _ _ _ Ho). simpl. eauto.
Qed.

(** X1. Validating the dump of a node's metadata gives the metadata back,
    in the variant it was dumped from: the order of the union never takes
    the dump of one variant for another. Hence metadata with the same dump
    are the same. *)
Theorem node_metadata_dump_round_trip :
  (∀ m, validate_NodeMetadataAPIResponse (dump_NodeMetadataAPIResponse m) = Ok m)
  ∧ (∀ m m', dump_NodeMetadataAPIResponse m = dump_NodeMetadataAPIResponse m' →
             m = m').
Proof.
  assert (∀ m, validate_NodeMetadataAPIResponse (dump_NodeMetadataAPIResponse m)
               = Ok m) as Hback.
  { intros [r|r|r|r]; unfold validate_NodeMetadataAPIResponse;
      cbn [dump_NodeMetadataAPIResponse].
    - apply union_Ok_l. by rewrite task_metadata_validate_dump.
    - rewrite union_fails_l
        by (apply task_node_metadata_needs_inputs_outputs; left; by destruct r).
      apply union_Ok_l. by rewrite data_metadata_validate_dump.
    - rewrite union_fails_l
        by (apply task_node_metadata_needs_inputs_outputs; left; by destruct r).
      rewrite union_fails_l by (apply data_metadata_needs_type; by destruct r).
      apply union_Ok_l. by rewrite transcoded_metadata_validate_dump.
    - rewrite union_fails_l
        by (apply task_node_metadata_needs_inputs_outputs; left; by destruct r).
      rewrite union_fails_l by (apply data_metadata_needs_type; by destruct r).
      rewrite union_fails_l
        by (apply transcoded_metadata_needs_filepath; left; by destruct r).
      by rewrite parameters_metadata_validate_dump. }
  split; [exact Hback|].
  intros m m' Heq. pose proof (Hback m) as Hm. rewrite Heq, Hback in Hm.
  by injection Hm.
Qed.

Lemma validate_dump_injective {A} (validate : pyval → result A)
    (dump : A → pyval) :
  (∀ r, validate (dump r) = Ok r) → ∀ r r', dump r = dump r' → r = r'.
Proof.
  intros Hback r r' Heq. pose proof (Hback r) as Hr.
  rewrite Heq, Hback in Hr. by injection Hr.
Qed.

(** X2. Validating the dump of a flat node, an edge, a named entity, a
    child of a modular pipeline or a tree node gives the record back (a
    flat node in its own variant), so records with the same dump are the
    same. *)
Theorem component_dump_round_trip :
  ((∀ n, validate_NodeAPIResponse (dump_NodeAPIResponse n) = Ok n)
   ∧ (∀ r, GraphEdgeAPIResponse.validate (GraphEdgeAPIResponse.model_dump r)
           = Ok r)
   ∧ (∀ r, NamedEntityAPIResponse.validate (NamedEntityAPIResponse.model_dump r)
           = Ok r)
   ∧ (∀ r, ModularPipelineChildAPIResponse.validate
             (ModularPipelineChildAPIResponse.model_dump r) = Ok r)
   ∧ (∀ r, ModularPipelinesTreeNodeAPIResponse.validate
             (ModularPipelinesTreeNodeAPIResponse.model_dump r) = Ok r))
  ∧ ((∀ n n', dump_NodeAPIResponse n = dump_NodeAPIResponse n' → n = n')
     ∧ (∀ r r', GraphEdgeAPIResponse.model_dump r
                = GraphEdgeAPIResponse.model_dump r' → r = r')
     ∧ (∀ r r', NamedEntityAPIResponse.model_dump r
                = NamedEntityAPIResponse.model_dump r' → r = r')
     ∧ (∀ r r', ModularPipelinesTreeNodeAPIResponse.model_dump r
                = ModularPipelinesTreeNodeAPIResponse.model_dump r' → r = r')).
Proof.
  split.
  - repeat split.
    + apply node_validate_dump.
    + apply edge_validate_dump.
    + apply named_entity_validate_dump.
    + apply child_validate_dump.
    + apply tree_node_validate_dump.
  - repeat split.
    + apply (validate_dump_injective _ _ node_validate_dump).
    + apply (validate_dump_injective _ _ edge_validate_dump).
    + apply (validate_dump_injective _ _ named_entity_validate_dump).
    + apply (validate_dump_injective _ _ tree_node_validate_dump).
Qed.

(** X3. The variant of a flat node and the [parameters] mapping of the
    node object. A validated node is a task node only if the object has a
    [parameters] mapping, which the task node then holds; and an object
    that has one but gives no [layer], [dataset_type] or [stats] validates
    as a task node and nothing else, whatever its [type]. (The second half
    holds whether the union takes the first member that validates or, as
    pydantic does from version 2.8, the one with the most fields set.) *)
Theorem flat_node_variant_decided_by_parameters
    (input : pyval) (n : NodeAPIResponse) :
  validate_NodeAPIResponse input = Ok n →
  (∀ t, n = TaskNode t →
        get_field true input "parameters"
        = Ok (Some (PyDict (TaskNodeAPIResponse.parameters t))))
  ∧ ((∃ t, n = TaskNode t) →
     ∃ p, get_field true input "parameters" = Ok (Some (PyDict p)))
  ∧ (get_field true input "layer" = Ok None →
     get_field true input "dataset_type" = Ok None →
     get_field true input "stats" = Ok None →
     (∃ p, get_field true input "parameters" = Ok (Some (PyDict p))) →
     ∃ t, n = TaskNode t).
Proof.
  intros Hv.
  assert (∀ t, TaskNodeAPIResponse.validate input = Ok t →
               get_field true input "parameters"
               = Ok (Some (PyDict (TaskNodeAPIResponse.parameters t)))) as Htask.
  { intros t Ht. unfold TaskNodeAPIResponse.validate in Ht.
    apply bind_Ok in Ht as (base & _ & Ht).
    apply bind_Ok in Ht as (p & Hp & [= <-]).
    apply required_Ok in Hp as (v & Hv' & Hd). simpl.
    destruct v; try discriminate. by injection Hd as <-. }
  unfold validate_NodeAPIResponse, union in Hv.
  destruct (TaskNodeAPIResponse.validate input) as [t|e] eqn:Ht;
    cbn [fmap result_fmap] in Hv.
  - injection Hv as <-. split; [|split].
    + intros t' [= <-]. by apply Htask.
    + intros _. eauto.
    + intros _ _ _ _. eauto.
  - apply fmap_Ok in Hv as (d & Hd & ->).
    split; [discriminate|]. split; [by intros [t [=]]|].
    intros _ _ _ [p Hp]. exfalso.
    unfold DataNodeAPIResponse.validate in Hd.
    apply bind_Ok in Hd as (base & Hb & _).
    unfold TaskNodeAPIResponse.validate, BaseAPIResponse_from_attributes,
      required in Ht.
    rewrite Hb, Hp in Ht. discriminate.
Qed.

Lemma flat_node_variant_decided_by_parameters_witness :
  (∃ t, validate_NodeAPIResponse example_data_node_with_parameters
        = Ok (TaskNode t))
  ∧ ¬ (∃ t, validate_NodeAPIResponse example_task_node_without_parameters
            = Ok (TaskNode t)).
Proof.
  split.
  - destruct (is_ok_true
                (validate_NodeAPIResponse example_data_node_with_parameters)
                eq_refl) as [n Hn].
    destruct (flat_node_variant_decided_by_parameters _ _ Hn) as (_ & _ & H).
    destruct H as [t ->]; [reflexivity..| |by exists t].
    by eexists.
  - intros [t Ht].
    destruct (flat_node_variant_decided_by_parameters _ _ Ht) as (_ & H & _).
    destruct H as [p Hp]; [eauto|]. discriminate.
Defined.

(** ** The default response: what is kept, where it stops, what it raises *)

Lemma Forall2_Ok_is_ok {A B} (f : A → result B) (l : list A) (k : list B) x :
  Forall2 (fun x y => f x = Ok y) l k → x ∈ l → is_ok (f x) = true.
Proof.
  induction 1 as [|a y l k Hay _ IH]; intros Hin.
  - by apply elem_of_nil in Hin.
  - apply elem_of_cons in Hin as [-> | Hin]; [by rewrite Hay | auto].
Qed.

Lemma get_default_response_Ok (m : DataAccessManager.t) r :
  (run (get_default_response m)).1 = Ok r →
  ∃ p mp n e tg l ps,
    DataAccessManager.get_default_selected_pipeline m = Ok p
    ∧ DataAccessManager.create_modular_pipelines_tree_for_registered_pipeline m
        (RegisteredPipeline.id p) = Ok mp
    ∧ DataAccessManager.get_nodes_for_registered_pipeline m
        (RegisteredPipeline.id p) = Ok n
    ∧ DataAccessManager.get_edges_for_registered_pipeline m
        (RegisteredPipeline.id p) = Ok e
    ∧ DataAccessManager.tags_as_list m = Ok tg
    ∧ DataAccessManager.get_sorted_layers_for_registered_pipeline m
        (RegisteredPipeline.id p) = Ok l
    ∧ DataAccessManager.registered_pipelines_as_list m = Ok ps
    ∧ GraphAPIResponse.validate
        (PyDict [ field "nodes" n; field "edges" e; field "tags" tg;
                  field "layers" l; field "pipelines" ps;
                  field "modular_pipelines" mp;
                  field "selected_pipeline" (PyStr (RegisteredPipeline.id p)) ])
      = Ok r.
Proof.
  rewrite get_default_response_result.
  intros (p & Hp & H)%bind_Ok. apply bind_Ok in H as (kw & Hkw & Hr).
  unfold response_kwargs in Hkw.
  apply bind_Ok in Hkw as (mp & Hmp & Hkw).
  apply bind_Ok in Hkw as (n & Hn & Hkw).
  apply bind_Ok in Hkw as (e & He & Hkw).
  apply bind_Ok in Hkw as (tg & Htg & Hkw).
  apply bind_Ok in Hkw as (l & Hl & Hkw).
  apply bind_Ok in Hkw as (ps & Hps & [= <-]).
  exists p, mp, n, e, tg, l, ps. repeat (split; [done|]). done.
Qed.

(** X4. The default response keeps every node and edge the index returns,
    in order: when a response is returned, its nodes (edges) are, one for
    one and in the same order, the validated node (edge) objects of the
    index. Nothing is dropped: if one node or edge object fails to
    validate, no response is returned at all. *)
Theorem default_response_keeps_every_node_and_edge
    (m : DataAccessManager.t) (p : RegisteredPipeline.t)
    (node_objects edge_objects : list pyval) :
  DataAccessManager.get_default_selected_pipeline m = Ok p →
  DataAccessManager.get_nodes_for_registered_pipeline m (RegisteredPipeline.id p)
  = Ok (PyList node_objects) →
  DataAccessManager.get_edges_for_registered_pipeline m (RegisteredPipeline.id p)
  = Ok (PyList edge_objects) →
  (∀ r, (run (get_default_response m)).1 = Ok r →
        Forall2 (fun x n => validate_NodeAPIResponse x = Ok n)
          node_objects (GraphAPIResponse.nodes r)
        ∧ Forall2 (fun x e => GraphEdgeAPIResponse.validate x = Ok e)
            edge_objects (GraphAPIResponse.edges r)
        ∧ length (GraphAPIResponse.nodes r) = length node_objects
        ∧ length (GraphAPIResponse.edges r) = length edge_objects)
  ∧ ((∃ x, x ∈ node_objects ∧ is_ok (validate_NodeAPIResponse x) = false)
     ∨ (∃ x, x ∈ edge_objects ∧ is_ok (GraphEdgeAPIResponse.validate x) = false) →
     ∃ e, (run (get_default_response m)).1 = Raise e).
Proof.
  intros Hp Hn He.
  assert (∀ r, (run (get_default_response m)).1 = Ok r →
               Forall2 (fun x n => validate_NodeAPIResponse x = Ok n)
                 node_objects (GraphAPIResponse.nodes r)
               ∧ Forall2 (fun x e => GraphEdgeAPIResponse.validate x = Ok e)
                   edge_objects (GraphAPIResponse.edges r)) as Hkeep.
  { intros r Hr.
    apply get_default_response_Ok in Hr
      as (p' & mp & n & e & tg & l & ps & Hp' & _ & Hn' & He' & _ & _ & _ & Hr).
    rewrite Hp in Hp'. injection Hp' as <-.
    rewrite Hn in Hn'. injection Hn' as <-.
    rewrite He in He'. injection He' as <-.
    apply graph_validate_kwargs in Hr as (Hns & Hes & _).
    split; by apply mapM_Ok_Forall2. }
  split.
  - intros r Hr. destruct (Hkeep r Hr) as [Hns Hes].
    repeat split; [done|done|..]; symmetry; by eapply Forall2_length.
  - intros Hbad.
    destruct ((run (get_default_response m)).1) as [r|e] eqn:Hr; [|eauto].
    exfalso. destruct (Hkeep r eq_refl) as [Hns Hes].
    destruct Hbad as [(x & Hx & Hbad) | (x & Hx & Hbad)].
    + rewrite (Forall2_Ok_is_ok _ _ _ _ Hns Hx) in Hbad. discriminate.
    + rewrite (Forall2_Ok_is_ok _ _ _ _ Hes Hx) in Hbad. discriminate.
Qed.

Lemma default_response_keeps_every_node_and_edge_witness :
  (∃ r, (run (get_default_response example_manager)).1 = Ok r
        ∧ length (GraphAPIResponse.nodes r) = 2%nat)
  ∧ ∃ e, (run (get_default_response example_manager_with_invalid_node)).1
         = Raise e.
Proof.
  split.
  - destruct (default_response_keeps_every_node_and_edge example_manager _ _ _
                eq_refl eq_refl eq_refl) as [Hkeep _].
    eexists. split; [reflexivity|].
    by destruct (Hkeep _ eq_refl) as (_ & _ & -> & _).
  - destruct (default_response_keeps_every_node_and_edge
                example_manager_with_invalid_node _ _ _
                eq_refl eq_refl eq_refl) as [_ Hdrop].
    apply Hdrop. left. exists (PyStr "B"). split; [|reflexivity].
    apply list_elem_of_In. simpl. tauto.
Defined.

Ltac dam_cases :=
  repeat (rewrite DAM_bind_call;
          match goal with
          | |- context [match ?q with Ok _ => _ | Raise _ => _ end] =>
              let H := fresh "Hq" in
              destruct q eqn:H; cbn [mbind result_bind fst snd is_ok]
          end).

Ltac answered :=
  unfold answer;
  repeat match goal with
         | H : ?q = _ |- context [?q] => rewrite H
         end;
  cbn [mbind result_bind mret result_ret is_ok].

(** X5. [get_default_response] stops at the first call to the index that
    raises: every call made before the last one returned, the exception of
    the last call, if it raised, is the exception of the function, and the
    later calls are not made; when the last call made returned, all seven
    calls have been made. *)
Theorem default_response_stops_at_first_failure (m : DataAccessManager.t) :
  (run (get_default_response m)).2 ≠ []
  ∧ Forall (fun c => is_ok (answer m c) = true)
      (removelast (run (get_default_response m)).2)
  ∧ (∀ e, answer m (List.last (run (get_default_response m)).2
                      Call_get_default_selected_pipeline) = Raise e →
          (run (get_default_response m)).1 = Raise e)
  ∧ (is_ok (answer m (List.last (run (get_default_response m)).2
                        Call_get_default_selected_pipeline)) = true →
     length (run (get_default_response m)).2 = 7%nat).
Proof.
  unfold run, get_default_response, lift. cbv zeta.
  dam_cases; cbn [app removelast List.last length fst snd];
    (split; [discriminate|]);
    (split; [repeat (apply List.Forall_cons; [by answered|]);
             apply List.Forall_nil|]);
    (split; [intros exn; answered; try discriminate; by intros [= ->]
            | answered; first [done | discriminate]]).
Qed.

Lemma default_response_stops_at_first_failure_witness :
  (run (get_default_response example_manager_failing_edges)).1
  = Raise (AttributeError "edges")
  ∧ (run (get_default_response example_manager_failing_edges)).2
    = [ Call_get_default_selected_pipeline;
        Call_create_modular_pipelines_tree_for_registered_pipeline "__default__";
        Call_get_nodes_for_registered_pipeline "__default__";
        Call_get_edges_for_registered_pipeline "__default__" ].
Proof.
  split; [|reflexivity].
  apply (default_response_stops_at_first_failure example_manager_failing_edges).
  reflexivity.
Defined.

(** ** What validation raises *)

Lemma bind_Raise_inv {A B} (m : result A) (f : A → result B) (e : pyexc) :
  m ≫= f = Raise e → m = Raise e ∨ ∃ x, m = Ok x ∧ f x = Raise e.
Proof. destruct m as [x|e']; simpl; [eauto | intros [= ->]; by left]. Qed.

Lemma mapM_Raise {A B} (f : A → result B) (l : list A) (e : pyexc) :
  mapM f l = Raise e → ∃ x, x ∈ l ∧ f x = Raise e.
Proof.
  induction l as [|x l IH]; simpl; [discriminate|].
  intros [Hx | (y & _ & H)]%bind_Raise_inv.
  - exists x. split; [apply elem_of_cons; by left | done].
  - apply bind_Raise_inv in H as [H | (k & _ & H)]; [|discriminate].
    destruct (IH H) as (x' & Hin & Hx'). exists x'.
    split; [apply elem_of_cons; by right | done].
Qed.

Lemma ve_validate_str : raises_validation_errors validate_str.
Proof. intros [] e; simpl; intros [= <-]; by eexists _, _. Qed.

Lemma ve_validate_dict : raises_validation_errors validate_dict.
Proof. intros [] e; simpl; intros [= <-]; by eexists _, _. Qed.

Lemma ve_validate_list {A} (f : pyval → result A) :
  raises_validation_errors f → raises_validation_errors (validate_list f).
Proof.
  intros Hf [] e; simpl; try (intros [= <-]; by eexists _, _);
    intros (x & _ & Hx)%mapM_Raise; eauto.
Qed.

Lemma ve_validate_dict_str {A} (f : pyval → result A) :
  raises_validation_errors f → raises_validation_errors (validate_dict_str f).
Proof.
  intros Hf [] e; simpl; try (intros [= <-]; by eexists _, _).
  intros ([k x] & _ & Hx)%mapM_Raise. cbn [fst snd] in Hx.
  apply bind_Raise_inv in Hx as [Hx | (s & _ & Hx)];
    [by eapply ve_validate_str|].
  apply bind_Raise_inv in Hx as [Hx | (y & _ & Hx)]; [eauto | discriminate].
Qed.

Lemma ve_validate_optional {A} (f : pyval → result A) :
  raises_validation_errors f → raises_validation_errors (validate_optional f).
Proof.
  intros Hf v e H. unfold validate_optional in H.
  destruct v; try discriminate;
    (destruct (f _) eqn:Hfv; [discriminate|]; injection H as <-; eauto).
Qed.

Lemma ve_union {A} (l r : pyval → result A) :
  raises_validation_errors r → raises_validation_errors (union l r).
Proof.
  intros Hr v e. unfold union. destruct (l v); [discriminate | eauto].
Qed.

Lemma ve_fmap {A B} (c : A → B) (f : pyval → result A) :
  raises_validation_errors f →
  raises_validation_errors (fun v => c <$> f v).
Proof.
  intros Hf v e H. destruct (f v) eqn:Hfv; [discriminate|].
  injection H as <-. eauto.
Qed.

Lemma ve_get_field fa input name e :
  get_field fa input name = Raise e → is_validation_error e.
Proof.
  unfold get_field. destruct input; try (intros [= <-]; by eexists _, _).
  destruct fa; [discriminate | intros [= <-]; by eexists _, _].
Qed.

Lemma ve_required {A} fa (f : pyval → result A) input name e :
  raises_validation_errors f →
  required fa f input name = Raise e → is_validation_error e.
Proof.
  intros Hf. unfold required.
  intros [H | ([v|] & _ & H)]%bind_Raise_inv.
  - by eapply ve_get_field.
  - eauto.
  - injection H as <-. by eexists _, _.
Qed.

Lemma ve_defaulted {A} fa (f : pyval → result A) dflt input name e :
  raises_validation_errors f →
  defaulted fa f dflt input name = Raise e → is_validation_error e.
Proof.
  intros Hf. unfold defaulted.
  intros [H | ([v|] & _ & H)]%bind_Raise_inv.
  - by eapply ve_get_field.
  - eauto.
  - discriminate.
Qed.

Create HintDb validation_errors.
#[local] Hint Resolve ve_validate_str ve_validate_dict : validation_errors.
#[local] Hint Resolve ve_validate_list ve_validate_dict_str
  ve_validate_optional ve_union ve_fmap : validation_errors.

(** The fields of a model are validated one after the other: the
    exception of a model is the exception of one of its fields. *)
Ltac ve_fields H :=
  cbv zeta in H;
  repeat (apply bind_Raise_inv in H as [H | (? & _ & H)];
          [first [ eapply ve_required; [|exact H]
                 | eapply ve_defaulted; [|exact H] ];
           eauto 8 with validation_errors |]);
  try discriminate.

Lemma ve_base_node : raises_validation_errors BaseGraphNodeAPIResponse.validate.
Proof. intros v e H. unfold BaseGraphNodeAPIResponse.validate in H. ve_fields H. Qed.

Lemma ve_task_node : raises_validation_errors TaskNodeAPIResponse.validate.
Proof.
  intros v e H. unfold TaskNodeAPIResponse.validate in H. cbv zeta in H.
  apply bind_Raise_inv in H as [H | (? & _ & H)]; [by eapply ve_base_node|].
  ve_fields H.
Qed.

Lemma ve_data_node : raises_validation_errors DataNodeAPIResponse.validate.
Proof.
  intros v e H. unfold DataNodeAPIResponse.validate in H. cbv zeta in H.
  apply bind_Raise_inv in H as [H | (? & _ & H)]; [by eapply ve_base_node|].
  ve_fields H.
Qed.

Lemma ve_node : raises_validation_errors validate_NodeAPIResponse.
Proof.
  unfold validate_NodeAPIResponse.
  apply ve_union, ve_fmap, ve_data_node.
Qed.

Lemma ve_edge : raises_validation_errors GraphEdgeAPIResponse.validate.
Proof. intros v e H. unfold GraphEdgeAPIResponse.validate in H. ve_fields H. Qed.

Lemma ve_named_entity : raises_validation_errors NamedEntityAPIResponse.validate.
Proof. intros v e H. unfold NamedEntityAPIResponse.validate in H. ve_fields H. Qed.

Lemma ve_child : raises_validation_errors ModularPipelineChildAPIResponse.validate.
Proof.
  intros v e H. unfold ModularPipelineChildAPIResponse.validate in H.
  ve_fields H.
Qed.

#[local] Hint Resolve ve_node ve_edge ve_named_entity ve_child
  : validation_errors.

Lemma ve_tree_node :
  raises_validation_errors ModularPipelinesTreeNodeAPIResponse.validate.
Proof.
  intros v e H. unfold ModularPipelinesTreeNodeAPIResponse.validate in H.
  ve_fields H.
Qed.

#[local] Hint Resolve ve_tree_node : validation_errors.

Lemma ve_graph : raises_validation_errors GraphAPIResponse.validate.
Proof. intros v e H. unfold GraphAPIResponse.validate in H. ve_fields H. Qed.

Lemma ve_parameters_metadata :
  raises_validation_errors ParametersNodeMetadataAPIResponse.validate.
Proof.
  intros v e H. unfold ParametersNodeMetadataAPIResponse.validate in H.
  ve_fields H.
Qed.

(** X6. Validation raises nothing but validation errors, for the
    aggregate and for both unions. So when the index answers every query,
    the only exception [get_default_response] can raise is a
    [ValidationError]: any other exception, a not-found error among them,
    comes from the index. *)
Theorem default_response_raises_validation_errors_only :
  raises_validation_errors GraphAPIResponse.validate
  ∧ raises_validation_errors validate_NodeAPIResponse
  ∧ raises_validation_errors validate_NodeMetadataAPIResponse
  ∧ (∀ (m : DataAccessManager.t) p kw e,
       DataAccessManager.get_default_selected_pipeline m = Ok p →
       response_kwargs m (RegisteredPipeline.id p) = Ok kw →
       (run (get_default_response m)).1 = Raise e →
       is_validation_error e).
Proof.
  split; [apply ve_graph|]. split; [apply ve_node|]. split.
  - unfold validate_NodeMetadataAPIResponse.
    do 3 apply ve_union. apply ve_fmap, ve_parameters_metadata.
  - intros m p kw e Hp Hkw. rewrite get_default_response_result, Hp.
    cbn [mbind result_bind]. rewrite Hkw. cbn [mbind result_bind].
    apply ve_graph.
Qed.

Lemma default_response_raises_validation_errors_only_witness :
  ∃ e, (run (get_default_response example_manager_with_invalid_node)).1 = Raise e
       ∧ is_validation_error e.
Proof.
  eexists. split; [reflexivity|].
  eapply (proj2 (proj2 (proj2 default_response_raises_validation_errors_only))
            example_manager_with_invalid_node); reflexivity.
Defined.

(** ** The encoder: what the bytes determine *)



(** ** The encoder: keys, tuples and arrays converted beforehand *)

Lemma mapM_map {A B C} (f : B → result C) (g : A → B) (l : list A) :
  mapM f (map g l) = mapM (fun x => f (g x)) l.
Proof. induction l as [|x l IH]; [done|]. simpl. by rewrite IH. Qed.

Lemma mapM_ext_Forall {A B} (f g : A → result B) (l : list A) :
  Forall (fun x => f x = g x) l → mapM f l = mapM g l.
Proof. induction 1 as [|x l Hx _ IH]; [done|]. simpl. by rewrite Hx, IH. Qed.

Lemma forallb_map {A B} (p : B → bool) (g : A → B) (l : list A) :
  forallb p (map g l) = forallb (fun x => p (g x)) l.
Proof. induction l as [|x l IH]; [done|]. simpl. by rewrite IH. Qed.

Lemma document_scalar_canonical (t : dtype) (x : scalar t) (d : nat) :
  scalar_serializable t x = true →
  orjson.document human_readable_option d (scalar_canonical t x)
  = orjson.scalar_document t x.
Proof.
  destruct t; cbn; try done.
  - intros H.
    change (orjson.int_in_range human_readable_option x)
      with (int64_or_uint64 x).
    rewrite H. unfold int64_or_uint64 in H. by rewrite H.
  - by destruct x.
  - by destruct x.
  - by destruct x.
Qed.

Lemma document_nested_list (t : dtype) (a : nested (scalar t)) :
  ∀ d, nested_forallb (scalar_serializable t) a = true →
       serializable d (nested_list (scalar_canonical t) a) = true →
       orjson.document human_readable_option d
         (nested_list (scalar_canonical t) a)
       = orjson.nested_document (orjson.scalar_document t) a.
Proof.
  induction a as [xs|rows IH] using nested_ind'; intros d;
    cbn [nested_list nested_forallb serializable orjson.document
         orjson.nested_document];
    rewrite Nat.ltb_antisym;
    (destruct (orjson.RECURSION_LIMIT <=? d)%nat; [by rewrite andb_false_l|]);
    cbn [negb andb]; rewrite forallb_map, mapM_map; intros Ha Hs; f_equal;
    apply mapM_ext_Forall, Forall_forall; intros x Hx%list_elem_of_In;
    rewrite forallb_forall in Ha, Hs; specialize (Ha _ Hx);
    specialize (Hs _ Hx).
  - by apply document_scalar_canonical.
  - rewrite Forall_forall in IH. apply IH; [by apply list_elem_of_In|done..].
Qed.

Lemma document_ndarray_canonical (a : ndarray) (d : nat) :
  ndarray_serializable a = true →
  serializable d (ndarray_canonical a) = true →
  orjson.document human_readable_option d (ndarray_canonical a)
  = orjson.document_of_ndarray a.
Proof.
  unfold ndarray_serializable, orjson.document_of_ndarray, ndarray_canonical.
  intros [[-> ->]%andb_true_iff Ha]%andb_true_iff Hs. cbn [negb].
  by apply document_nested_list.
Qed.

Lemma document_canonical (v : pyval) :
  ∀ d, serializable d v = true →
       serializable d (canonical v) = true →
       no_key_clash v = true →
       orjson.document human_readable_option d (canonical v)
       = orjson.document human_readable_option d v.
Proof.
  unfold canonical.
  assert (∀ xs d,
            Forall (fun v => ∀ d,
                      serializable d v = true →
                      serializable d (reading reader.dict_of_members v) = true →
                      no_key_clash v = true →
                      orjson.document human_readable_option d
                        (reading reader.dict_of_members v)
                      = orjson.document human_readable_option d v) xs →
            (d <? orjson.RECURSION_LIMIT)%nat
            && forallb (serializable (S d)) xs = true →
            serializable d (PyList (map (reading reader.dict_of_members) xs))
            = true →
            forallb no_key_clash xs = true →
            orjson.document human_readable_option d
              (PyList (map (reading reader.dict_of_members) xs))
            = (if (orjson.RECURSION_LIMIT <=? d)%nat
               then Raise (JSONEncodeError "Recursion limit reached")
               else JArr <$> mapM (orjson.document human_readable_option (S d))
                               xs)) as Hitems.
  { intros xs d IH. cbn [serializable orjson.document].
    rewrite Nat.ltb_antisym.
    destruct (orjson.RECURSION_LIMIT <=? d)%nat; [done|]. cbn [negb andb].
    rewrite forallb_map, mapM_map. intros Hs Hc Hk. f_equal.
    apply mapM_ext_Forall, Forall_forall. intros x Hx.
    rewrite Forall_forall in IH. rewrite forallb_forall in Hs, Hc, Hk.
    pose proof (proj1 (list_elem_of_In _ _) Hx) as Hin.
    apply IH; auto. }
  induction v as [|v|z|s|xs IH|kvs IH|a|cls attrs|f|xs IH]
    using pyval_nested_ind;
    intros d; try done.
  - by apply Hitems.
  - cbn [reading no_key_clash].
    intros Hs Hc [Hdist Hk]%andb_true_iff.
    rewrite dict_of_members_distinct in * by (by rewrite map_map).
    unfold reader.pairs_of_members in *.
    rewrite map_map in *. cbn [fst snd] in *.
    cbn [serializable orjson.document] in *.
    rewrite Nat.ltb_antisym in *.
    destruct (orjson.RECURSION_LIMIT <=? d)%nat; [done|]. cbn [negb andb] in *.
    rewrite forallb_map in Hc. rewrite mapM_map. f_equal.
    apply mapM_ext_Forall, Forall_forall. intros [k x] Hx.
    rewrite Forall_forall in IH. rewrite forallb_forall in Hs, Hc, Hk.
    pose proof (proj1 (list_elem_of_In _ _) Hx) as Hin.
    specialize (Hs _ Hin). specialize (Hc _ Hin). specialize (Hk _ Hin).
    specialize (IH _ Hx). cbn [fst snd] in *.
    apply andb_true_iff in Hs as [Hks Hxs].
    apply andb_true_iff in Hc as [Hkc Hxc].
    rewrite IH by done.
    rewrite <- key_str_ok in Hks. destruct (is_ok_true _ Hks) as [s Hs].
    rewrite Hs, <- (key_str_canonical _ _ Hs).
    cbn [key_serializable] in Hkc. rewrite <- (key_str_canonical _ _ Hs) in Hkc.
    cbn [orjson.key_str]. unfold orjson.check_str.
    unfold str_ok in Hkc. apply negb_true_iff in Hkc. by rewrite Hkc.
  - cbn [reading serializable orjson.document]. intros Ha Hc _.
    change (orjson.enabled human_readable_option orjson.OPT_SERIALIZE_NUMPY)
      with true. cbv iota. by apply document_ndarray_canonical.
  - intros _ _ _. by destruct f.
  - cbn [reading no_key_clash]. intros Hs Hc Hk.
    by rewrite Hitems.
Qed.

(** X8. Converting beforehand changes nothing: a content the encoder
    accepts is written as the very bytes of its canonical form (every
    mapping key turned into its string, every tuple into a list, every
    numeric array into the nested lists of its elements as they are
    written, [nan] and the infinities into [None]), provided no two keys
    of a mapping turn into the same string and the canonical form stays
    within the nesting limit. *)
Theorem encode_to_human_readable_writes_canonical_form (content : pyval) :
  serializable 0 content = true →
  serializable 0 (canonical content) = true →
  no_key_clash content = true →
  encode_to_human_readable (canonical content)
  = encode_to_human_readable content.
Proof.
  intros Hs Hc Hk. rewrite !encode_to_human_readable_document.
  by rewrite document_canonical.
Qed.

Lemma encode_to_human_readable_writes_canonical_form_witness :
  encode_to_human_readable example_content_read
  = encode_to_human_readable example_content.
Proof.
  apply (encode_to_human_readable_writes_canonical_form example_content);
    reflexivity.
Defined.

(** ** The encoder: the bytes of the text *)

Lemma clean_escape_byte (c : byte) (r : bytes) :
  clean true (orjson.escape_byte c ++ r) = clean true r.
Proof. destruct c; reflexivity. Qed.

Lemma clean_escape (cs : bytes) (s : bytes) :
  clean true (orjson.escape cs ++ x22 :: s) = clean false s.
Proof.
  induction cs as [|c cs IH]; [reflexivity|].
  unfold orjson.escape in *. cbn [flat_map]. rewrite <- app_assoc.
  by rewrite clean_escape_byte.
Qed.

Lemma clean_quote (k : string) (s : bytes) :
  clean false (orjson.quote k ++ s) = clean false s.
Proof.
  unfold orjson.quote. cbn [app clean].
  rewrite <- app_assoc. apply clean_escape.
Qed.

Lemma clean_number_bytes (t s : bytes) :
  forallb number_byte t = true → clean false (t ++ s) = clean false s.
Proof.
  induction t as [|c t IH]; [done|]. cbn [forallb].
  intros [Hc Ht]%andb_true_iff. cbn [app]. rewrite <- (IH Ht).
  by destruct c.
Qed.

Lemma clean_newline (d : nat) (s : bytes) :
  clean false (orjson.newline d ++ s) = clean false s.
Proof.
  unfold orjson.newline. cbn [app clean]. generalize (2 * d)%nat. intros n.
  induction n as [|n IH]; [done|]. exact IH.
Qed.

Lemma clean_join (close : byte) (rest : bytes) (sep : bytes) {A}
    (w : A → bytes) (xs : list A) :
  (∀ r, clean false (sep ++ r) = clean false r) →
  Forall (fun x => ∀ r, clean false (w x ++ r) = clean false r) xs →
  ∀ r, clean false (orjson.join sep (map w xs) ++ r) = clean false r.
Proof.
  intros Hsep. induction 1 as [|x xs Hx Hxs IH]; intros r; [done|].
  destruct xs as [|y ys].
  - cbn [map orjson.join]. apply Hx.
  - cbn [map]. rewrite join_cons_cons, <- !app_assoc.
    rewrite Hx, Hsep. apply IH.
Qed.

Lemma clean_write (j : json) :
  ∀ d rest, clean false (orjson.write true d j ++ rest) = clean false rest.
Proof.
  assert (∀ d r, clean false ((x2c :: orjson.newline d) ++ r) = clean false r)
    as Hsep by (intros d r; cbn [app clean]; apply clean_newline).
  induction j as [|v|z|s|items IH|members IH|x] using json_nested_ind;
    intros d rest.
  - reflexivity.
  - destruct v; reflexivity.
  - apply clean_number_bytes, number_bytes_int.
  - apply clean_quote.
  - destruct items as [|x xs]; [reflexivity|].
    rewrite write_arr_cons. cbn [app clean]. rewrite <- !app_assoc.
    rewrite clean_newline.
    rewrite (clean_join x5d rest _ (orjson.write true (S d))); [|apply Hsep|].
    + by rewrite clean_newline.
    + eapply Forall_impl; [exact IH|]. auto.
  - destruct members as [|m ms]; [reflexivity|].
    rewrite write_obj_cons. cbn [app clean]. rewrite <- !app_assoc.
    rewrite clean_newline.
    rewrite (clean_join x7d rest _ (write_member d)); [|apply Hsep|].
    + by rewrite clean_newline.
    + eapply Forall_impl; [exact IH|]. intros m' Hm' r.
      unfold write_member. rewrite <- !app_assoc, clean_quote.
      cbn [app clean]. apply Hm'.
  - apply clean_number_bytes, number_bytes_float.
Qed.

Lemma number_bytes_last (t : bytes) :
  forallb number_byte t = true → t ≠ [] →
  ∃ body c, t = body ++ [c] ∧ c ≠ x0a.
Proof.
  intros Ht Hne. destruct (exists_last Hne) as (body & c & ->).
  exists body, c. split; [done|].
  rewrite forallb_app in Ht. apply andb_true_iff in Ht as [_ Hc].
  cbn in Hc. by destruct c.
Qed.

Lemma bracketed_last (open close : byte) (l1 l2 l3 : bytes) :
  open :: l1 ++ l2 ++ l3 ++ [close] = (open :: l1 ++ l2 ++ l3) ++ [close].
Proof. cbn [app]. by rewrite <- !app_assoc. Qed.

Lemma write_last (j : json) (d : nat) :
  ∃ body c, orjson.write true d j = body ++ [c] ∧ c ≠ x0a.
Proof.
  destruct j as [|v|z|s|items|members|x].
  - by exists (b "nul"), x6c.
  - destruct v; [by exists (b "tru"), x65 | by exists (b "fals"), x65].
  - apply number_bytes_last; [apply number_bytes_int|].
    destruct (int_bytes_head z) as (c & tl & Hz & _). cbn [orjson.write].
    by rewrite Hz.
  - unfold orjson.write, orjson.quote.
    by exists (x22 :: orjson.escape (list_byte_of_string s)), x22.
  - destruct items as [|x xs]; [by exists [x5b], x5d|].
    rewrite write_arr_cons, bracketed_last. by eexists _, _.
  - destruct members as [|m ms]; [by exists [x7b], x7d|].
    rewrite write_obj_cons, bracketed_last. by eexists _, _.
  - apply number_bytes_last; [apply number_bytes_float|].
    destruct (float_bytes_head x) as (c & tl & Hx & _). cbn [orjson.write].
    by rewrite Hx.
Qed.

(** X9. The text the encoder returns holds no control character inside
    a string (the control characters of a string are escaped) and outside
    the strings none but the line breaks of its layout; and it does not
    end with a line break: [OPT_APPEND_NEWLINE] is not among the
    options. *)
Theorem encode_to_human_readable_text_bytes (content : pyval) (out : bytes) :
  encode_to_human_readable content = Ok out →
  clean false out = true
  ∧ ∃ body c, out = body ++ [c] ∧ c ≠ x0a.
Proof.
  rewrite encode_to_human_readable_document.
  intros (j & _ & ->)%fmap_Ok. split; [|apply write_last].
  pose proof (clean_write j 0 []) as H. by rewrite app_nil_r in H.
Qed.

Lemma encode_to_human_readable_text_bytes_witness :
  ∃ out,
    encode_to_human_readable
      (PyList [PyStr (string_of_list_byte [x61; x0a; x62])]) = Ok out
    ∧ clean false out = true
    ∧ ∃ body c, out = body ++ [c] ∧ c ≠ x0a.
Proof.
  eexists. split; [reflexivity|].
  apply (encode_to_human_readable_text_bytes
           (PyList [PyStr (string_of_list_byte [x61; x0a; x62])])).
  reflexivity.
Defined.
(** ** What validation reads *)

Lemma same_fields_get (names : list string) (a b : pyval) (name : string) :
  same_fields names a b → In name names →
  get_field true a name = get_field true b name.
Proof. unfold same_fields. rewrite List.Forall_forall. auto. Qed.

(** The fields of [names] are read in [b] as they are in [a]. *)
Ltac read_in_other H :=
  unfold required, defaulted, BaseAPIResponse_from_attributes; cbv zeta;
  repeat match goal with
         | |- context [get_field true ?a ?name] =>
             rewrite (same_fields_get _ a _ name H) by (simpl; tauto)
         end.

Lemma node_validate_same_fields (a b : pyval) :
  same_fields NodeAPIResponse_field_names a b →
  validate_NodeAPIResponse a = validate_NodeAPIResponse b.
Proof.
  intros H.
  unfold validate_NodeAPIResponse, union, TaskNodeAPIResponse.validate,
    DataNodeAPIResponse.validate, BaseGraphNodeAPIResponse.validate.
  by read_in_other H.
Qed.

Lemma graph_validate_same_fields (a b : pyval) :
  same_fields GraphAPIResponse.field_names a b →
  GraphAPIResponse.validate a = GraphAPIResponse.validate b.
Proof.
  intros H. unfold GraphAPIResponse.validate. by read_in_other H.
Qed.

(** X11. Validation reads the declared fields and nothing else: two
    inputs (mappings or objects) that agree on the fields a flat node
    declares validate to the same flat node or raise the same error,
    whatever else they hold; likewise for the fields of a
    [GraphAPIResponse]. *)
Theorem validation_reads_declared_fields_only (a b : pyval) :
  (same_fields NodeAPIResponse_field_names a b →
   validate_NodeAPIResponse a = validate_NodeAPIResponse b)
  ∧ (same_fields GraphAPIResponse.field_names a b →
     GraphAPIResponse.validate a = GraphAPIResponse.validate b).
Proof.
  split; [apply node_validate_same_fields | apply graph_validate_same_fields].
Qed.

Lemma validation_reads_declared_fields_only_witness :
  validate_NodeAPIResponse example_task_node_object
  = validate_NodeAPIResponse example_task_node_kwargs
  ∧ is_ok (validate_NodeAPIResponse example_task_node_object) = true.
Proof.
  split; [|reflexivity].
  apply (proj1 (validation_reads_declared_fields_only
                  example_task_node_object example_task_node_kwargs)).
  unfold same_fields, NodeAPIResponse_field_names. simpl.
  repeat (apply List.Forall_cons; [reflexivity|]). apply List.Forall_nil.
Defined.

(** ** Objects and mappings *)

Lemma dict_get_str_vars (name : string) (attrs : list (string * pyval)) :
  dict_get_str name (vars attrs) = assoc name attrs.
Proof.
  induction attrs as [|[k v] attrs IH]; [done|]. simpl. by rewrite IH.
Qed.

Lemma same_fields_vars (names : list string) (cls : string)
    (attrs : list (string * pyval)) :
  same_fields names (PyObject cls attrs) (PyDict (vars attrs)).
Proof.
  apply List.Forall_forall. intros name _. unfold get_field.
  by rewrite dict_get_str_vars.
Qed.

(** X12. [APIErrorMessage] does not read objects: it takes the dump of
    any of its values back, and it refuses every object with a validation
    error (it does not set [from_attributes]). The classes derived from
    [BaseAPIResponse] do read them: a flat node or a [GraphAPIResponse]
    built from an object is the one built from the mapping of the
    attributes of the object, whatever its class. *)
Theorem api_error_message_reads_mappings_responses_read_objects :
  (∀ r, APIErrorMessage.validate (APIErrorMessage.model_dump r) = Ok r)
  ∧ (∀ cls attrs,
       ∃ e, APIErrorMessage.validate (PyObject cls attrs) = Raise e
            ∧ is_validation_error e)
  ∧ (∀ cls attrs,
       validate_NodeAPIResponse (PyObject cls attrs)
       = validate_NodeAPIResponse (PyDict (vars attrs))
       ∧ GraphAPIResponse.validate (PyObject cls attrs)
         = GraphAPIResponse.validate (PyDict (vars attrs))).
Proof.
  split; [by intros [m]|]. split.
  - intros cls attrs. eexists. split; [reflexivity|]. by eexists _, _.
  - intros cls attrs. split.
    + apply node_validate_same_fields, same_fields_vars.
    + apply graph_validate_same_fields, same_fields_vars.
Qed.

(** ** Instances of the round trips *)

Lemma node_metadata_dump_round_trip_witness :
  validate_NodeMetadataAPIResponse
    (PyDict [(PyStr "parameters", PyDict [(PyStr "random_state", PyInt 3)])])
  = Ok (ParametersNodeMetadata
          (ParametersNodeMetadataAPIResponse.mk
             [(PyStr "random_state", PyInt 3)]))
  ∧ ParametersNodeMetadata
      (ParametersNodeMetadataAPIResponse.mk [(PyStr "random_state", PyInt 3)])
    = ParametersNodeMetadata
        (ParametersNodeMetadataAPIResponse.mk [(PyStr "random_state", PyInt 3)]).
Proof.
  split.
  - apply (proj1 node_metadata_dump_round_trip
             (ParametersNodeMetadata
                (ParametersNodeMetadataAPIResponse.mk
                   [(PyStr "random_state", PyInt 3)]))).
  - apply (proj2 node_metadata_dump_round_trip). reflexivity.
Defined.

Lemma component_dump_round_trip_witness :
  validate_NodeAPIResponse
    (dump_NodeAPIResponse example_bare_data_node_response)
  = Ok example_bare_data_node_response
  ∧ example_bare_data_node_response = example_bare_data_node_response.
Proof.
  split.
  - apply (proj1 (proj1 component_dump_round_trip)).
  - apply (proj1 (proj2 component_dump_round_trip)). reflexivity.
Defined.
